(** * github-trending-cli: cache store, trending fetcher, filter and health scorer

    A shallow embedding of [github_trending.py] (cache store, rate limiter,
    trending fetcher, filter) and [analyzer.py] (health scorer, batch
    analyzer), with the properties of their specification.

    Conventions of the embedding.
    - Python values that travel through JSON are [pyval]s.  A dict is an
      association list in insertion order, as Python keeps it.  What is
      handed to [json.dump] is a [pyobj]: the same values, tuples, and dicts
      with keys that are no strings.
    - A Python [str] is a [string], one character per code point; the
      characters range over U+0000..U+00FF, where [str.lower] acts character
      by character.
    - A Python [float] is a rational [Q]: sums, differences and comparisons
      are exact, rounding, infinities and NaN are outside the model.
    - A call either returns or raises: [result].  Code with effects runs in
      the monad [M S], which threads a state [S] and keeps the state reached
      when an exception is raised.
    - The rationale strings of the scorer ([details], the second component of
      every score tuple) and console output are display text and are left
      out; where computing such a text can raise, the exception is kept. *)

From Stdlib Require Import ZArith QArith Qround Lqa List String Ascii Bool Lia Permutation Sorted.
From stdpp Require Import base tactics option list functions gmap strings pretty.

Import ListNotations.
Local Open Scope string_scope.
Local Open Scope list_scope.
Local Open Scope Z_scope.
Local Set Warnings "-register-all".

(** ** Exceptions and results *)

Module Py.

Inductive exn : Type :=
| AttributeError
| TypeError
| ValueError
| JSONDecodeError
| UnicodeDecodeError
| UnicodeEncodeError
| KeyError
| IndexError
| OSError
| URLError
| HTTPError (code : Z)
| SystemExit (code : Z).

(** The classes named in the [except] clauses of the two modules. *)
Inductive exn_class : Type :=
| CAttributeError | CTypeError | CValueError | CJSONDecodeError
| CUnicodeDecodeError | CKeyError | CIndexError | COSError | CURLError
| CHTTPError | CException.

(** [isinstance e c], following the class hierarchy of the interpreter:
    [JSONDecodeError], [UnicodeDecodeError] and [UnicodeEncodeError] derive
    from [ValueError],
    [HTTPError] from [URLError] from [OSError], and [SystemExit] derives from
    [BaseException] only. *)
Definition isinstance (e : exn) (c : exn_class) : bool :=
  match c, e with
  | CException, SystemExit _ => false
  | CException, _ => true
  | CAttributeError, AttributeError => true
  | CTypeError, TypeError => true
  | CValueError, (ValueError | JSONDecodeError | UnicodeDecodeError
                  | UnicodeEncodeError) => true
  | CJSONDecodeError, JSONDecodeError => true
  | CUnicodeDecodeError, UnicodeDecodeError => true
  | CKeyError, KeyError => true
  | CIndexError, IndexError => true
  | COSError, (OSError | URLError | HTTPError _) => true
  | CURLError, (URLError | HTTPError _) => true
  | CHTTPError, HTTPError _ => true
  | _, _ => false
  end.

Definition caught (cs : list exn_class) (e : exn) : bool :=
  existsb (isinstance e) cs.

Inductive result (A : Type) : Type :=
| Ret (a : A)
| Raise (e : exn).
Arguments Ret {A} a.
Arguments Raise {A} e.

Definition rbind {A B} (r : result A) (k : A -> result B) : result B :=
  match r with
  | Ret a => k a
  | Raise e => Raise e
  end.

(** [try: r  except cs: h] on a computation without effects. *)
Definition rtry {A} (r : result A) (cs : list exn_class) (h : result A) : result A :=
  match r with
  | Ret a => Ret a
  | Raise e => if caught cs e then h else Raise e
  end.

(** State and exceptions. *)
Definition M (S A : Type) : Type := S -> result A * S.

Definition ret {S A} (a : A) : M S A := fun s => (Ret a, s).
Definition raise {S A} (e : exn) : M S A := fun s => (Raise e, s).
Definition lift {S A} (r : result A) : M S A := fun s => (r, s).
Definition bind {S A B} (m : M S A) (k : A -> M S B) : M S B :=
  fun s => match m s with
           | (Ret a, s') => k a s'
           | (Raise e, s') => (Raise e, s')
           end.
Definition get {S} : M S S := fun s => (Ret s, s).
Definition modify {S} (f : S -> S) : M S unit := fun s => (Ret tt, f s).

(** [try: m  except cs: h]. *)
Definition try_except {S A} (m : M S A) (cs : list exn_class) (h : exn -> M S A) : M S A :=
  fun s => match m s with
           | (Ret a, s') => (Ret a, s')
           | (Raise e, s') => if caught cs e then h e s' else (Raise e, s')
           end.

End Py.
Export Py.

Declare Scope py_scope.
Delimit Scope py_scope with py.
Notation "'let?' x ':=' r 'in' k" := (rbind r (fun x => k))
  (at level 10, x name, r at level 100, k at level 200, only parsing) : py_scope.
Notation "x <- m ;; k" := (bind m (fun x => k))
  (at level 100, m at next level, right associativity, only parsing) : py_scope.
Notation "m ;;; k" := (bind m (fun _ => k))
  (at level 100, right associativity, only parsing) : py_scope.
Local Open Scope py_scope.

(** ** Strings: the [str] methods the two modules call *)

Module Str.

Definition code (a : ascii) : Z := Z.of_N (N_of_ascii a).

Definition between (lo hi : Z) (a : ascii) : bool :=
  (lo <=? code a) && (code a <=? hi).

(** [str.lower] on one code point of U+0000..U+00FF: the cased capitals are
    A-Z, U+00C0..U+00D6 and U+00D8..U+00DE, each 32 below its small letter. *)
Definition lower_char (a : ascii) : ascii :=
  if between 65 90 a || between 192 214 a || between 216 222 a
  then ascii_of_N (N_of_ascii a + 32)
  else a.

Fixpoint lower (s : string) : string :=
  match s with
  | EmptyString => EmptyString
  | String a s' => String (lower_char a) (lower s')
  end.

(** [len(s)]. *)
Definition len (s : string) : Z := Z.of_nat (String.length s).

(** [needle in hay]: substring test. *)
Fixpoint contains (needle hay : string) : bool :=
  if String.prefix needle hay then true
  else match hay with
       | EmptyString => false
       | String _ hay' => contains needle hay'
       end.

(** [s.replace(c, new)] for a one-character [c]. *)
Fixpoint replace (c : ascii) (new s : string) : string :=
  match s with
  | EmptyString => EmptyString
  | String a s' =>
      if Ascii.eqb a c then new +:+ replace c new s'
      else String a (replace c new s')
  end.

(** [s.split(c)] for a one-character separator [c]. *)
Fixpoint split (c : ascii) (s : string) : list string :=
  match s with
  | EmptyString => [EmptyString]
  | String a s' =>
      if Ascii.eqb a c then EmptyString :: split c s'
      else match split c s' with
           | x :: xs => String a x :: xs
           | [] => [String a EmptyString]
           end
  end.

(** *** [int(s)]

    Base-10 conversion as the interpreter does it: white space around the
    literal is skipped, one sign is allowed, digits may be grouped by single
    underscores, and a literal of more than [max_str_digits] digits is
    refused.  Every failure is a [ValueError]. *)

Definition is_space (a : ascii) : bool :=
  between 9 13 a || (code a =? 32) || (code a =? 133) || (code a =? 160).

Definition digit_val (a : ascii) : option Z :=
  if between 48 57 a then Some (code a - 48) else None.

Fixpoint skip_space (s : string) : string :=
  match s with
  | EmptyString => EmptyString
  | String a s' => if is_space a then skip_space s' else s
  end.

Definition max_str_digits : nat := 4300.

(** The digits after the first one: [acc] is the value read so far, [n] the
    number of digits read.  Stops at the first character that is neither a
    digit nor an underscore; an underscore must stand between two digits. *)
Fixpoint digits (acc : Z) (n : nat) (s : string) : option (Z * nat * string) :=
  match s with
  | EmptyString => Some (acc, n, EmptyString)
  | String a s' =>
      match digit_val a with
      | Some d => digits (10 * acc + d) (S n) s'
      | None =>
          if Ascii.eqb a "_" then
            match s' with
            | String b s'' =>
                match digit_val b with
                | Some d => digits (10 * acc + d) (S n) s''
                | None => None
                end
            | EmptyString => None
            end
          else Some (acc, n, s)
      end
  end.

Definition unsigned (s : string) : result Z :=
  match s with
  | String a s' =>
      match digit_val a with
      | Some d =>
          match digits d 1 s' with
          | Some (v, n, rest) =>
              match skip_space rest with
              | EmptyString =>
                  if (n <=? max_str_digits)%nat then Ret v else Raise ValueError
              | String _ _ => Raise ValueError
              end
          | None => Raise ValueError
          end
      | None => Raise ValueError
      end
  | EmptyString => Raise ValueError
  end.

Definition int (s : string) : result Z :=
  match skip_space s with
  | String "-" s' => let? v := unsigned s' in Ret (- v)
  | String "+" s' => unsigned s'
  | s' => unsigned s'
  end.

End Str.

(** ** Values *)

Module Val.

(** What [json.loads] can return, and what the two modules build from it.
    The keys of a dict are distinct (of a repeated key [json.loads] keeps the
    last value). *)
Inductive pyval : Type :=
| VNone
| VBool (b : bool)
| VInt (z : Z)
| VFloat (q : Q)
| VStr (s : string)
| VList (l : list pyval)
| VDict (d : list (string * pyval)).

(** *** Dicts with string keys, in insertion order *)

Fixpoint dict_get {A} (d : list (string * A)) (k : string) : option A :=
  match d with
  | [] => None
  | (k', v) :: d' => if String.eqb k' k then Some v else dict_get d' k
  end.

(** [d[k] = v]: an existing key keeps its place, a new key goes last. *)
Fixpoint dict_set {A} (d : list (string * A)) (k : string) (v : A) : list (string * A) :=
  match d with
  | [] => [(k, v)]
  | (k', v') :: d' =>
      if String.eqb k' k then (k', v) :: d' else (k', v') :: dict_set d' k v
  end.

Definition dict_has {A} (d : list (string * A)) (k : string) : bool :=
  match dict_get d k with Some _ => true | None => false end.

Definition dict_keys {A} (d : list (string * A)) : list string := map fst d.
Definition dict_values {A} (d : list (string * A)) : list A := map snd d.

(** *** Dynamic operations *)

Definition Qnonzero (q : Q) : bool := negb (Qeq_bool q 0).

(** Truth value of an object ([if v:], [not v], [v and ...], [v or ...]). *)
Definition truthy (v : pyval) : bool :=
  match v with
  | VNone => false
  | VBool b => b
  | VInt z => negb (z =? 0)
  | VFloat q => Qnonzero q
  | VStr s => negb (String.eqb s "")
  | VList l => match l with [] => false | _ => true end
  | VDict d => match d with [] => false | _ => true end
  end.

(** [v.get(k, default)]: only a dict has the method. *)
Definition py_get (v : pyval) (k : string) (default : pyval) : result pyval :=
  match v with
  | VDict d => Ret (match dict_get d k with Some x => x | None => default end)
  | _ => Raise AttributeError
  end.

(** [k in v] for a string [k]: key of a dict, element of a list, substring
    of a string; the other objects are not containers. *)
Definition py_in (k : string) (v : pyval) : result bool :=
  match v with
  | VDict d => Ret (dict_has d k)
  | VList l => Ret (existsb (fun x => match x with VStr s => String.eqb s k | _ => false end) l)
  | VStr s => Ret (Str.contains k s)
  | _ => Raise TypeError
  end.

(** [v[k]] for a string [k]. *)
Definition py_getitem (v : pyval) (k : string) : result pyval :=
  match v with
  | VDict d => match dict_get d k with Some x => Ret x | None => Raise KeyError end
  | _ => Raise TypeError
  end.

(** [v[k] = x] for a string [k]. *)
Definition py_setitem (v : pyval) (k : string) (x : pyval) : result pyval :=
  match v with
  | VDict d => Ret (VDict (dict_set d k x))
  | _ => Raise TypeError
  end.

(** [for x in v]: the elements of a list, the keys of a dict, the characters
    of a string. *)
Fixpoint chars (s : string) : list pyval :=
  match s with
  | EmptyString => []
  | String a s' => VStr (String a EmptyString) :: chars s'
  end.

Definition py_iter (v : pyval) : result (list pyval) :=
  match v with
  | VList l => Ret l
  | VDict d => Ret (map VStr (dict_keys d))
  | VStr s => Ret (chars s)
  | _ => Raise TypeError
  end.

(** The number a value stands for in arithmetic and ordering: [bool] is a
    subclass of [int]. *)
Definition py_num (v : pyval) : result Q :=
  match v with
  | VBool b => Ret (inject_Z (if b then 1 else 0))
  | VInt z => Ret (inject_Z z)
  | VFloat q => Ret q
  | _ => Raise TypeError
  end.

Definition Qltb (a b : Q) : bool := negb (Qle_bool b a).

(** [v < n] and [v > n] against an integer [n]. *)
Definition py_lt (v : pyval) (n : Z) : result bool :=
  let? q := py_num v in Ret (Qltb q (inject_Z n)).
Definition py_gt (v : pyval) (n : Z) : result bool :=
  let? q := py_num v in Ret (Qltb (inject_Z n) q).

(** [v == s] against a string [s]. *)
Definition py_eq_str (v : pyval) (s : string) : bool :=
  match v with VStr s' => String.eqb s' s | _ => false end.

(** *** Objects handed to [json.dump]

    What a caller can pass to be written: the values of JSON, and besides
    them tuples, dicts whose keys are integers, booleans or [None], a string
    with a lone surrogate (a code point of U+D800..U+DFFF, which UTF-8
    cannot encode), and objects [json] has no encoding for (a set; a key
    that is a tuple).  The keys of a dict are distinct as Python compares
    them.  Keys that are floats are left out, with the texts of floats. *)
Inductive pykey : Type :=
| KStr (s : string)
| KInt (z : Z)
| KBool (b : bool)
| KNone
| KTuple.

Inductive pyobj : Type :=
| ONone
| OBool (b : bool)
| OInt (z : Z)
| OFloat (q : Q)
| OStr (s : string)
| OList (l : list pyobj)
| OTuple (l : list pyobj)
| ODict (d : list (pykey * pyobj))
| OSurrogate
| OSet (l : list pyobj).

(** A value of JSON as an object. *)
Fixpoint of_json (v : pyval) : pyobj :=
  match v with
  | VNone => ONone
  | VBool b => OBool b
  | VInt z => OInt z
  | VFloat q => OFloat q
  | VStr s => OStr s
  | VList l => OList (map of_json l)
  | VDict d => ODict (map (fun kv => (KStr (fst kv), of_json (snd kv))) d)
  end.

(** [str(z)] is refused for an integer of more than [max_str_digits]
    digits, as [int(s)] is. *)
Definition int_fits (z : Z) : bool :=
  Z.abs z <? 10 ^ Z.of_nat Str.max_str_digits.

(** The key [json.dump] writes for a key of a dict: a string as it is, an
    integer in decimal, [true], [false] and [null]; any other key is a
    [TypeError]. *)
Definition key_text (k : pykey) : result string :=
  match k with
  | KStr s => Ret s
  | KInt z => if int_fits z then Ret (pretty z) else Raise ValueError
  | KBool b => Ret (if b then "true" else "false")
  | KNone => Ret "null"
  | KTuple => Raise TypeError
  end.

(** [dict(pairs)]: what [json.load] makes of the members of an object, in
    the order of the text; of a repeated key the last value is kept. *)
Definition dict_of_pairs (pairs : list (string * pyval)) : list (string * pyval) :=
  fold_left (fun acc kv => dict_set acc (fst kv) (snd kv)) pairs [].

(** [json.load] of the text [json.dump] writes for an object: the value it
    is read back as, or the exception raised while the text is written, the
    object being encoded from left to right.  A tuple is written as a list;
    the text of a string with a lone surrogate is refused by the file, which
    is opened with the encoding UTF-8. *)
Fixpoint to_json (o : pyobj) : result pyval :=
  match o with
  | ONone => Ret VNone
  | OBool b => Ret (VBool b)
  | OInt z => if int_fits z then Ret (VInt z) else Raise ValueError
  | OFloat q => Ret (VFloat q)
  | OStr s => Ret (VStr s)
  | OList l | OTuple l =>
      let? l' := (fix elements (l : list pyobj) : result (list pyval) :=
                    match l with
                    | [] => Ret []
                    | x :: rest =>
                        let? x' := to_json x in
                        let? rest' := elements rest in
                        Ret (x' :: rest')
                    end) l in
      Ret (VList l')
  | ODict d =>
      let? d' := (fix members (d : list (pykey * pyobj)) : result (list (string * pyval)) :=
                    match d with
                    | [] => Ret []
                    | (k, x) :: rest =>
                        let? k' := key_text k in
                        let? x' := to_json x in
                        let? rest' := members rest in
                        Ret ((k', x') :: rest')
                    end) d in
      Ret (VDict (dict_of_pairs d'))
  | OSurrogate => Raise UnicodeEncodeError
  | OSet _ => Raise TypeError
  end.

End Val.
Export Val.

(** ** [github_trending.py] *)

Module Trending.

(** A path is the list of its components. *)
Definition path : Type := list string.

(** References to objects, and the objects they name. *)
Abbreviation loc := nat (only parsing).
Abbreviation heap := (loc -> pyval) (only parsing).

(** A file of the cache directory, by what [open] and [json.load] make of
    it.  A path that is not in the file system does not exist. *)
Inductive file : Type :=
| Unreadable            (* [open] raises [OSError] *)
| Undecodable           (* the bytes are not UTF-8: [UnicodeDecodeError] *)
| Malformed             (* the text is not JSON: [JSONDecodeError] *)
| Json (j : pyval).     (* [json.load] returns [j] *)

(** The platform under the module: library functions and the outside world
    [Env] (clock and network) with the calls made on it. *)
Class Platform : Type := {
  Env : Type;
  CACHE_DIR : path;
  (** [hashlib.md5(key.encode()).hexdigest()] *)
  md5_hexdigest : string -> string;
  (** [time.time()] and [time.sleep(d)] *)
  time_time : Env -> Q * Env;
  time_sleep : Q -> Env -> Env;
  (** [json.loads(urlopen(url, timeout=15).read().decode('utf-8'))] *)
  urlopen_json : string -> Env -> result pyval * Env;
  (** [urlopen(Request(url, headers=...), timeout=15).read().decode('utf-8')] *)
  urlopen_text : string -> Env -> result string * Env;
  (** the entries the regular expressions of [scrape_trending] find in a page *)
  extract_repos : string -> list pyval;
  (** [datetime.now(timezone.utc).strftime(...)] *)
  utcnow_strftime : Env -> string;
}.

Section WithPlatform.
Context {P : Platform}.

(** The state the module works on: the cache directory on disk, the paths
    that cannot be created or opened for writing, the global
    [_last_api_call], and the outside world. *)
Record World : Type := mkWorld {
  fs : gmap path file;
  write_denied : path -> bool;
  last_api_call : Q;
  env : Env;
}.

Definition set_fs (f : gmap path file) (w : World) : World :=
  mkWorld f (write_denied w) (last_api_call w) (env w).
Definition set_last_api_call (t : Q) (w : World) : World :=
  mkWorld (fs w) (write_denied w) t (env w).
Definition set_env (e : Env) (w : World) : World :=
  mkWorld (fs w) (write_denied w) (last_api_call w) e.

(** Calls on the outside world. *)
Definition now : M World Q :=
  fun w => let (t, e) := time_time (env w) in (Ret t, set_env e w).
Definition sleep (d : Q) : M World unit :=
  modify (fun w => set_env (time_sleep d (env w)) w).
Definition http_json (url : string) : M World pyval :=
  fun w => let (r, e) := urlopen_json url (env w) in (r, set_env e w).
Definition http_text (url : string) : M World string :=
  fun w => let (r, e) := urlopen_text url (env w) in (r, set_env e w).

(** Calls on the file system. *)
Definition path_exists (p : path) : M World bool :=
  fun w => (Ret (match fs w !! p with Some _ => true | None => false end), w).

(** [with open(p, 'r', encoding='utf-8') as f: json.load(f)] *)
Definition load_json (p : path) : M World pyval :=
  fun w => match fs w !! p with
           | None => (Raise OSError, w)
           | Some Unreadable => (Raise OSError, w)
           | Some Undecodable => (Raise UnicodeDecodeError, w)
           | Some Malformed => (Raise JSONDecodeError, w)
           | Some (Json j) => (Ret j, w)
           end.

(** [p.mkdir(parents=True, exist_ok=True)] *)
Definition mkdir (p : path) : M World unit :=
  fun w => if write_denied w p then (Raise OSError, w) else (Ret tt, w).

(** [with open(p, 'w', encoding='utf-8') as f: json.dump(o, f, ensure_ascii=False)].
    The file is created or emptied when it is opened, and the text is written
    piece by piece: when [json.dump] raises, the file is left with the
    beginning of a text, which is not JSON. *)
Definition dump_json (p : path) (o : pyobj) : M World unit :=
  fun w => if write_denied w p then (Raise OSError, w)
           else match to_json o with
                | Ret j => (Ret tt, set_fs (<[p := Json j]> (fs w)) w)
                | Raise e => (Raise e, set_fs (<[p := Malformed]> (fs w)) w)
                end.

(** *** Configuration *)

Definition BASE_URL : string :=
  "https://raw.githubusercontent.com/isboyjc/github-trending-api/main/data".
Definition GITHUB_TRENDING_URL : string := "https://github.com/trending".

Definition CACHE_TTL : list (string * Z) :=
  [("trending", 3600); ("repo_info", 86400); ("readme", 86400);
   ("tree", 86400); ("deps", 86400); ("issues", 1800)].

Definition RATE_LIMIT_DELAY : Q := 1 # 2.

(** *** Caching system *)

Definition get_cache_path (cache_type key : string) : path :=
  CACHE_DIR ++ [cache_type; md5_hexdigest key +:+ ".json"].

Definition parent (p : path) : path := removelast p.

Definition read_cache (cache_type key : string) : M World pyval :=
  let cache_path := get_cache_path cache_type key in
  present <- path_exists cache_path ;;
  if negb present then ret VNone
  else
    try_except
      (data <- load_json cache_path ;;
       cached_at <- lift (py_get data "_cached_at" (VInt 0)) ;;
       let ttl := match dict_get CACHE_TTL cache_type with
                  | Some t => t
                  | None => 3600
                  end in
       t <- now ;;
       c <- lift (py_num cached_at) ;;
       if Qltb (inject_Z ttl) (t - c) then ret VNone
       else lift (py_get data "_data" VNone))
      [COSError; CJSONDecodeError; CKeyError]
      (fun _ => ret VNone).

Definition write_cache (cache_type key : string) (data : pyobj) : M World unit :=
  let cache_path := get_cache_path cache_type key in
  try_except
    (mkdir (parent cache_path) ;;;
     t <- now ;;
     let cache_data :=
       ODict [(KStr "_cached_at", OFloat t); (KStr "_key", OStr key);
              (KStr "_data", data)] in
     dump_json cache_path cache_data)
    [COSError; CTypeError]
    (fun _ => ret tt).

(** *** Rate limiting *)

Definition rate_limit : M World unit :=
  t <- now ;;
  w <- get ;;
  let elapsed := (t - last_api_call w)%Q in
  (if Qltb elapsed RATE_LIMIT_DELAY then sleep (RATE_LIMIT_DELAY - elapsed)
   else ret tt) ;;;
  t' <- now ;;
  modify (set_last_api_call t').

(** *** Fallback scraper *)

(** The request is guarded by [except Exception]; the extraction of the
    listing blocks from the page text is [extract_repos]. *)
Definition scrape_trending (language since : string) : M World (list pyval) :=
  let url := GITHUB_TRENDING_URL +:+ "/" +:+ language +:+ "?since=" +:+ since in
  page <- try_except
            (html <- http_text url ;; ret (Some html))
            [CException]
            (fun _ => ret None) ;;
  match page with
  | None => ret []
  | Some html => ret (extract_repos html)
  end.

(** *** Trending fetcher *)

(** One round of the normalisation loop of [fetch_trending]:
    the alternate keys [url] and [addStars] are copied to [link] and
    [todayStars] when these are missing. *)
Definition copy_key (from_key to_key : string) (item : pyval) : result pyval :=
  let? has_from := py_in from_key item in
  let? has_to := (if has_from then py_in to_key item else Ret true) in
  if has_from && negb has_to then
    let? v := py_getitem item from_key in
    py_setitem item to_key v
  else Ret item.

Definition normalize_item (item : pyval) : result pyval :=
  let? item1 := copy_key "url" "link" item in
  copy_key "addStars" "todayStars" item1.

Fixpoint normalize_each (items : list pyval) : result (list pyval) :=
  match items with
  | [] => Ret []
  | item :: rest =>
      let? item' := normalize_item item in
      let? rest' := normalize_each rest in
      Ret (item' :: rest')
  end.

(** [if 'items' in data: for item in data['items']: ...].  Only the dicts of
    a list can be changed by the loop: iterating over a dict or a string
    yields strings, on which an assignment raises. *)
Definition normalize (data : pyval) : result pyval :=
  let? has_items := py_in "items" data in
  if has_items then
    let? items := py_getitem data "items" in
    let? elems := py_iter items in
    let? elems' := normalize_each elems in
    match items with
    | VList _ => py_setitem data "items" (VList elems')
    | _ => Ret data
    end
  else Ret data.

Definition fetch_trending (since language : string) (use_cache : bool) : M World pyval :=
  let cache_key := since +:+ "_" +:+ language in
  hit <- (if use_cache then
            cached <- read_cache "trending" cache_key ;;
            ret (if truthy cached then Some cached else None)
          else ret None) ;;
  match hit with
  | Some cached => ret cached
  | None =>
      let url := BASE_URL +:+ "/" +:+ since +:+ "/" +:+ Str.lower language +:+ ".json" in
      primary <- try_except
                   (rate_limit ;;;
                    data <- http_json url ;;
                    data' <- lift (normalize data) ;;
                    write_cache "trending" cache_key (of_json data') ;;;
                    ret (Some data'))
                   [CHTTPError; CURLError]
                   (fun _ => ret None) ;;
      match primary with
      | Some data => ret data
      | None =>
          repos <- scrape_trending (if String.eqb language "all" then "" else language) since ;;
          match repos with
          | _ :: _ =>
              w <- get ;;
              let data := VDict [("items", VList repos);
                                 ("pubDate", VStr (utcnow_strftime (env w)))] in
              write_cache "trending" cache_key (of_json data) ;;;
              ret data
          | [] => raise (SystemExit 1)
          end
      end
  end.

(** *** Filter *)

(** The entries of a listing are objects shared between the list handed to
    [filter_repos], the list it returns and the caller: a list holds
    references ([loc]), and the [heap] maps a reference to the object it
    names. *)

(** [int(repo.get('stars', '0').replace(',', ''))] *)
Definition parse_stars (repo : pyval) : result Z :=
  let? stars := py_get repo "stars" (VStr "0") in
  match stars with
  | VStr s => Str.int (Str.replace "," "" s)
  | _ => Raise AttributeError
  end.

(** [v.lower()] *)
Definition py_lower (v : pyval) : result string :=
  match v with
  | VStr s => Ret (Str.lower s)
  | _ => Raise AttributeError
  end.

(** [if max_stars and stars > max_stars: continue] *)
Definition above_max (max_stars : option Z) (stars : Z) : bool :=
  match max_stars with
  | Some m => negb (m =? 0) && (m <? stars)
  | None => false
  end.

(** [if search: ... if search_lower not in title and search_lower not in desc: continue] *)
Definition search_misses (search : option string) (repo : pyval) : result bool :=
  match search with
  | Some term =>
      if negb (String.eqb term "") then
        let search_lower := Str.lower term in
        let? t := py_get repo "title" (VStr "") in
        let? title := py_lower t in
        let? d := py_get repo "description" (VStr "") in
        let? desc := py_lower d in
        Ret (negb (Str.contains search_lower title) && negb (Str.contains search_lower desc))
      else Ret false
  | None => Ret false
  end.

(** The body of the loop for the entry at [r]: the answer tells whether the
    entry is appended to [filtered]. *)
Definition filter_step (min_stars : Z) (max_stars : option Z) (search : option string)
    (r : loc) : M heap bool :=
  h <- get ;;
  let repo := h r in
  stars <- lift (parse_stars repo) ;;
  if stars <? min_stars then ret false
  else if above_max max_stars stars then ret false
  else
    miss <- lift (search_misses search repo) ;;
    if miss then ret false
    else
      repo' <- lift (py_setitem repo "_stars_int" (VInt stars)) ;;
      modify (fun h => <[r := repo']> h) ;;;
      ret true.

Fixpoint filter_loop (min_stars : Z) (max_stars : option Z) (search : option string)
    (repos : list loc) (filtered : list loc) : M heap (list loc) :=
  match repos with
  | [] => ret filtered
  | r :: rest =>
      keep <- filter_step min_stars max_stars search r ;;
      filter_loop min_stars max_stars search rest
        (if keep then filtered ++ [r] else filtered)
  end.

Definition filter_repos (repos : list loc) (min_stars : Z) (max_stars : option Z)
    (search : option string) : M heap (list loc) :=
  filter_loop min_stars max_stars search repos [].

End WithPlatform.
End Trending.

(** ** [analyzer.py] *)

Module Analyzer.

(** What one request to the API comes to: the parsed body, an [HTTPError]
    with its status code and text, or any other exception with its text. *)
Inductive response : Type :=
| Body (j : pyval)
| HTTPFailure (code : Z) (msg : string)
| Failure (msg : string).

(** The platform under the module: the network [Net] with its clock, the
    credential read at import time, and the library functions. *)
Class Platform : Type := {
  Net : Type;
  GITHUB_TOKEN : string;
  (** [json.loads(urlopen(Request(url, headers=headers), timeout=15).read().decode('utf-8'))] *)
  request_json : string -> list (string * string) -> Net -> response * Net;
  (** [time.sleep(d)] *)
  time_sleep : Q -> Net -> Net;
  (** [datetime.fromisoformat(s)]; [None] stands for its [ValueError] *)
  datetime : Type;
  fromisoformat : string -> option datetime;
  (** [datetime.now(d.tzinfo) - d], a [timedelta], in microseconds *)
  age : Net -> datetime -> Z;
  (** [base64.b64decode(s).decode('utf-8')]; [None] stands for the
      [ValueError] or [UnicodeDecodeError] it raises *)
  b64decode_utf8 : string -> option string;
}.

Section WithPlatform.
Context {P : Platform}.

Definition API_BASE : string := "https://api.github.com".

Definition WEIGHTS : list (string * Z) :=
  [("recent_commits", 20); ("readme_quality", 15); ("issue_response", 15);
   ("pr_merge_rate", 15); ("has_license", 5); ("low_open_issues", 10);
   ("stars_velocity", 10); ("not_archived", 10)].

(** *** API helpers *)

Definition api_request (endpoint : string) : M Net pyval :=
  fun n =>
    let url := if String.prefix "/" endpoint then API_BASE +:+ endpoint else endpoint in
    let headers := [("User-Agent", "github-trending-cli");
                    ("Accept", "application/vnd.github.v3+json")] in
    let headers := if negb (String.eqb GITHUB_TOKEN "")
                   then dict_set headers "Authorization" ("token " +:+ GITHUB_TOKEN)
                   else headers in
    match request_json url headers n with
    | (Body j, n') => (Ret j, n')
    | (HTTPFailure code msg, n') =>
        (Ret (VDict [("_error",
                      VStr (if code =? 403 then "rate_limited"
                            else if code =? 404 then "not_found"
                            else msg))]), n')
    | (Failure msg, n') => (Ret (VDict [("_error", VStr msg)]), n')
    end.

(** [result and "_error" not in result] *)
Definition usable (res : pyval) : result bool :=
  if truthy res then let? err := py_in "_error" res in Ret (negb err)
  else Ret false.

Record rate_info : Type := mkRate {
  remaining : pyval;
  limit : pyval;
  reset : pyval;
}.

Definition get_rate_limit : M Net rate_info :=
  result <- api_request "/rate_limit" ;;
  ok <- lift (usable result) ;;
  if ok then
    resources <- lift (py_get result "resources" (VDict [])) ;;
    core <- lift (py_get resources "core" (VDict [])) ;;
    r <- lift (py_get core "remaining" (VInt 0)) ;;
    l <- lift (py_get core "limit" (VInt 60)) ;;
    t <- lift (py_get core "reset" (VInt 0)) ;;
    ret (mkRate r l t)
  else ret (mkRate (VInt 0) (VInt 60) (VInt 0)).

(** *** Data fetchers *)

Definition repo_endpoint (owner repo : string) : string :=
  "/repos/" +:+ owner +:+ "/" +:+ repo.

Definition get_repo_info (owner repo : string) : M Net pyval :=
  result <- api_request (repo_endpoint owner repo) ;;
  ret (if truthy result then result else VDict []).

Definition as_list (res : pyval) : list pyval :=
  match res with VList l => l | _ => [] end.

Definition get_commits (owner repo : string) : M Net (list pyval) :=
  result <- api_request (repo_endpoint owner repo +:+ "/commits?per_page=10") ;;
  ret (as_list result).

Record issues_info : Type := mkIssues {
  items : list pyval;
  count : Z;
}.

Definition get_open_issues (owner repo : string) : M Net issues_info :=
  result <- api_request (repo_endpoint owner repo +:+ "/issues?state=open&per_page=10") ;;
  ret (mkIssues (as_list result) (Z.of_nat (length (as_list result)))).

Definition get_pull_requests (owner repo : string) : M Net (list pyval) :=
  result <- api_request (repo_endpoint owner repo +:+ "/pulls?state=all&per_page=20") ;;
  ret (as_list result).

Definition get_readme (owner repo : string) : M Net (option string) :=
  result <- api_request (repo_endpoint owner repo +:+ "/readme") ;;
  ok <- lift (usable result) ;;
  if ok then
    content <- lift (py_get result "content" (VStr "")) ;;
    match content with
    | VStr c => ret (b64decode_utf8 c)
    | _ => raise TypeError
    end
  else ret None.

(** *** Scoring functions

    Each returns the points of its [(points, rationale)] tuple. *)

(** [commits[0].get("commit", {}).get("author", {}).get("date", "")] *)
Definition commit_date (c : pyval) : result pyval :=
  let? commit := py_get c "commit" (VDict []) in
  let? author := py_get commit "author" (VDict []) in
  py_get author "date" (VStr "").

Definition MICROSECONDS_PER_DAY : Z := 86400000000.

(** [(datetime.now(d.tzinfo) - d).days]: the whole days of a [timedelta],
    rounded down. *)
Definition days_since (n : Net) (d : datetime) : Z :=
  age n d / MICROSECONDS_PER_DAY.

Definition recency_points (days_ago : Z) : Z :=
  if days_ago <? 7 then 20
  else if days_ago <? 30 then 15
  else if days_ago <? 90 then 10
  else if days_ago <? 180 then 5
  else 0.

(** The [try] block of [score_recent_commits]: the points it returns, or
    [None] when it falls through to the last [return]. *)
Definition recent_commits_try (n : Net) (first : pyval) : result (option Z) :=
  let? latest := commit_date first in
  if truthy latest then
    match latest with
    | VStr s =>
        match fromisoformat (Str.replace "Z" "+00:00" s) with
        | Some latest_date => Ret (Some (recency_points (days_since n latest_date)))
        | None => Raise ValueError
        end
    | _ => Raise AttributeError
    end
  else Ret None.

Definition score_recent_commits (commits : list pyval) : M Net Z :=
  match commits with
  | [] => ret 0
  | first :: _ =>
      n <- get ;;
      r <- lift (rtry (recent_commits_try n first)
                      [CValueError; CTypeError; CKeyError] (Ret None)) ;;
      match r with
      | Some points => ret points
      | None => ret 10
      end
  end.

Definition any_in (words : list string) (text : string) : bool :=
  existsb (fun x => Str.contains x text) words.

Definition score_readme (readme : option string) : Z :=
  match readme with
  | None => 0
  | Some readme =>
      if String.eqb readme "" then 0
      else
        let length := Str.len readme in
        let has_install :=
          any_in ["install"; "npm"; "pip"; "cargo"; "setup"] (Str.lower readme) in
        let has_usage :=
          any_in ["usage"; "example"; "getting started"; "quick start"] (Str.lower readme) in
        let has_badges := Str.contains "![" readme || Str.contains "[![" readme in
        let score := 0 in
        let score := if 2000 <? length then score + 5
                     else if 500 <? length then score + 3
                     else score in
        let score := if has_install then score + 4 else score in
        let score := if has_usage then score + 4 else score in
        let score := if has_badges then score + 2 else score in
        Z.min score 15
  end.

(** [sum(1 for x in xs if test(x))] *)
Fixpoint count_if (test : pyval -> result bool) (xs : list pyval) : result Z :=
  match xs with
  | [] => Ret 0
  | x :: rest =>
      let? b := test x in
      let? k := count_if test rest in
      Ret (if b then 1 + k else k)
  end.

Definition ratio (a b : Z) : Q := (inject_Z a / inject_Z b)%Q.

Definition score_issue_response (issues : list pyval) : result Z :=
  match issues with
  | [] => Ret 15
  | _ =>
      let? responded :=
        count_if (fun i => let? c := py_get i "comments" (VInt 0) in py_gt c 0) issues in
      let rate := ratio responded (Z.of_nat (length issues)) in
      if Qltb (8 # 10) rate then Ret 15
      else if Qltb (5 # 10) rate then Ret 10
      else if Qltb (2 # 10) rate then Ret 5
      else Ret 0
  end.

Definition score_pr_merge_rate (prs : list pyval) : result Z :=
  match prs with
  | [] => Ret 10
  | _ =>
      let? merged :=
        count_if (fun pr => let? m := py_get pr "merged_at" VNone in Ret (truthy m)) prs in
      let? closed :=
        count_if (fun pr => let? st := py_get pr "state" VNone in Ret (py_eq_str st "closed")) prs in
      if closed =? 0 then Ret 10
      else
        let rate := ratio merged closed in
        if Qltb (7 # 10) rate then Ret 15
        else if Qltb (5 # 10) rate then Ret 10
        else if Qltb (3 # 10) rate then Ret 5
        else Ret 0
  end.

Definition score_repo_health (info : pyval) : result (list (string * Z)) :=
  let scores := [] in
  (* License *)
  let? license := py_get info "license" VNone in
  let? scores :=
    (if truthy license then
       let? spdx := py_get license "spdx_id" (VStr "Yes") in
       Ret (dict_set scores "has_license" 5)
     else Ret (dict_set scores "has_license" 0)) in
  (* Archived status *)
  let? archived := py_get info "archived" VNone in
  let scores := if truthy archived then dict_set scores "not_archived" 0
                else dict_set scores "not_archived" 10 in
  (* Open issues ratio *)
  (* the comparisons are on one value: they raise together or not at all *)
  let? open_issues := py_get info "open_issues_count" (VInt 0) in
  let? lt20 := py_lt open_issues 20 in
  let? lt100 := py_lt open_issues 100 in
  let? lt500 := py_lt open_issues 500 in
  let scores := if lt20 then dict_set scores "low_open_issues" 10
                else if lt100 then dict_set scores "low_open_issues" 7
                else if lt500 then dict_set scores "low_open_issues" 3
                else dict_set scores "low_open_issues" 0 in
  (* Stars velocity *)
  let? stars := py_get info "stargazers_count" (VInt 0) in
  let? gt10000 := py_gt stars 10000 in
  let? gt1000 := py_gt stars 1000 in
  let? gt100 := py_gt stars 100 in
  let scores := if gt10000 then dict_set scores "stars_velocity" 10
                else if gt1000 then dict_set scores "stars_velocity" 7
                else if gt100 then dict_set scores "stars_velocity" 4
                else dict_set scores "stars_velocity" 2 in
  Ret scores.

(** *** Main analysis *)

(** The dict [analyze_repo] returns: [{"error": ...}] with or without a
    ["repo"] key, or the scored report. *)
Record report : Type := mkReport {
  repo : string;
  scores : list (string * Z);
  total : Z;
  grade : string;
  meta : list (string * pyval);
}.

Inductive analysis : Type :=
| Failed (error : pyval) (repo : option string)
| Scored (r : report).

(** [sum(xs)] *)
Definition py_sum (xs : list Z) : Z := fold_left Z.add xs 0.

Definition grade_of (total : Z) : string :=
  if 85 <=? total then "A"
  else if 70 <=? total then "B"
  else if 55 <=? total then "C"
  else if 40 <=? total then "D"
  else "F".

(** [for key, (score, note) in health_scores.items(): result["scores"][key] = score] *)
Definition merge_scores (scores health_scores : list (string * Z)) : list (string * Z) :=
  fold_left (fun acc kv => dict_set acc (fst kv) (snd kv)) health_scores scores.

Definition analyze_repo (owner_repo : string) : M Net analysis :=
  match Str.split "/" owner_repo with
  | [owner; repo] =>
      (* Fetch data *)
      info <- get_repo_info owner repo ;;
      failed <- lift (py_in "_error" info) ;;
      if failed then
        err <- lift (py_getitem info "_error") ;;
        ret (Failed err (Some owner_repo))
      else
        commits <- get_commits owner repo ;;
        issues_data <- get_open_issues owner repo ;;
        prs <- get_pull_requests owner repo ;;
        readme <- get_readme owner repo ;;
        (* Calculate scores *)
        let scores := [] in
        score <- score_recent_commits commits ;;
        let scores := dict_set scores "recent_commits" score in
        let scores := dict_set scores "readme_quality" (score_readme readme) in
        score <- lift (score_issue_response (items issues_data)) ;;
        let scores := dict_set scores "issue_response" score in
        score <- lift (score_pr_merge_rate prs) ;;
        let scores := dict_set scores "pr_merge_rate" score in
        (* Health scores *)
        health_scores <- lift (score_repo_health info) ;;
        let scores := merge_scores scores health_scores in
        (* Calculate total, assign grade *)
        let total := py_sum (dict_values scores) in
        let grade := grade_of total in
        (* Add repo metadata *)
        description <- lift (py_get info "description" (VStr "")) ;;
        stars <- lift (py_get info "stargazers_count" (VInt 0)) ;;
        language <- lift (py_get info "language" (VStr "")) ;;
        url <- lift (py_get info "html_url" (VStr "")) ;;
        ret (Scored (mkReport owner_repo scores total grade
                       [("description", description); ("stars", stars);
                        ("language", language); ("url", url)]))
  | _ => ret (Failed (VStr ("Invalid repo format: " +:+ owner_repo)) None)
  end.

(** [x.get("total", 0)], the sort key of [analyze_repos]. *)
Definition total_of (x : analysis) : Z :=
  match x with
  | Scored r => total r
  | Failed _ _ => 0
  end.

(** [results.sort(key=..., reverse=True)]: descending, and stable, so that
    results of equal key keep their order. *)
Fixpoint insert_desc (x : analysis) (sorted : list analysis) : list analysis :=
  match sorted with
  | [] => [x]
  | y :: rest =>
      if total_of x <? total_of y then y :: insert_desc x rest
      else x :: y :: rest
  end.

Definition sort_desc (results : list analysis) : list analysis :=
  fold_right insert_desc [] results.

(** [max(1, remaining // 5)] as the bound of a slice: a float above 1 is not
    an index. *)
Definition affordable (remaining : pyval) : result Z :=
  match remaining with
  | VInt z => Ret (Z.max 1 (z / 5))
  | VBool b => Ret (Z.max 1 ((if b then 1 else 0) / 5))
  | VFloat q => if 1 <? Qfloor (q / 5) then Raise TypeError else Ret 1
  | _ => Raise TypeError
  end.

(** [repos[:k]] for [k >= 0]. *)
Definition prefix (k : Z) (repos : list pyval) : list pyval :=
  firstn (Z.to_nat k) repos.

(** [not title or "/" not in title] *)
Definition no_repo_path (title : pyval) : result bool :=
  if negb (truthy title) then Ret true
  else let? has := py_in "/" title in Ret (negb has).

(** The loop of [analyze_repos] over the entries still to do. *)
Fixpoint analyze_each (repos : list pyval) (results : list analysis) : M Net (list analysis) :=
  match repos with
  | [] => ret results
  | repo_info :: rest =>
      title <- lift (py_get repo_info "title" (VStr "")) ;;
      skip <- lift (no_repo_path title) ;;
      if skip then analyze_each rest results
      else
        result <- match title with
                  | VStr t => analyze_repo t
                  | _ => raise AttributeError
                  end ;;
        modify (time_sleep (2 # 10)) ;;;
        analyze_each rest (results ++ [result])
  end.

(** The entries [analyze_repos] goes through, given the remaining quota. *)
Definition batch (remaining : pyval) (repos : list pyval) : result (list pyval) :=
  let needed := Z.of_nat (length repos) * 5 in
  let? short := py_lt remaining needed in
  if short && String.eqb GITHUB_TOKEN "" then
    let? k := affordable remaining in
    Ret (prefix k repos)
  else Ret repos.

Definition analyze_repos (repos : list pyval) : M Net (list analysis) :=
  (* Check rate limit first *)
  rate <- get_rate_limit ;;
  repos <- lift (batch (remaining rate) repos) ;;
  results <- analyze_each repos [] ;;
  (* Sort by total score *)
  ret (sort_desc results).

End WithPlatform.
End Analyzer.

(** ** Notions of the specification *)

Module Spec.

(** A decimal numeral: one digit or more, and nothing else. *)
Definition is_digit (a : ascii) : bool := Str.between 48 57 a.

Fixpoint all_digits (s : string) : bool :=
  match s with
  | EmptyString => true
  | String a s' => is_digit a && all_digits s'
  end.

Definition numeral (s : string) : bool :=
  negb (String.eqb s "") && all_digits s.

(** The integer a numeral denotes, most significant digit first. *)
Fixpoint horner (acc : Z) (s : string) : Z :=
  match s with
  | EmptyString => acc
  | String a s' => horner (10 * acc + (Str.code a - 48)) s'
  end.

Definition denotation (s : string) : Z := horner 0 s.

(** The characters an integer literal can be made of. *)
Definition literal_char (a : ascii) : bool :=
  is_digit a || Str.is_space a || Ascii.eqb a "+" || Ascii.eqb a "-" || Ascii.eqb a "_".

Fixpoint all_literal (s : string) : bool :=
  match s with
  | EmptyString => true
  | String a s' => literal_char a && all_literal s'
  end.


(** *** The filter *)

Import Trending.

(** The parsed star count of an entry, and its texts. *)
Definition star_count (e : pyval) : Z :=
  match parse_stars e with Ret n => n | Raise _ => 0 end.

Definition text_of (e : pyval) (k : string) : string :=
  match py_get e k (VStr "") with Ret (VStr s) => s | _ => "" end.

(** An entry of a listing: its star count parses, its title and description
    are strings. *)
Definition well_formed (e : pyval) : Prop :=
  (exists n, parse_stars e = Ret n)
  /\ (exists s, py_get e "title" (VStr "") = Ret (VStr s))
  /\ (exists s, py_get e "description" (VStr "") = Ret (VStr s)).

(** [t] occurs in [s] when the case of letters is ignored: some stretch of
    [s] reads as [t] once both are put in small letters. *)
Definition occurs_ci (t s : string) : Prop :=
  exists pre mid post, s = pre +:+ mid +:+ post /\ Str.lower mid = Str.lower t.

Definition matches (search : option string) (e : pyval) : Prop :=
  match search with
  | Some t => occurs_ci t (text_of e "title") \/ occurs_ci t (text_of e "description")
  | None => True
  end.

(** The entries the filter is to return. *)
Definition selected (min_stars : Z) (search : option string) (e : pyval) : Prop :=
  min_stars <= star_count e /\ matches search e.

(** The same, as a test. *)
Definition found (search : option string) (e : pyval) : bool :=
  match search with
  | Some t =>
      Str.contains (Str.lower t) (Str.lower (text_of e "title"))
      || Str.contains (Str.lower t) (Str.lower (text_of e "description"))
  | None => true
  end.

Definition selectedb (min_stars : Z) (search : option string) (e : pyval) : bool :=
  (min_stars <=? star_count e) && found search e.

(** The entries whose star count lies within the bounds; an upper bound of
    [0] or [None] is no bound. *)
Definition within (min_stars : Z) (max_stars : option Z) (e : pyval) : bool :=
  (min_stars <=? star_count e) && negb (above_max max_stars (star_count e)).

(** The entry with the derived field attached. *)
Definition with_stars_int (e : pyval) : pyval :=
  match e with
  | VDict d => VDict (dict_set d "_stars_int" (VInt (star_count e)))
  | _ => e
  end.


(** *** The cache store *)

(** A value that [json.dump] writes as it is: its integers have at most
    [max_str_digits] digits, and the keys of each of its dicts are
    distinct. *)
Fixpoint distinct (ks : list string) : bool :=
  match ks with
  | [] => true
  | k :: rest => negb (existsb (String.eqb k) rest) && distinct rest
  end.

Fixpoint storable (v : pyval) : bool :=
  match v with
  | VInt z => int_fits z
  | VList l => forallb storable l
  | VDict d => distinct (map fst d) && forallb (fun kv => storable (snd kv)) d
  | _ => true
  end.

(** The TTL of a category, in seconds. *)
Definition ttl_of (cache_type : string) : Z :=
  match dict_get CACHE_TTL cache_type with
  | Some t => t
  | None => 3600
  end.

(** The [except] clause of [read_cache]. *)
Definition miss_or_raise {P : Platform} (e : exn) (w : World) : result pyval * World :=
  if caught [COSError; CJSONDecodeError; CKeyError] e then (Ret VNone, w)
  else (Raise e, w).

(** The disk of [w'] is that of [w]: same files, same protections. *)
Definition same_disk {P : Platform} (w w' : World) : Prop :=
  fs w' = fs w /\ write_denied w' = write_denied w.

(** A record of the cache directory that holds [data] under a numeric time
    stamp. *)
Definition holds_record (j data : pyval) : Prop :=
  py_get j "_data" VNone = Ret data
  /\ exists stamp tw, py_get j "_cached_at" (VInt 0) = Ret stamp /\ py_num stamp = Ret tw.

(** What [fetch_trending] does once the cache has given nothing: the
    request to the feed, then the scraper. *)
Definition fetch_remote {P : Platform} (since language : string) : M World pyval :=
  let cache_key := since +:+ "_" +:+ language in
  let url := BASE_URL +:+ "/" +:+ since +:+ "/" +:+ Str.lower language +:+ ".json" in
  bind (try_except
          (bind rate_limit (fun _ =>
           bind (http_json url) (fun data =>
           bind (lift (normalize data)) (fun data' =>
           bind (write_cache "trending" cache_key (of_json data')) (fun _ =>
           ret (Some data'))))))
          [CHTTPError; CURLError] (fun _ => ret None))
       (fun primary =>
          match primary with
          | Some data => ret data
          | None =>
              bind (scrape_trending (if String.eqb language "all" then "" else language) since)
                (fun repos =>
                   match repos with
                   | _ :: _ =>
                       bind get (fun w =>
                         let data := VDict [("items", VList repos);
                                            ("pubDate", VStr (utcnow_strftime (env w)))] in
                         bind (write_cache "trending" cache_key (of_json data)) (fun _ => ret data))
                   | [] => raise (SystemExit 1)
                   end)
          end).

(** *** The clock

    The clock does not run backwards, and a sleep lasts at least as long as
    asked. *)
Definition clock_laws {P : Platform} : Prop :=
  (forall e t e' t' e'',
      time_time e = (t, e') -> time_time e' = (t', e'') -> (t <= t')%Q)
  /\ (forall e t e' d t' e'',
         time_time e = (t, e') -> time_time (time_sleep d e') = (t', e'') ->
         (t + d <= t')%Q).

(** The heap [hk] is the heap [h] where some entries have received their
    derived field. *)
Definition ahead (h hk : heap) : Prop :=
  forall r, hk r = h r \/ hk r = with_stars_int (h r).

End Spec.

(** ** Sample data *)

Module Sample.
Import Trending.

Definition entry (title description language stars todayStars link : string) : pyval :=
  VDict [("title", VStr title); ("description", VStr description);
         ("language", VStr language); ("stars", VStr stars);
         ("todayStars", VStr todayStars); ("link", VStr link)].

(** The listing of the test suite. *)
Definition SAMPLE_REPOS : list pyval :=
  [entry "owner/repo-a" "A great Python framework" "Python" "12,345" "200"
         "https://github.com/owner/repo-a";
   entry "org/repo-b" "Rust systems tool" "Rust" "890" "50"
         "https://github.com/org/repo-b";
   entry "user/repo-c" "JavaScript UI library" "JavaScript" "45,000" "1,000"
         "https://github.com/user/repo-c";
   entry "dev/repo-d" "" "" "100" "5" "https://github.com/dev/repo-d"].

Definition sample_heap : heap := fun r => nth r SAMPLE_REPOS VNone.

(** A listing whose second entry has a star string that is no integer. *)
Definition odd_heap : heap :=
  fun r => nth r [entry "owner/repo-a" "A great Python framework" "Python" "12,345" "200"
                        "https://github.com/owner/repo-a";
                  entry "org/repo-e" "Scraped entry" "Go" "1.2k" ""
                        "https://github.com/org/repo-e"] VNone.

End Sample.

(** ** A simulated platform for the cache and the fetcher

    The outside world is a clock and the answers the network gives; the
    digest is the key itself. *)

Module Sim.

Record env : Type := mkEnv {
  clock : Q;
  primary : result pyval;
  page : result string;
}.

Definition trending : Trending.Platform := {|
  Trending.Env := env;
  Trending.CACHE_DIR := ["home"; ".cache"; "github-trending-cli"];
  Trending.md5_hexdigest := fun key => key;
  Trending.time_time := fun e => (clock e, e);
  Trending.time_sleep := fun d e => mkEnv (clock e + d) (primary e) (page e);
  Trending.urlopen_json := fun _ e => (primary e, e);
  Trending.urlopen_text := fun _ e => (page e, e);
  Trending.extract_repos :=
    fun html => if Str.contains "<article" html
                then [VDict [("title", VStr "owner/name"); ("stars", VStr "1,234")]]
                else [];
  Trending.utcnow_strftime := fun _ => "Thu, 01 Jan 1970 00:00:00 GMT";
|}.

(** A world with the given cache directory, nothing write-protected. *)
Definition world (files : gmap Trending.path Trending.file) (e : env)
  : @Trending.World trending :=
  @Trending.mkWorld trending files (fun _ => false) 0 e.

(** The cache file of [("trending", "daily_zig")]. *)
Definition zig_path : Trending.path :=
  @Trending.get_cache_path trending "trending" "daily_zig".

End Sim.

(** ** Sample worlds for the cache *)

Module CacheSample.
Import Trending.

Definition quiet (t : Q) : Sim.env := Sim.mkEnv t (Raise URLError) (Raise URLError).

(** A cache directory whose one file holds the JSON text [[]]. *)
Definition list_file : @World Sim.trending :=
  Sim.world (<[Sim.zig_path := Json (VList [])]> ∅) (quiet 100).

(** One whose file is not UTF-8. *)
Definition binary_file : @World Sim.trending :=
  Sim.world (<[Sim.zig_path := Undecodable]> ∅) (quiet 100).

(** One whose record has a string for time stamp. *)
Definition odd_stamp : @World Sim.trending :=
  Sim.world (<[Sim.zig_path :=
                 Json (VDict [("_cached_at", VStr "yesterday"); ("_key", VStr "daily_zig");
                              ("_data", VDict [])])]> ∅)
            (quiet 100).

(** An empty cache directory at time 100, and a payload. *)
Definition fresh : @World Sim.trending := Sim.world ∅ (quiet 100).

Definition payload : pyval :=
  VDict [("items", VList [VDict [("title", VStr "test/repo")]])].



End CacheSample.

(** ** Sample worlds for the fetcher *)

Module FetchSample.
Import Trending.

(** The feed answers 404 for the partition and the listing page has no
    entry; nothing is cached. *)
Definition nothing_anywhere : @World Sim.trending :=
  Sim.world ∅ (Sim.mkEnv 100 (Raise (HTTPError 404)) (Ret "<html><body></body></html>")).

(** The feed answers 404 and the listing page has an entry. *)
Definition page_only : @World Sim.trending :=
  Sim.world ∅ (Sim.mkEnv 100 (Raise (HTTPError 404))
                 (Ret "<html><article class=Box-row></article></html>")).

End FetchSample.

(** ** A simulated platform for the analyzer

    The network keeps the quota it reports, the requests it has received
    (latest first) and a clock in microseconds.  Every repository exists
    except those of the owner [ghost]; commit dates are given as the number
    of days before the origin of the clock, and README contents in clear. *)

Module SimNet.
Import Analyzer.

Record net : Type := mkNet {
  quota : pyval;
  requests : list string;
  clock : Z;
}.

Definition commit (date : string) : pyval :=
  VDict [("sha", VStr "0a1b2c");
         ("commit", VDict [("author", VDict [("name", VStr "dev"); ("date", VStr date)])])].

Definition repo_info : pyval :=
  VDict [("full_name", VStr "owner/repo"); ("description", VStr "A sample repository");
         ("license", VDict [("spdx_id", VStr "MIT")]); ("archived", VBool false);
         ("open_issues_count", VInt 5); ("stargazers_count", VInt 12345);
         ("language", VStr "Python"); ("html_url", VStr "https://github.com/owner/repo")].

Definition answer (n : net) (url : string) : response :=
  if Str.contains "/rate_limit" url then
    Body (VDict [("resources",
                  VDict [("core", VDict [("remaining", quota n); ("limit", VInt 60);
                                         ("reset", VInt 0)])])])
  else if Str.contains "/repos/ghost/" url then HTTPFailure 404 "HTTP Error 404: Not Found"
  else if Str.contains "/commits" url then Body (VList [commit "day-0"; commit "day-400"])
  else if Str.contains "/issues" url then
    Body (VList [VDict [("comments", VInt 2)]; VDict [("comments", VInt 0)]])
  else if Str.contains "/pulls" url then
    Body (VList [VDict [("state", VStr "closed"); ("merged_at", VStr "2024-01-01T00:00:00Z")];
                 VDict [("state", VStr "open"); ("merged_at", VNone)]])
  else if Str.contains "/readme" url then
    Body (VDict [("content", VStr "# Sample: pip install sample; usage: see the example")])
  else Body repo_info.

Definition dates : list (string * Z) :=
  [("day-0", 0); ("day-3", 3); ("day-10", 10); ("day-45", 45);
   ("day-120", 120); ("day-180", 180); ("day-400", 400)].

Definition platform : Platform := {|
  Net := net;
  GITHUB_TOKEN := "";
  request_json := fun url _ n => (answer n url, mkNet (quota n) (url :: requests n) (clock n));
  time_sleep := fun d n => mkNet (quota n) (requests n) (clock n + Qfloor (d * 1000000));
  datetime := Z;
  fromisoformat := fun s => match dict_get dates s with
                            | Some days => Some (- days * 86400000000)
                            | None => None
                            end;
  age := fun n d => clock n - d;
  b64decode_utf8 := fun c => Some c;
|}.

Definition start (remaining : Z) : net := mkNet (VInt remaining) [] 0.

(** The same network reached with a credential. *)
Definition with_token : Platform := {|
  Net := net;
  GITHUB_TOKEN := "ghp_0123456789";
  request_json := fun url _ n => (answer n url, mkNet (quota n) (url :: requests n) (clock n));
  time_sleep := fun d n => mkNet (quota n) (requests n) (clock n + Qfloor (d * 1000000));
  datetime := Z;
  fromisoformat := fun s => match dict_get dates s with
                            | Some days => Some (- days * 86400000000)
                            | None => None
                            end;
  age := fun n d => clock n - d;
  b64decode_utf8 := fun c => Some c;
|}.

(** The same network without a credential, where the quota cannot be
    asked for. *)
Definition unmetered : Platform := {|
  Net := net;
  GITHUB_TOKEN := "";
  request_json := fun url _ n =>
    (if Str.contains "/rate_limit" url then Failure "<urlopen error timed out>"
     else answer n url,
     mkNet (quota n) (url :: requests n) (clock n));
  time_sleep := fun d n => mkNet (quota n) (requests n) (clock n + Qfloor (d * 1000000));
  datetime := Z;
  fromisoformat := fun s => match dict_get dates s with
                            | Some days => Some (- days * 86400000000)
                            | None => None
                            end;
  age := fun n d => clock n - d;
  b64decode_utf8 := fun c => Some c;
|}.

Definition titled (title : string) : pyval :=
  VDict [("title", VStr title); ("stars", VStr "1,000")].

Definition five : list pyval :=
  [titled "owner/one"; titled "owner/two"; titled "owner/three";
   titled "owner/four"; titled "owner/five"].

End SimNet.

(** ** Notions of the specification: the batch *)

Module BatchSpec.
Import Analyzer.

(** One round of the loop of [analyze_repos]: what the entry adds to the
    results. *)
Definition analyze_entry {P : Platform} (repo_info : pyval) : M Net (list analysis) :=
  bind (lift (py_get repo_info "title" (VStr ""))) (fun title =>
  bind (lift (no_repo_path title)) (fun skip =>
  if skip then ret []
  else
    bind (match title with
          | VStr t => analyze_repo t
          | _ => raise AttributeError
          end) (fun result =>
    bind (modify (time_sleep (2 # 10))) (fun _ => ret [result])))).

(** The result reported for an identifier that is no owner/name pair. *)
Definition invalid_format (t : string) : analysis :=
  Failed (VStr ("Invalid repo format: " +:+ t)) None.

End BatchSpec.

(** ** Inputs of the test suite *)

Module Tests.

(** [c * n + tail] *)
Fixpoint copies (n : nat) (c : ascii) (tail : string) : string :=
  match n with
  | O => tail
  | S n' => String c (copies n' c tail)
  end.

Definition titles (h : Trending.heap) (refs : list Trending.loc) : list string :=
  map (fun r => Spec.text_of (h r) "title") refs.

(** [[r["title"] for r in filter_repos(SAMPLE_REPOS, ...)]] *)
Definition filtered_titles (min_stars : Z) (max_stars : option Z) (search : option string)
  : result (list string) :=
  match Trending.filter_repos [0; 1; 2; 3]%nat min_stars max_stars search Sample.sample_heap with
  | (Ret refs, h') => Ret (titles h' refs)
  | (Raise e, _) => Raise e
  end.

Definition issue (comments : Z) : pyval := VDict [("comments", VInt comments)].

Definition pull (merged_at : pyval) (state : string) : pyval :=
  VDict [("merged_at", merged_at); ("state", VStr state)].

End Tests.

(** ** More sample worlds for the fetcher *)

Module FeedSample.
Import Trending.

(** An answer of the feed under its own field names. *)
Definition feed_body : pyval :=
  VDict [("pubDate", VStr "Wed, 04 Nov 2026 00:00:00 GMT");
         ("items", VList [VDict [("title", VStr "ziglang/zig");
                                 ("url", VStr "https://github.com/ziglang/zig");
                                 ("stars", VStr "34,567"); ("addStars", VStr "120")];
                          VDict [("title", VStr "owner/linked");
                                 ("url", VStr "https://example.org/mirror");
                                 ("link", VStr "https://github.com/owner/linked");
                                 ("stars", VStr "1,024")]])].

(** The same with [link] and [todayStars] filled in. *)
Definition feed_data : pyval :=
  VDict [("pubDate", VStr "Wed, 04 Nov 2026 00:00:00 GMT");
         ("items", VList [VDict [("title", VStr "ziglang/zig");
                                 ("url", VStr "https://github.com/ziglang/zig");
                                 ("stars", VStr "34,567"); ("addStars", VStr "120");
                                 ("link", VStr "https://github.com/ziglang/zig");
                                 ("todayStars", VStr "120")];
                          VDict [("title", VStr "owner/linked");
                                 ("url", VStr "https://example.org/mirror");
                                 ("link", VStr "https://github.com/owner/linked");
                                 ("stars", VStr "1,024")]])].

(** Nothing cached, the feed answers. *)
Definition feed_up : @World Sim.trending :=
  Sim.world ∅ (Sim.mkEnv 100 (Ret feed_body) (Raise URLError)).

(** The listing of the partition cached at time 90, read at time 100; the
    network is down. *)
Definition cached_zig : @World Sim.trending :=
  Sim.world (<[Sim.zig_path :=
                 Json (VDict [("_cached_at", VFloat 90); ("_key", VStr "daily_zig");
                              ("_data", feed_data)])]> ∅)
            (Sim.mkEnv 100 (Raise URLError) (Raise URLError)).

End FeedSample.

(** ** Notions of the specification: the feed *)

Module FeedSpec.
Import Trending.

(** The dict [copy_key] leaves: the value under [from_key] is also under
    [to_key] when [to_key] was missing. *)
Definition copied (from_key to_key : string) (d : list (string * pyval))
  : list (string * pyval) :=
  match dict_get d from_key, dict_get d to_key with
  | Some v, None => dict_set d to_key v
  | _, _ => d
  end.

Definition is_dict (v : pyval) : Prop := exists d, v = VDict d.

End FeedSpec.

(** ** Notions of the specification: requests and results *)

Module AnalyzerSpec.
Import Analyzer.

(** The URL and the headers [api_request] sends for an endpoint. *)
Definition request_url (endpoint : string) : string :=
  if String.prefix "/" endpoint then API_BASE +:+ endpoint else endpoint.

Definition request_headers {P : Platform} : list (string * string) :=
  let headers := [("User-Agent", "github-trending-cli");
                  ("Accept", "application/vnd.github.v3+json")] in
  if negb (String.eqb GITHUB_TOKEN "")
  then dict_set headers "Authorization" ("token " +:+ GITHUB_TOKEN)
  else headers.

(** The list an answer of the API holds, when it is one. *)
Definition listing (r : response) : list pyval :=
  match r with
  | Body (VList l) => l
  | _ => []
  end.

(** A result of the batch is about the identifier [t]: the report or the
    failed request of the repository [t], or the complaint about [t]. *)
Definition about (t : string) (x : analysis) : Prop :=
  match x with
  | Scored r => repo r = t
  | Failed _ (Some name) => name = t
  | Failed e None => e = VStr ("Invalid repo format: " +:+ t)
  end.

(** The titles of a batch that are strings with a [/]. *)
Definition slash_titles (todo : list pyval) : list string :=
  flat_map (fun e => match py_get e "title" (VStr "") with
                     | Ret (VStr t) => if Str.contains "/" t then [t] else []
                     | _ => []
                     end) todo.

(** An open issue as the API lists it: a dict whose [comments], when
    present, is an integer.  It is answered when it has a comment. *)
Definition plain_issue (i : pyval) : Prop :=
  exists d, i = VDict d
            /\ (dict_get d "comments" = None \/ exists c, dict_get d "comments" = Some (VInt c)).

Definition answered (i : pyval) : bool :=
  match i with
  | VDict d => match dict_get d "comments" with
               | Some (VInt c) => 0 <? c
               | _ => false
               end
  | _ => false
  end.

(** A pull request is merged when its [merged_at] is set, closed when its
    [state] says so. *)
Definition is_merged (pr : pyval) : bool :=
  match pr with
  | VDict d => match dict_get d "merged_at" with
               | Some m => truthy m
               | None => false
               end
  | _ => false
  end.

Definition is_closed (pr : pyval) : bool :=
  match pr with
  | VDict d => match dict_get d "state" with
               | Some (VStr s) => String.eqb s "closed"
               | _ => false
               end
  | _ => false
  end.

(** [len([x for x in xs if f(x)])] *)
Definition how_many (f : pyval -> bool) (xs : list pyval) : Z :=
  Z.of_nat (length (List.filter f xs)).

(** Descending by total. *)
Definition descending (results : list analysis) : Prop :=
  StronglySorted (fun a b => total_of b <= total_of a) results.

Definition is_failed (x : analysis) : Prop :=
  match x with Failed _ _ => True | Scored _ => False end.

(** The totals a report can have. *)
Definition sound (x : analysis) : Prop :=
  match x with
  | Scored r => 2 <= total r <= 100
  | Failed _ _ => True
  end.

End AnalyzerSpec.

(** * Properties *)

(** ** Reasoning in the monad *)

Ltac unfold_monad :=
  unfold bind, ret, raise, lift, get, modify, try_except in *.

Lemma bind_ret_l {S A B} (a : A) (k : A -> M S B) (s : S) :
  bind (ret a) k s = k a s.
Proof. reflexivity. Qed.

Lemma bind_assoc {S A B C} (m : M S A) (k : A -> M S B) (k' : B -> M S C) (s : S) :
  bind (bind m k) k' s = bind m (fun a => bind (k a) k') s.
Proof. unfold bind. destruct (m s) as [[a|e] s']; reflexivity. Qed.

Lemma bind_ext {S A B} (m : M S A) (k k' : A -> M S B) (s : S) :
  (forall a s', k a s' = k' a s') -> bind m k s = bind m k' s.
Proof. intros H. unfold bind. destruct (m s) as [[a|e] s']; [apply H | reflexivity]. Qed.

Lemma bind_ext_l {S A B} (m m' : M S A) (k : A -> M S B) (s : S) :
  (forall s', m s' = m' s') -> bind m k s = bind m' k s.
Proof. intros H. unfold bind. rewrite H. reflexivity. Qed.

Lemma bind_run {S A B} (m : M S A) (k : A -> M S B) (s s' : S) (a : A) :
  m s = (Ret a, s') -> bind m k s = k a s'.
Proof. intros H. unfold bind. rewrite H. reflexivity. Qed.

Lemma bind_raise {S A B} (m : M S A) (k : A -> M S B) (s s' : S) (e : exn) :
  m s = (Raise e, s') -> bind m k s = (Raise e, s').
Proof. intros H. unfold bind. rewrite H. reflexivity. Qed.

(** ** [int] on strings *)

Section ParseProps.
Import Spec.

Ltac by_cases_on_char a :=
  destruct a as [[] [] [] [] [] [] [] []]; vm_compute; congruence.

Lemma digit_not_space a : is_digit a = true -> Str.is_space a = false.
Proof. by_cases_on_char a. Qed.

Lemma digit_val_digit a : is_digit a = true -> Str.digit_val a = Some (Str.code a - 48).
Proof. unfold Str.digit_val, is_digit. intros ->. reflexivity. Qed.

Lemma digit_val_literal a d : Str.digit_val a = Some d -> literal_char a = true.
Proof.
  unfold Str.digit_val, literal_char, is_digit.
  destruct (Str.between 48 57 a); [reflexivity | discriminate].
Qed.

Lemma digits_all_digits s :
  forall acc n, all_digits s = true ->
    Str.digits acc n s = Some (horner acc s, (n + String.length s)%nat, EmptyString).
Proof.
  induction s as [|a s IH]; intros acc n H; simpl in *.
  - rewrite Nat.add_0_r. reflexivity.
  - apply andb_true_iff in H as [Ha Hs].
    rewrite (digit_val_digit _ Ha), (IH _ _ Hs).
    do 3 f_equal. lia.
Qed.

Lemma int_unsigned_digit a s :
  is_digit a = true -> Str.int (String a s) = Str.unsigned (String a s).
Proof.
  intros Ha. unfold Str.int. simpl. rewrite (digit_not_space _ Ha).
  revert Ha. destruct a as [[] [] [] [] [] [] [] []]; vm_compute; congruence.
Qed.

Lemma int_numeral s :
  numeral s = true -> (String.length s <= Str.max_str_digits)%nat ->
  Str.int s = Ret (denotation s).
Proof.
  unfold numeral. intros H Hlen. apply andb_true_iff in H as [Hne Hd].
  destruct s as [|a s]; [discriminate|].
  simpl in Hd. apply andb_true_iff in Hd as [Ha Hs].
  rewrite (int_unsigned_digit _ _ Ha). unfold Str.unsigned.
  rewrite (digit_val_digit _ Ha), (digits_all_digits _ _ _ Hs). simpl Str.skip_space.
  simpl in Hlen.
  destruct (Nat.leb_spec (1 + String.length s) Str.max_str_digits) as [_|Hgt]; [|lia].
  unfold denotation. simpl. reflexivity.
Qed.

Lemma space_literal a : Str.is_space a = true -> literal_char a = true.
Proof. by_cases_on_char a. Qed.

Lemma skip_space_literal s :
  all_literal (Str.skip_space s) = true -> all_literal s = true.
Proof.
  induction s as [|a s IH]; simpl; [reflexivity|].
  destruct (Str.is_space a) eqn:Ha.
  - intros H. rewrite (space_literal _ Ha), (IH H). reflexivity.
  - simpl. intros H. exact H.
Qed.

Lemma only_space_literal s :
  Str.skip_space s = EmptyString -> all_literal s = true.
Proof.
  intros H. apply skip_space_literal. rewrite H. reflexivity.
Qed.

Lemma digits_literal_bounded k :
  forall s acc n v n' rest,
    (String.length s <= k)%nat ->
    Str.digits acc n s = Some (v, n', rest) ->
    all_literal rest = true -> all_literal s = true.
Proof.
  induction k as [|k IH]; intros s acc n v n' rest Hlen H Hrest.
  - destruct s; [|simpl in Hlen; lia]. simpl in H. injection H as _ _ <-. exact Hrest.
  - destruct s as [|a s]; simpl in H.
    + injection H as _ _ <-. exact Hrest.
    + simpl in Hlen. destruct (Str.digit_val a) as [d|] eqn:Ha.
      * simpl. rewrite (digit_val_literal _ _ Ha). simpl.
        eapply IH; [|exact H|exact Hrest]. lia.
      * destruct (Ascii.eqb a "_") eqn:Hu.
        -- destruct s as [|b s]; [discriminate|].
           destruct (Str.digit_val b) as [d|] eqn:Hb; [|discriminate].
           simpl. unfold literal_char at 1. rewrite Hu, (digit_val_literal _ _ Hb).
           rewrite !orb_true_r. simpl.
           eapply IH; [|exact H|exact Hrest]. simpl in Hlen. lia.
        -- injection H as _ _ <-. exact Hrest.
Qed.

Lemma unsigned_literal s v : Str.unsigned s = Ret v -> all_literal s = true.
Proof.
  unfold Str.unsigned. destruct s as [|a s]; [discriminate|].
  destruct (Str.digit_val a) as [d|] eqn:Ha; [|discriminate].
  destruct (Str.digits d 1 s) as [[[v' n] rest]|] eqn:Hd; [|discriminate].
  destruct (Str.skip_space rest) eqn:Hr; [|discriminate].
  intros _. simpl. rewrite (digit_val_literal _ _ Ha). simpl.
  eapply digits_literal_bounded; [reflexivity|exact Hd|].
  apply only_space_literal, Hr.
Qed.

Lemma unsigned_ValueError s : (exists v, Str.unsigned s = Ret v) \/ Str.unsigned s = Raise ValueError.
Proof.
  unfold Str.unsigned.
  repeat match goal with
         | |- context [match ?x with _ => _ end] => destruct x; eauto
         end.
Qed.

Lemma int_cases s :
  (exists t, Str.skip_space s = String "-" t /\ Str.int s = rbind (Str.unsigned t) (fun v => Ret (- v)))
  \/ (exists t, Str.skip_space s = String "+" t /\ Str.int s = Str.unsigned t)
  \/ Str.int s = Str.unsigned (Str.skip_space s).
Proof.
  unfold Str.int. destruct (Str.skip_space s) as [|a t]; [right; right; reflexivity|].
  destruct a as [[] [] [] [] [] [] [] []];
    first [ left; eexists; split; reflexivity
          | right; left; eexists; split; reflexivity
          | right; right; reflexivity ].
Qed.

Lemma int_literal s v : Str.int s = Ret v -> all_literal s = true.
Proof.
  intros H. apply skip_space_literal.
  destruct (int_cases s) as [(t & Hs & Hi)|[(t & Hs & Hi)|Hi]]; rewrite Hi in H.
  - rewrite Hs. simpl. destruct (Str.unsigned t) as [u|] eqn:Hu; [|discriminate].
    apply (unsigned_literal _ _ Hu).
  - rewrite Hs. simpl. apply (unsigned_literal _ _ H).
  - apply (unsigned_literal _ _ H).
Qed.

Lemma int_ValueError s : (exists v, Str.int s = Ret v) \/ Str.int s = Raise ValueError.
Proof.
  destruct (int_cases s) as [(t & Hs & Hi)|[(t & Hs & Hi)|Hi]]; rewrite Hi.
  - destruct (unsigned_ValueError t) as [[v Hv]|Hv]; rewrite Hv; simpl; eauto.
  - apply unsigned_ValueError.
  - apply unsigned_ValueError.
Qed.

Lemma int_malformed s :
  s = EmptyString \/ all_literal s = false -> Str.int s = Raise ValueError.
Proof.
  intros [->|H]; [reflexivity|].
  destruct (int_ValueError s) as [[v Hv]|Hv]; [|exact Hv].
  apply int_literal in Hv. congruence.
Qed.
End ParseProps.

(** ** Substrings and case *)

Section StringProps.
Import Spec.

Lemma app_cons (x : ascii) (a b : string) : String x a +:+ b = String x (a +:+ b).
Proof. reflexivity. Qed.

Lemma app_empty (b : string) : "" +:+ b = b.
Proof. reflexivity. Qed.

Lemma prefix_cons (x y : ascii) (a s : string) :
  String.prefix (String x a) (String y s)
  = if Ascii.ascii_dec x y then String.prefix a s else false.
Proof. reflexivity. Qed.

Lemma prefix_spec (a s : string) :
  String.prefix a s = true <-> exists b, s = a +:+ b.
Proof.
  revert s. induction a as [|x a IH]; intros s.
  - split; [intros _; exists s; reflexivity | destruct s; reflexivity].
  - destruct s as [|y s].
    + split; [discriminate | intros [b Hb]; discriminate].
    + rewrite prefix_cons. destruct (Ascii.ascii_dec x y) as [->|Hne].
      * rewrite IH. split; intros [b Hb]; exists b.
        -- rewrite Hb. reflexivity.
        -- rewrite app_cons in Hb. injection Hb as ->. reflexivity.
      * split; [discriminate|]. intros [b Hb]. rewrite app_cons in Hb. congruence.
Qed.

Lemma contains_unfold (needle hay : string) :
  Str.contains needle hay
  = if String.prefix needle hay then true
    else match hay with
         | EmptyString => false
         | String _ hay' => Str.contains needle hay'
         end.
Proof. destruct hay; reflexivity. Qed.

Lemma contains_spec (needle hay : string) :
  Str.contains needle hay = true <-> exists pre post, hay = pre +:+ needle +:+ post.
Proof.
  induction hay as [|y hay IH]; rewrite contains_unfold.
  - destruct (String.prefix needle "") eqn:Hp.
    + split; [intros _|reflexivity].
      apply prefix_spec in Hp as [b Hb]. exists "", b. exact Hb.
    + split; [discriminate|]. intros (pre & post & H).
      destruct pre; [|discriminate]. rewrite app_empty in H.
      assert (String.prefix needle "" = true) by (apply prefix_spec; eauto).
      congruence.
  - destruct (String.prefix needle (String y hay)) eqn:Hp.
    + split; [intros _|reflexivity].
      apply prefix_spec in Hp as [b Hb]. exists "", b. exact Hb.
    + rewrite IH. split.
      * intros (pre & post & ->). exists (String y pre), post. reflexivity.
      * intros (pre & post & H). destruct pre as [|x pre].
        -- rewrite app_empty in H.
           assert (String.prefix needle (String y hay) = true) by (apply prefix_spec; eauto).
           congruence.
        -- rewrite app_cons in H. injection H as _ ->. eauto.
Qed.

Lemma lower_app (a b : string) : Str.lower (a +:+ b) = Str.lower a +:+ Str.lower b.
Proof.
  induction a as [|x a IH]; [reflexivity|].
  rewrite app_cons. simpl. rewrite IH. reflexivity.
Qed.

Lemma lower_split (s x y : string) :
  Str.lower s = x +:+ y -> exists a b, s = a +:+ b /\ Str.lower a = x /\ Str.lower b = y.
Proof.
  revert s. induction x as [|c x IH]; intros s H.
  - exists "", s. auto.
  - rewrite app_cons in H. destruct s as [|d s]; simpl in H; [discriminate|].
    injection H as Hc Hs. destruct (IH _ Hs) as (a & b & -> & Ha & Hb).
    exists (String d a), b. simpl. rewrite Hc, Ha. auto.
Qed.

(** Comparing the two texts in small letters is the search up to case. *)
Lemma occurs_ci_contains (t s : string) :
  occurs_ci t s <-> Str.contains (Str.lower t) (Str.lower s) = true.
Proof.
  rewrite contains_spec. split.
  - intros (pre & mid & post & -> & Hm).
    exists (Str.lower pre), (Str.lower post). rewrite !lower_app, Hm. reflexivity.
  - intros (pre & post & H).
    apply lower_split in H as (a & b & -> & Ha & Hb).
    apply lower_split in Hb as (m & c & -> & Hm & Hc).
    exists a, m, c. auto.
Qed.

End StringProps.

(** ** The filter: entries and their derived field *)

Section FilterSpec.
Import Trending Spec.

Lemma dict_get_set_ne {A} (d : list (string * A)) k k' v :
  k <> k' -> dict_get (dict_set d k v) k' = dict_get d k'.
Proof.
  intros Hne. induction d as [|[k0 v0] d IH]; simpl.
  - destruct (String.eqb_spec k k'); [contradiction|reflexivity].
  - destruct (String.eqb_spec k0 k) as [->|Hk]; simpl.
    + destruct (String.eqb_spec k k'); [contradiction|reflexivity].
    + rewrite IH. reflexivity.
Qed.

Lemma dict_set_idem {A} (d : list (string * A)) k v :
  dict_set (dict_set d k v) k v = dict_set d k v.
Proof.
  induction d as [|[k0 v0] d IH]; simpl.
  - rewrite String.eqb_refl. reflexivity.
  - destruct (String.eqb_spec k0 k) as [->|Hk]; simpl.
    + rewrite String.eqb_refl. reflexivity.
    + destruct (String.eqb_spec k0 k); [contradiction|]. rewrite IH. reflexivity.
Qed.

Lemma py_get_with_stars_int e k dflt :
  k <> "_stars_int" -> py_get (with_stars_int e) k dflt = py_get e k dflt.
Proof.
  intros Hk. destruct e; try reflexivity. simpl.
  rewrite dict_get_set_ne by congruence. reflexivity.
Qed.

Lemma parse_stars_with_stars_int e : parse_stars (with_stars_int e) = parse_stars e.
Proof. unfold parse_stars. rewrite py_get_with_stars_int by discriminate. reflexivity. Qed.

Lemma star_count_with_stars_int e : star_count (with_stars_int e) = star_count e.
Proof. unfold star_count. rewrite parse_stars_with_stars_int. reflexivity. Qed.

Lemma text_of_with_stars_int e k :
  k <> "_stars_int" -> text_of (with_stars_int e) k = text_of e k.
Proof. intros Hk. unfold text_of. rewrite py_get_with_stars_int by exact Hk. reflexivity. Qed.

Lemma selectedb_with_stars_int min_stars search e :
  selectedb min_stars search (with_stars_int e) = selectedb min_stars search e.
Proof.
  unfold selectedb, found. rewrite star_count_with_stars_int.
  destruct search; [|reflexivity].
  rewrite !text_of_with_stars_int by discriminate. reflexivity.
Qed.

Lemma with_stars_int_idem e : with_stars_int (with_stars_int e) = with_stars_int e.
Proof.
  destruct e; try reflexivity.
  change (with_stars_int (with_stars_int (VDict d)))
    with (VDict (dict_set (dict_set d "_stars_int" (VInt (star_count (VDict d))))
                   "_stars_int" (VInt (star_count (with_stars_int (VDict d)))))).
  rewrite star_count_with_stars_int, dict_set_idem. reflexivity.
Qed.

Lemma well_formed_with_stars_int e : well_formed e -> well_formed (with_stars_int e).
Proof.
  intros (Hs & Ht & Hd). unfold well_formed.
  rewrite parse_stars_with_stars_int, !py_get_with_stars_int by discriminate. auto.
Qed.

Lemma search_misses_found search e :
  well_formed e -> search_misses search e = Ret (negb (found search e)).
Proof.
  intros (_ & [t Ht] & [d Hd]). unfold search_misses, found, text_of.
  destruct search as [term|]; [|reflexivity].
  rewrite Ht, Hd. simpl.
  destruct (String.eqb_spec term "") as [->|Hne]; simpl.
  - rewrite contains_unfold. destruct (Str.lower t); reflexivity.
  - rewrite negb_orb. reflexivity.
Qed.

Lemma selectedb_selected min_stars search e :
  selectedb min_stars search e = true <-> selected min_stars search e.
Proof.
  unfold selectedb, selected, found, matches.
  rewrite andb_true_iff, Z.leb_le.
  destruct search as [t|]; [|tauto].
  rewrite orb_true_iff, <- !occurs_ci_contains. tauto.
Qed.


Lemma parse_stars_dict e n : parse_stars e = Ret n -> exists d, e = VDict d.
Proof. destruct e; try discriminate. eauto. Qed.

Lemma filter_step_well_formed min_stars search r hk :
  well_formed (hk r) ->
  filter_step min_stars None search r hk
  = (Ret (selectedb min_stars search (hk r)),
     if selectedb min_stars search (hk r) then <[r := with_stars_int (hk r)]> hk else hk).
Proof.
  intros Hwf. pose proof Hwf as ([n Hn] & _ & _).
  unfold filter_step, selectedb, star_count. unfold_monad.
  rewrite Hn. rewrite (search_misses_found _ _ Hwf).
  destruct (Z.ltb_spec n min_stars) as [Hlt|Hge].
  - destruct (Z.leb_spec min_stars n); [lia|]. reflexivity.
  - destruct (Z.leb_spec min_stars n); [|lia]. simpl.
    destruct (found search (hk r)); simpl; [|reflexivity].
    destruct (parse_stars_dict _ _ Hn) as [d Hd].
    rewrite Hd. simpl. unfold star_count. rewrite <- Hd, Hn. reflexivity.
Qed.

Lemma filter_loop_spec (h : heap) min_stars search repos :
  let sel := fun r => selectedb min_stars search (h r) in
  forall filtered hk,
    ahead h hk ->
    (forall r, In r repos -> well_formed (h r)) ->
    exists h',
      filter_loop min_stars None search repos filtered hk
      = (Ret (filtered ++ List.filter sel repos), h')
      /\ ahead h h'
      /\ (forall r, In r (List.filter sel repos) -> h' r = with_stars_int (h r))
      /\ (forall r, ~ In r (List.filter sel repos) -> h' r = hk r).
Proof.
  intros sel. induction repos as [|r rest IH]; intros filtered hk Hk Hwf.
  - exists hk. simpl. rewrite app_nil_r. repeat split; auto. intros r [].
  - assert (Hr : well_formed (h r)) by (apply Hwf; left; reflexivity).
    assert (Hkr : well_formed (hk r)
                  /\ selectedb min_stars search (hk r) = sel r
                  /\ with_stars_int (hk r) = with_stars_int (h r)).
    { destruct (Hk r) as [->| ->]; [auto|].
      split; [apply well_formed_with_stars_int, Hr|].
      split; [apply selectedb_with_stars_int | apply with_stars_int_idem]. }
    destruct Hkr as (Hwk & Hsel & Hatt).
    cbn [filter_loop]. unfold bind.
    rewrite (filter_step_well_formed _ _ _ _ Hwk), Hsel, Hatt.
    set (hk1 := if sel r then <[r := with_stars_int (h r)]> hk else hk).
    assert (Hk1 : ahead h hk1).
    { intros x. subst hk1. destruct (sel r); [|apply Hk].
      destruct (decide (r = x)) as [->|Hne].
      - right. apply fn_lookup_insert.
      - rewrite fn_lookup_insert_ne by exact Hne. apply Hk. }
    destruct (IH (if sel r then filtered ++ [r] else filtered) hk1 Hk1)
      as (h' & Hrun & Hah & Hin & Hout).
    { intros x Hx. apply Hwf. right. exact Hx. }
    exists h'. rewrite Hrun. cbn [List.filter].
    destruct (sel r) eqn:Hs; subst hk1.
    + rewrite <- app_assoc. repeat split; auto.
      * intros x [<-|Hx]; [|apply Hin, Hx].
        destruct (in_dec Nat.eq_dec r (List.filter sel rest)) as [Hi|Hni]; [apply Hin, Hi|].
        rewrite (Hout _ Hni). apply fn_lookup_insert.
      * intros x Hx. rewrite Hout by (intros Hi; apply Hx; right; exact Hi).
        apply fn_lookup_insert_ne. intros ->. apply Hx. left. reflexivity.
    + repeat split; auto.
Qed.

End FilterSpec.

(** ** The filter *)

Section FilterProps.
Import Trending.

Lemma above_max_zero (stars : Z) : above_max (Some 0) stars = false.
Proof. reflexivity. Qed.

Lemma filter_step_max_zero min_stars search r h :
  filter_step min_stars (Some 0) search r h = filter_step min_stars None search r h.
Proof. reflexivity. Qed.

Lemma filter_loop_max_zero min_stars search repos :
  forall filtered h,
    filter_loop min_stars (Some 0) search repos filtered h
    = filter_loop min_stars None search repos filtered h.
Proof.
  induction repos as [|r rest IH]; intros filtered h; simpl.
  - reflexivity.
  - unfold bind. rewrite filter_step_max_zero.
    destruct (filter_step min_stars None search r h) as [[keep|e] h']; auto.
Qed.

(** C10: [max_stars = 0] is no bound at all.  The test [max_stars and
    stars > max_stars] rejects no star count when [max_stars] is [0] or
    [None], and [filter_repos] with [max_stars = 0] returns what it returns
    with no upper bound, whatever the entries, the other filters and the
    heap. *)
Theorem filter_repos_max_stars_zero_unbounded :
  (forall stars, above_max (Some 0) stars = false /\ above_max None stars = false)
  /\ (forall repos min_stars search h,
        filter_repos repos min_stars (Some 0) search h
        = filter_repos repos min_stars None search h).
Proof.
  split.
  - intros stars. split; reflexivity.
  - intros. apply filter_loop_max_zero.
Qed.

Lemma filter_loop_app min_stars max_stars search pre post :
  forall filtered h,
    filter_loop min_stars max_stars search (pre ++ post) filtered h
    = bind (filter_loop min_stars max_stars search pre filtered)
           (fun out => filter_loop min_stars max_stars search post out) h.
Proof.
  induction pre as [|r pre IH]; intros filtered h; [reflexivity|].
  cbn [app filter_loop]. rewrite bind_assoc.
  apply bind_ext. intros keep h1. apply IH.
Qed.

Lemma filter_step_parse_error min_stars max_stars search r h e :
  parse_stars (h r) = Raise e ->
  filter_step min_stars max_stars search r h = (Raise e, h).
Proof. intros H. unfold filter_step. unfold_monad. rewrite H. reflexivity. Qed.

(** C2, as the code has it: the star count of an entry is read by removing
    the separators from the star string and converting the rest with [int].
    A numeral of at most 4300 digits, separators apart, gives the integer its
    digits denote.  A star string that is empty without its separators, or
    holds a character no integer literal has, raises [ValueError]; and when
    the conversion raises, so does [filter_repos] at that entry, with the
    entries before it already gone through. *)
Theorem parse_stars_separators :
  forall (repo : pyval) (s : string),
    py_get repo "stars" (VStr "0") = Ret (VStr s) ->
    let ds := Str.replace "," "" s in
    (Spec.numeral ds = true -> (String.length ds <= Str.max_str_digits)%nat ->
     parse_stars repo = Ret (Spec.denotation ds))
    /\ (ds = EmptyString \/ Spec.all_literal ds = false ->
        parse_stars repo = Raise ValueError)
    /\ (parse_stars repo = Raise ValueError ->
        forall pre r post min_stars max_stars search (h h1 : heap) out,
          filter_repos pre min_stars max_stars search h = (Ret out, h1) ->
          h1 r = repo ->
          filter_repos (pre ++ r :: post) min_stars max_stars search h
          = (Raise ValueError, h1)).
Proof.
  intros repo s Hs ds.
  assert (Hp : parse_stars repo = Str.int ds).
  { unfold parse_stars. rewrite Hs. reflexivity. }
  repeat split.
  - intros Hn Hlen. rewrite Hp. apply int_numeral; assumption.
  - intros Hbad. rewrite Hp. apply int_malformed, Hbad.
  - intros Hraise pre r post min_stars max_stars search h h1 out Hpre Hr.
    unfold filter_repos in *. rewrite filter_loop_app.
    rewrite (bind_run _ _ _ _ _ Hpre). cbn [filter_loop].
    apply bind_raise, filter_step_parse_error. rewrite Hr. exact Hraise.
Qed.

(** The filter on text of U+0000..U+00FF, where [str.lower] acts character
    by character.  On a listing of well-formed entries, [filter_repos] with
    a lower bound and a search term returns the references of the listing,
    in the order of the listing, whose entry is selected: a parsed star
    count of at least [min_stars] and, when a term is given, a title or a
    description in which the term occurs up to case.  The entries returned
    have received their derived field; the others are left as they are. *)
Theorem filter_repos_selects_in_order :
  forall (h : heap) (repos : list loc) (min_stars : Z) (search : option string),
    (forall r, In r repos -> Spec.well_formed (h r)) ->
    let out := List.filter (fun r => Spec.selectedb min_stars search (h r)) repos in
    (exists h',
        filter_repos repos min_stars None search h = (Ret out, h')
        /\ (forall r, In r out -> h' r = Spec.with_stars_int (h r))
        /\ (forall r, ~ In r out -> h' r = h r))
    /\ (forall r, In r out <-> In r repos /\ Spec.selected min_stars search (h r)).
Proof.
  intros h repos min_stars search Hwf out. split.
  - destruct (filter_loop_spec h min_stars search repos [] h) as (h' & Hrun & _ & Hin & Hout).
    + intros r. left. reflexivity.
    + exact Hwf.
    + exists h'. unfold filter_repos. rewrite Hrun. auto.
  - intros r. subst out. rewrite filter_In, selectedb_selected. reflexivity.
Qed.

(** The theorem for C2 at the first entry of the sample listing. *)
Lemma parse_stars_separators_witness :
  py_get (Sample.sample_heap 0) "stars" (VStr "0") = Ret (VStr "12,345")
  /\ parse_stars (Sample.sample_heap 0) = Ret 12345.
Proof.
  split; [reflexivity|].
  destruct (parse_stars_separators (Sample.sample_heap 0) "12,345" eq_refl) as [H _].
  apply H; [reflexivity | vm_compute; lia].
Defined.

(** C2 as stated fails: a star string that is no integer does not parse to
    [0]; the conversion raises [ValueError], and so does [filter_repos]. *)
Lemma malformed_stars_raise :
  py_get (Sample.odd_heap 1) "stars" (VStr "0") = Ret (VStr "1.2k")
  /\ parse_stars (Sample.odd_heap 1) = Raise ValueError
  /\ parse_stars (Sample.odd_heap 1) <> Ret 0
  /\ fst (filter_repos [0; 1]%nat 0 None None Sample.odd_heap) = Raise ValueError.
Proof. repeat split; try reflexivity. discriminate. Qed.

(** The theorem on the sample listing: at least 1000 stars, and
    [PYTHON] in the title or the description. *)
Lemma filter_repos_selects_in_order_witness :
  (forall r, In r [0; 1; 2; 3]%nat -> Spec.well_formed (Sample.sample_heap r))
  /\ fst (filter_repos [0; 1; 2; 3]%nat 1000 None (Some "PYTHON") Sample.sample_heap)
     = Ret [0%nat].
Proof.
  assert (Hwf : forall r, In r [0; 1; 2; 3]%nat -> Spec.well_formed (Sample.sample_heap r)).
  { intros r [<-|[<-|[<-|[<-|[]]]]]; repeat split; eexists; reflexivity. }
  split; [exact Hwf|].
  destruct (filter_repos_selects_in_order Sample.sample_heap [0; 1; 2; 3]%nat 1000
              (Some "PYTHON") Hwf) as [(h' & Hrun & _) _].
  rewrite Hrun. reflexivity.
Defined.

End FilterProps.

(** ** The cache store *)

Section CacheProps.
Import Trending Spec.
Context {P : Platform}.


Lemma Qltb_false (a b : Q) : Qltb a b = false <-> (b <= a)%Q.
Proof. unfold Qltb. rewrite negb_false_iff. apply Qle_bool_iff. Qed.

(** What [read_cache] does on a file that holds JSON. *)
Lemma read_cache_json cache_type key (w : World) j :
  fs w !! get_cache_path cache_type key = Some (Json j) ->
  read_cache cache_type key w
  = match py_get j "_cached_at" (VInt 0) with
    | Raise x => miss_or_raise x w
    | Ret cached_at =>
        let (t, e) := time_time (env w) in
        match py_num cached_at with
        | Raise x => miss_or_raise x (set_env e w)
        | Ret c =>
            if Qltb (inject_Z (ttl_of cache_type)) (t - c) then (Ret VNone, set_env e w)
            else match py_get j "_data" VNone with
                 | Ret v => (Ret v, set_env e w)
                 | Raise x => miss_or_raise x (set_env e w)
                 end
        end
    end.
Proof.
  intros Hf. unfold read_cache, path_exists, load_json, now, ttl_of. unfold_monad.
  rewrite Hf. cbn [negb]. rewrite Hf.
  destruct (py_get j "_cached_at" (VInt 0)) as [cached_at|x]; [|reflexivity].
  destruct (time_time (env w)) as [t e].
  destruct (py_num cached_at) as [c|x]; [|reflexivity].
  destruct (Qltb _ _); [reflexivity|].
  destruct (py_get j "_data" VNone); reflexivity.
Qed.

(** The states of the cache file that are answered by a miss. *)
Lemma read_cache_miss cache_type key (w : World) :
  let p := get_cache_path cache_type key in
  (fs w !! p = None \/ fs w !! p = Some Unreadable \/ fs w !! p = Some Malformed) ->
  read_cache cache_type key w = (Ret VNone, w).
Proof.
  intros p H. unfold read_cache, path_exists, load_json. unfold_monad. fold p.
  destruct H as [H | [H | H]]; rewrite H; cbn [negb]; try rewrite H; reflexivity.
Qed.

(** On the records [write_cache] writes, [read_cache] returns: the payload
    or a miss. *)
Lemma read_cache_own_record cache_type key (w : World) (tw : Q) (k : string) payload :
  fs w !! get_cache_path cache_type key
  = Some (Json (VDict [("_cached_at", VFloat tw); ("_key", VStr k); ("_data", payload)])) ->
  fst (read_cache cache_type key w) = Ret payload
  \/ fst (read_cache cache_type key w) = Ret VNone.
Proof.
  intros Hf. rewrite (read_cache_json _ _ _ _ Hf). cbn.
  destruct (time_time (env w)) as [t e].
  destruct (Qltb _ _); cbn; auto.
Qed.

(** C1, where the code departs from it: [read_cache] raises to its caller
    when the cache file holds JSON that is not an object
    ([AttributeError]), when its bytes are not UTF-8
    ([UnicodeDecodeError]), and when its time stamp is not a number
    ([TypeError]); none of these is in the [except] clause. *)
Theorem read_cache_raises :
  forall (w : World) (cache_type key : string),
    let p := get_cache_path cache_type key in
    (forall j, fs w !! p = Some (Json j) -> (forall d, j <> VDict d) ->
       fst (read_cache cache_type key w) = Raise AttributeError)
    /\ (fs w !! p = Some Undecodable ->
        fst (read_cache cache_type key w) = Raise UnicodeDecodeError)
    /\ (forall d c, fs w !! p = Some (Json (VDict d)) ->
          dict_get d "_cached_at" = Some c -> py_num c = Raise TypeError ->
          fst (read_cache cache_type key w) = Raise TypeError).
Proof.
  intros w cache_type key p. repeat split.
  - intros j Hf Hj. rewrite (read_cache_json _ _ _ _ Hf).
    destruct j; try reflexivity. exfalso. eapply Hj. reflexivity.
  - intros Hf. unfold read_cache, path_exists, load_json. unfold_monad. fold p.
    rewrite Hf. cbn [negb]. rewrite Hf. reflexivity.
  - intros d c Hf Hc Hn. rewrite (read_cache_json _ _ _ _ Hf).
    cbn [py_get]. rewrite Hc. destruct (time_time (env w)) as [t e].
    rewrite Hn. reflexivity.
Qed.

(** ** Values written and read back *)

Lemma pyval_nested_ind (Q : pyval -> Prop) :
  Q VNone -> (forall b, Q (VBool b)) -> (forall z, Q (VInt z)) ->
  (forall q, Q (VFloat q)) -> (forall s, Q (VStr s)) ->
  (forall l, List.Forall Q l -> Q (VList l)) ->
  (forall d, List.Forall (fun kv => Q (snd kv)) d -> Q (VDict d)) ->
  forall v, Q v.
Proof.
  intros HN HB HI HF HS HL HD. fix IH 1. intros [|b|z|q|s|l|d].
  - exact HN.
  - apply HB.
  - apply HI.
  - apply HF.
  - apply HS.
  - apply HL. induction l as [|x l IHl]; constructor; [apply IH | exact IHl].
  - apply HD. induction d as [|[k x] d IHd]; constructor; [apply IH | exact IHd].
Qed.

Lemma dict_set_fresh {A} (d : list (string * A)) k v :
  existsb (String.eqb k) (map fst d) = false -> dict_set d k v = d ++ [(k, v)].
Proof.
  induction d as [|[k0 v0] d IH]; cbn [map fst existsb dict_set app]; [reflexivity|].
  rewrite orb_false_iff. intros [Hk Hd].
  rewrite String.eqb_sym, Hk, (IH Hd). reflexivity.
Qed.

Lemma distinct_fold (d acc : list (string * pyval)) :
  distinct (map fst d) = true ->
  (forall k, In k (map fst d) -> existsb (String.eqb k) (map fst acc) = false) ->
  fold_left (fun a kv => dict_set a (fst kv) (snd kv)) d acc = acc ++ d.
Proof.
  revert acc. induction d as [|[k v] d IH]; intros acc Hd Hacc; cbn [fold_left].
  - rewrite app_nil_r. reflexivity.
  - cbn [map fst distinct] in Hd. apply andb_true_iff in Hd as [Hk Hd].
    apply negb_true_iff in Hk. cbn [fst snd].
    rewrite dict_set_fresh by (apply Hacc; left; reflexivity).
    rewrite IH; [rewrite <- app_assoc; reflexivity | exact Hd |].
    intros k' Hk'. rewrite map_app, existsb_app, (Hacc k') by (right; exact Hk').
    cbn. rewrite orb_false_r.
    destruct (String.eqb_spec k' k) as [->|]; [|reflexivity].
    exfalso. apply (proj2 (not_true_iff_false _) Hk).
    apply existsb_exists. exists k. split; [exact Hk' | apply String.eqb_refl].
Qed.

Lemma dict_of_pairs_distinct (d : list (string * pyval)) :
  distinct (map fst d) = true -> dict_of_pairs d = d.
Proof.
  intros Hd. unfold dict_of_pairs. rewrite (distinct_fold d [] Hd); [reflexivity|].
  intros k _. reflexivity.
Qed.

(** A storable value is written as it is: what [json.load] reads from the
    text [json.dump] writes for it is the value itself. *)
Lemma to_json_of_json (v : pyval) : storable v = true -> to_json (of_json v) = Ret v.
Proof.
  induction v as [|b|z|q|s|l IHl|d IHd] using pyval_nested_ind;
    cbn [of_json to_json storable]; try reflexivity.
  - intros ->. reflexivity.
  - intros Hl.
    match goal with
    | |- rbind (?f _) _ = _ => assert (Hel : f (map of_json l) = Ret l)
    end.
    { induction l as [|x l IH]; [reflexivity|].
      cbn [forallb] in Hl. apply andb_true_iff in Hl as [Hx Hl].
      apply List.Forall_cons_iff in IHl as [IHx IHl].
      cbn [map]. rewrite (IHx Hx). cbn [rbind]. rewrite (IH IHl Hl). reflexivity. }
    rewrite Hel. reflexivity.
  - intros Hd. apply andb_true_iff in Hd as [Hk Hd].
    match goal with
    | |- rbind (?f _) _ = _ =>
        assert (Hel : f (map (fun kv => (KStr (fst kv), of_json (snd kv))) d) = Ret d)
    end.
    { clear Hk. induction d as [|[k x] d IH]; [reflexivity|].
      cbn [forallb snd] in Hd. apply andb_true_iff in Hd as [Hx Hd].
      apply List.Forall_cons_iff in IHd as [IHx IHd]. cbn [snd] in IHx.
      cbn [map fst snd key_text rbind]. rewrite (IHx Hx). cbn [rbind].
      rewrite (IH IHd Hd). reflexivity. }
    rewrite Hel. cbn [rbind]. rewrite (dict_of_pairs_distinct d Hk). reflexivity.
Qed.

(** What [write_cache] does where writing is allowed: the record it leaves
    when the payload is written, the broken file it leaves when [json.dump]
    raises, the exception being passed on unless it is a [TypeError]. *)
Lemma write_cache_writable cache_type key (o : pyobj) (w : World) (tw : Q) (e1 : Env) :
  let p := get_cache_path cache_type key in
  write_denied w (parent p) = false ->
  write_denied w p = false ->
  time_time (env w) = (tw, e1) ->
  write_cache cache_type key o w
  = match to_json o with
    | Ret v =>
        (Ret tt,
         set_fs (<[p := Json (VDict [("_cached_at", VFloat tw); ("_key", VStr key);
                                     ("_data", v)])]> (fs w)) (set_env e1 w))
    | Raise x =>
        (if caught [COSError; CTypeError] x then Ret tt else Raise x,
         set_fs (<[p := Malformed]> (fs w)) (set_env e1 w))
    end.
Proof.
  intros p Hd Hp Ht. unfold write_cache, mkdir, now, dump_json. unfold_monad. fold p.
  rewrite Hd, Ht. cbn [set_env write_denied fs env].
  rewrite Hp. cbn [to_json key_text rbind].
  destruct (to_json o) as [v|x]; cbn [rbind]; [reflexivity|].
  destruct (caught _ x); reflexivity.
Qed.


End CacheProps.

Section CacheWitnesses.
Import Trending Spec CacheSample.

(** The three failures of C1 on sample cache directories. *)
Lemma read_cache_raises_witness :
  fst (@read_cache Sim.trending "trending" "daily_zig" list_file) = Raise AttributeError
  /\ fst (@read_cache Sim.trending "trending" "daily_zig" binary_file) = Raise UnicodeDecodeError
  /\ fst (@read_cache Sim.trending "trending" "daily_zig" odd_stamp) = Raise TypeError.
Proof.
  split; [|split].
  - destruct (@read_cache_raises Sim.trending list_file "trending" "daily_zig") as [H _].
    apply (H (VList [])); [reflexivity | discriminate].
  - destruct (@read_cache_raises Sim.trending binary_file "trending" "daily_zig") as (_ & H & _).
    apply H. reflexivity.
  - destruct (@read_cache_raises Sim.trending odd_stamp "trending" "daily_zig") as (_ & _ & H).
    eapply H; reflexivity.
Defined.


End CacheWitnesses.

(** ** The trending fetcher *)

Section FetchProps.
Import Trending Spec.
Context {P : Platform}.

Lemma rate_limit_returns (w : World) : fst (rate_limit w) = Ret tt.
Proof.
  unfold rate_limit, now, sleep. unfold_monad.
  destruct (time_time (env w)) as [t e]. cbn.
  destruct (Qltb _ _); cbn; destruct (time_time _); reflexivity.
Qed.

(** C5: when the cache gives nothing, the request to the primary feed
    raises and the scraper finds no entry, [fetch_trending] does not return:
    it leaves through [sys.exit(1)] when the failure of the feed is an
    [HTTPError] or a [URLError], and through the exception of the feed
    otherwise.  No empty result is handed to the caller. *)
Theorem fetch_trending_hard_failure :
  forall (w w1 w4 : World) (since language : string) (use_cache : bool)
         (x : exn) (e3 : Env),
    let cache_key := since +:+ "_" +:+ language in
    let url := BASE_URL +:+ "/" +:+ since +:+ "/" +:+ Str.lower language +:+ ".json" in
    let w2 := snd (rate_limit w1) in
    (if use_cache
     then exists c, read_cache "trending" cache_key w = (Ret c, w1) /\ truthy c = false
     else w1 = w) ->
    urlopen_json url (env w2) = (Raise x, e3) ->
    scrape_trending (if String.eqb language "all" then "" else language) since
      (set_env e3 w2) = (Ret [], w4) ->
    fetch_trending since language use_cache w
    = if caught [CHTTPError; CURLError] x
      then (Raise (SystemExit 1), w4)
      else (Raise x, set_env e3 w2).
Proof.
  intros w w1 w4 since language use_cache x e3 cache_key url w2 Hmiss Hfeed Hscrape.
  assert (Hrl : rate_limit w1 = (Ret tt, w2)).
  { pose proof (rate_limit_returns w1) as H. subst w2.
    destruct (rate_limit w1) as [r s]. cbn in *. subst r. reflexivity. }
  assert (Hrest :
    bind (try_except
            (bind rate_limit (fun _ =>
             bind (http_json url) (fun data =>
             bind (lift (normalize data)) (fun data' =>
             bind (write_cache "trending" cache_key (of_json data')) (fun _ =>
             ret (Some data'))))))
            [CHTTPError; CURLError] (fun _ => ret None))
         (fun primary =>
            match primary with
            | Some data => ret data
            | None =>
                bind (scrape_trending (if String.eqb language "all" then "" else language) since)
                  (fun repos =>
                     match repos with
                     | _ :: _ =>
                         bind get (fun w =>
                           let data := VDict [("items", VList repos);
                                              ("pubDate", VStr (utcnow_strftime (env w)))] in
                           bind (write_cache "trending" cache_key (of_json data)) (fun _ => ret data))
                     | [] => raise (SystemExit 1)
                     end)
            end) w1
    = if caught [CHTTPError; CURLError] x
      then (Raise (SystemExit 1), w4)
      else (Raise x, set_env e3 w2)).
  { unfold bind at 1. unfold try_except.
    rewrite (bind_run _ _ _ _ _ Hrl).
    assert (Hj : http_json url w2 = (Raise x, set_env e3 w2)).
    { unfold http_json. rewrite Hfeed. reflexivity. }
    rewrite (bind_raise _ _ _ _ _ Hj).
    destruct (caught [CHTTPError; CURLError] x); [|reflexivity].
    unfold ret at 1. rewrite (bind_run _ _ _ _ _ Hscrape). reflexivity. }
  unfold fetch_trending. fold cache_key. fold url.
  destruct use_cache.
  - destruct Hmiss as (c & Hread & Hc).
    rewrite bind_assoc. rewrite (bind_run _ _ _ _ _ Hread).
    rewrite bind_ret_l, Hc. exact Hrest.
  - subst w1. rewrite bind_ret_l. exact Hrest.
Qed.

End FetchProps.

Section FetchWitnesses.
Import Trending Spec FetchSample.

(** The theorem for C5 where the feed answers 404 and the page is empty. *)
Lemma fetch_trending_hard_failure_witness :
  fst (@fetch_trending Sim.trending "daily" "zig" true nothing_anywhere)
  = Raise (SystemExit 1).
Proof.
  erewrite (@fetch_trending_hard_failure Sim.trending nothing_anywhere nothing_anywhere);
    cycle 1.
  - exists VNone. split; reflexivity.
  - reflexivity.
  - reflexivity.
  - reflexivity.
Defined.

(** With an entry on the page the fallback result is returned, and a second
    call is answered from the cache. *)
Example fetch_trending_fallback :
  let r := @fetch_trending Sim.trending "daily" "zig" true page_only in
  fst r = Ret (VDict [("items", VList [VDict [("title", VStr "owner/name");
                                              ("stars", VStr "1,234")]]);
                      ("pubDate", VStr "Thu, 01 Jan 1970 00:00:00 GMT")])
  /\ fst (@fetch_trending Sim.trending "daily" "zig" true (snd r)) = fst r.
Proof. split; reflexivity. Qed.
End FetchWitnesses.

(** ** The health scorer *)

Section ScoreProps.
Import Analyzer.
Context {P : Platform}.

Lemma days_since_lt (n : Net) (d : datetime) (k : Z) :
  days_since n d < k <-> age n d < k * MICROSECONDS_PER_DAY.
Proof.
  unfold days_since, MICROSECONDS_PER_DAY. split; intros H.
  - apply Z.nle_gt. intros Hle.
    assert (k <= age n d / 86400000000) by (apply Z.div_le_lower_bound; lia). lia.
  - apply Z.div_lt_upper_bound; lia.
Qed.

Lemma recency_points_rule (days_ago : Z) :
  (days_ago < 7 -> recency_points days_ago = 20)
  /\ (7 <= days_ago < 30 -> recency_points days_ago = 15)
  /\ (30 <= days_ago < 90 -> recency_points days_ago = 10)
  /\ (90 <= days_ago < 180 -> recency_points days_ago = 5)
  /\ (180 <= days_ago -> recency_points days_ago = 0).
Proof.
  unfold recency_points.
  repeat match goal with
         | |- context [?a <? ?b] => destruct (Z.ltb_spec a b)
         end; repeat split; intros; lia.
Qed.

(** What [score_recent_commits] does once the date of the latest commit is
    a non-empty string. *)
Lemma score_recent_commits_dated (n : Net) first rest s :
  commit_date first = Ret (VStr s) -> s <> EmptyString ->
  score_recent_commits (first :: rest) n
  = match fromisoformat (Str.replace "Z" "+00:00" s) with
    | Some d => (Ret (recency_points (days_since n d)), n)
    | None => (Ret 10, n)
    end.
Proof.
  intros Hd Hs. unfold score_recent_commits, recent_commits_try. unfold_monad.
  rewrite Hd. cbn [rbind truthy].
  destruct (String.eqb_spec s "") as [->|_]; [contradiction|]. cbn [negb].
  destruct (fromisoformat _); reflexivity.
Qed.

(** C9: the points for commit recency.  No commit gives 0.  With a latest
    commit whose date is a non-empty string, a date that
    [datetime.fromisoformat] refuses gives 10, as does a date that is
    missing or empty; a date it accepts gives 20
    when the commit is less than 7 days old (so for a commit made now), 15
    under 30 days, 10 under 90 days, 5 under 180 days and 0 from 180 days
    on. *)
Theorem score_recent_commits_rule :
  forall (n : Net),
    score_recent_commits [] n = (Ret 0, n)
    /\ (forall (first : pyval) (rest : list pyval) (v : pyval),
          commit_date first = Ret v -> truthy v = false ->
          score_recent_commits (first :: rest) n = (Ret 10, n))
    /\ forall (first : pyval) (rest : list pyval) (s : string),
         commit_date first = Ret (VStr s) -> s <> EmptyString ->
         let day := MICROSECONDS_PER_DAY in
         let score := score_recent_commits (first :: rest) n in
         (fromisoformat (Str.replace "Z" "+00:00" s) = None -> score = (Ret 10, n))
         /\ forall d : datetime,
              fromisoformat (Str.replace "Z" "+00:00" s) = Some d ->
              (age n d = 0 -> score = (Ret 20, n))
              /\ (age n d < 7 * day -> score = (Ret 20, n))
              /\ (7 * day <= age n d < 30 * day -> score = (Ret 15, n))
              /\ (30 * day <= age n d < 90 * day -> score = (Ret 10, n))
              /\ (90 * day <= age n d < 180 * day -> score = (Ret 5, n))
              /\ (180 * day <= age n d -> score = (Ret 0, n)).
Proof.
  intros n. split; [reflexivity|]. split.
  { intros first rest v Hd Hv. unfold score_recent_commits, recent_commits_try.
    unfold_monad. rewrite Hd. cbn [rbind]. rewrite Hv. reflexivity. }
  intros first rest s Hd Hs day score. subst score.
  rewrite (score_recent_commits_dated _ _ _ _ Hd Hs). split.
  - intros ->. reflexivity.
  - intros d ->.
    destruct (recency_points_rule (days_since n d)) as (H20 & H15 & H10 & H5 & H0).
    pose proof (days_since_lt n d 7) as L7.
    pose proof (days_since_lt n d 30) as L30.
    pose proof (days_since_lt n d 90) as L90.
    pose proof (days_since_lt n d 180) as L180.
    subst day.
    split; [|split; [|split; [|split; [|split]]]]; intros H; do 2 f_equal.
    + apply H20, L7. rewrite H. reflexivity.
    + apply H20, L7, H.
    + apply H15. split; [apply Z.nlt_ge; rewrite L7 | apply L30]; lia.
    + apply H10. split; [apply Z.nlt_ge; rewrite L30 | apply L90]; lia.
    + apply H5. split; [apply Z.nlt_ge; rewrite L90 | apply L180]; lia.
    + apply H0. apply Z.nlt_ge. rewrite L180. lia.
Qed.


Lemma recency_points_range (days_ago : Z) : 0 <= recency_points days_ago <= 20.
Proof.
  unfold recency_points.
  repeat match goal with
         | |- context [?a <? ?b] => destruct (a <? b)
         end; lia.
Qed.

Lemma score_recent_commits_range commits (n n' : Net) s :
  score_recent_commits commits n = (Ret s, n') -> 0 <= s <= 20.
Proof.
  unfold score_recent_commits. destruct commits as [|first rest].
  - intros H. injection H as <- _. lia.
  - unfold_monad. unfold recent_commits_try.
    destruct (commit_date first) as [latest|e]; cbn [rbind rtry].
    + destruct (truthy latest).
      * destruct latest; cbn;
          try (intros H; discriminate H).
        destruct (fromisoformat _); cbn; intros H; injection H as <- _;
          [apply recency_points_range | lia].
      * cbn. intros H. injection H as <- _. lia.
    + destruct (caught _ e); intros H; [injection H as <- _; lia | discriminate].
Qed.

Lemma score_readme_range readme : 0 <= score_readme readme <= 15.
Proof.
  unfold score_readme. destruct readme as [text|]; [|lia].
  destruct (String.eqb text ""); [lia|]. cbv zeta.
  repeat match goal with
         | |- context [if ?b then _ else _] => destruct b
         end; lia.
Qed.

Lemma score_issue_response_range issues s :
  score_issue_response issues = Ret s -> 0 <= s <= 15.
Proof.
  unfold score_issue_response. destruct issues as [|i rest].
  - intros H. injection H as <-. lia.
  - destruct (count_if _ _) as [k|e]; cbn [rbind]; [|discriminate].
    cbv zeta.
    repeat match goal with
           | |- context [if ?b then _ else _] => destruct b
           end; intros H; injection H as <-; lia.
Qed.

Lemma score_pr_merge_rate_range prs s :
  score_pr_merge_rate prs = Ret s -> 0 <= s <= 15.
Proof.
  unfold score_pr_merge_rate. destruct prs as [|pr rest].
  - intros H. injection H as <-. lia.
  - destruct (count_if _ _) as [merged|e]; cbn [rbind]; [|discriminate].
    destruct (count_if _ _) as [closed|e]; cbn [rbind]; [|discriminate].
    cbv zeta.
    repeat match goal with
           | |- context [if ?b then _ else _] => destruct b
           end; intros H; injection H as <-; lia.
Qed.

Lemma score_repo_health_shape info hs :
  score_repo_health info = Ret hs ->
  exists a b c d,
    hs = [("has_license", a); ("not_archived", b); ("low_open_issues", c);
          ("stars_velocity", d)]
    /\ 0 <= a <= 5 /\ 0 <= b <= 10 /\ 0 <= c <= 10 /\ 2 <= d <= 10.
Proof.
  unfold score_repo_health. cbv zeta.
  destruct (py_get info "license" VNone) as [license|e]; cbn [rbind]; [|discriminate].
  destruct (truthy license).
  - destruct (py_get license "spdx_id" (VStr "Yes")); cbn [rbind]; [|discriminate].
    repeat match goal with
           | |- context [rbind ?r _] => destruct r; cbn [rbind]; [|discriminate]
           end.
    repeat match goal with
           | |- context [if ?b then _ else _] => destruct b
           end; intros H; injection H as <-; do 4 eexists;
      (split; [reflexivity | lia]).
  - cbn [rbind].
    repeat match goal with
           | |- context [rbind ?r _] => destruct r; cbn [rbind]; [|discriminate]
           end.
    repeat match goal with
           | |- context [if ?b then _ else _] => destruct b
           end; intros H; injection H as <-; do 4 eexists;
      (split; [reflexivity | lia]).
Qed.

End ScoreProps.

(** ** The analysis of one repository *)

Section AnalyzeProps.
Import Analyzer.
Context {P : Platform}.

Ltac run_bind H :=
  match type of H with
  | bind ?m ?k ?s = _ =>
      let r := fresh "r" in
      let s' := fresh "n" in
      let E := fresh "E" in
      destruct (m s) as [[r|?] s'] eqn:E;
      [ rewrite (bind_run _ _ _ _ _ E) in H
      | rewrite (bind_raise _ _ _ _ _ E) in H; discriminate H ]
  end.

Lemma lift_run {S A} (x : result A) (s s' : S) (a : A) :
  lift x s = (Ret a, s') -> x = Ret a.
Proof. unfold lift. intros H. injection H as -> _. reflexivity. Qed.

(** The report of a repository that was scored: four points computed from
    the commits, the README, the issues and the pull requests, and the
    points [score_repo_health] gives for the repository itself. *)
Lemma analyze_repo_scored (n n' : Net) owner_repo r :
  analyze_repo owner_repo n = (Ret (Scored r), n') ->
  exists s1 s2 s3 s4 hs info,
    0 <= s1 <= 20 /\ 0 <= s2 <= 15 /\ 0 <= s3 <= 15 /\ 0 <= s4 <= 15
    /\ score_repo_health info = Ret hs
    /\ scores r = merge_scores [("recent_commits", s1); ("readme_quality", s2);
                               ("issue_response", s3); ("pr_merge_rate", s4)] hs
    /\ total r = py_sum (dict_values (scores r))
    /\ grade r = grade_of (total r).
Proof.
  unfold analyze_repo.
  destruct (Str.split "/" owner_repo) as [|owner [|repo [|x xs]]]; try discriminate.
  intros H.
  run_bind H. run_bind H. destruct r1.
  { run_bind H. discriminate H. }
  do 12 run_bind H.
  unfold ret in H. injection H as <- _. cbn [scores total grade].
  exists r5, (score_readme r4), r6, r7, r8, r0.
  apply score_recent_commits_range in E5.
  apply lift_run in E6, E7, E8.
  apply score_issue_response_range in E6.
  apply score_pr_merge_rate_range in E7.
  pose proof (score_readme_range r4).
  repeat split; try lia; try assumption.
Qed.

Lemma grade_of_steps (total : Z) :
  (85 <= total -> grade_of total = "A")
  /\ (70 <= total < 85 -> grade_of total = "B")
  /\ (55 <= total < 70 -> grade_of total = "C")
  /\ (40 <= total < 55 -> grade_of total = "D")
  /\ (total < 40 -> grade_of total = "F").
Proof.
  unfold grade_of.
  repeat match goal with
         | |- context [?a <=? ?b] => destruct (Z.leb_spec a b)
         end; repeat split; intros; solve [reflexivity | lia].
Qed.

(** C4: the report of a scored repository holds the eight sub-scores under
    their names, its total is their sum and lies between 0 and 100, and its
    grade is the step function of the total with the steps at 40, 55, 70
    and 85. *)
Theorem analyze_repo_total_and_grade :
  forall (n n' : Net) (owner_repo : string) (r : report),
    analyze_repo owner_repo n = (Ret (Scored r), n') ->
    (exists s1 s2 s3 s4 s5 s6 s7 s8,
        scores r = [("recent_commits", s1); ("readme_quality", s2);
                    ("issue_response", s3); ("pr_merge_rate", s4);
                    ("has_license", s5); ("not_archived", s6);
                    ("low_open_issues", s7); ("stars_velocity", s8)]
        /\ total r = s1 + s2 + s3 + s4 + s5 + s6 + s7 + s8)
    /\ total r = py_sum (dict_values (scores r))
    /\ 0 <= total r <= 100
    /\ grade r = grade_of (total r)
    /\ (85 <= total r -> grade r = "A")
    /\ (70 <= total r < 85 -> grade r = "B")
    /\ (55 <= total r < 70 -> grade r = "C")
    /\ (40 <= total r < 55 -> grade r = "D")
    /\ (total r < 40 -> grade r = "F").
Proof.
  intros n n' owner_repo r H.
  destruct (analyze_repo_scored _ _ _ _ H)
    as (s1 & s2 & s3 & s4 & hs & info & R1 & R2 & R3 & R4 & Hh & Hs & Ht & Hg).
  destruct (score_repo_health_shape _ _ Hh) as (a & b & c & d & -> & Ra & Rb & Rc & Rd).
  cbn in Hs.
  assert (Hsum : total r = s1 + s2 + s3 + s4 + a + b + c + d).
  { rewrite Ht, Hs. cbn. lia. }
  split; [exists s1, s2, s3, s4, a, b, c, d; split; assumption|].
  split; [exact Ht|]. split; [lia|]. split; [exact Hg|].
  rewrite Hg. apply grade_of_steps.
Qed.

End AnalyzeProps.

Section ScoreWitnesses.
Import Analyzer.

(** The theorem for C9 on the simulated platform, for commits made 0, 10,
    45, 120 and 400 days ago and for a date that is no date. *)
Lemma score_recent_commits_rule_witness :
  let score := fun date =>
    fst (@score_recent_commits SimNet.platform [SimNet.commit date] (SimNet.start 60)) in
  score "day-0" = Ret 20 /\ score "day-3" = Ret 20 /\ score "day-10" = Ret 15
  /\ score "day-45" = Ret 10 /\ score "day-120" = Ret 5 /\ score "day-400" = Ret 0
  /\ score "someday" = Ret 10.
Proof.
  intros score. subst score. cbv beta.
  destruct (@score_recent_commits_rule SimNet.platform (SimNet.start 60)) as (_ & _ & H).
  assert (Hne : forall a s, String a s <> EmptyString) by discriminate.
  split; [|split; [|split; [|split; [|split; [|split]]]]].
  - destruct (H (SimNet.commit "day-0") [] "day-0" eq_refl (Hne _ _)) as [_ Hd].
    destruct (Hd 0 eq_refl) as (H0 & _). rewrite H0; reflexivity.
  - destruct (H (SimNet.commit "day-3") [] "day-3" eq_refl (Hne _ _)) as [_ Hd].
    destruct (Hd (- 3 * 86400000000) eq_refl) as (_ & H7 & _). rewrite H7; reflexivity.
  - destruct (H (SimNet.commit "day-10") [] "day-10" eq_refl (Hne _ _)) as [_ Hd].
    destruct (Hd (- 10 * 86400000000) eq_refl) as (_ & _ & H30 & _).
    rewrite H30; [reflexivity | vm_compute; split; [discriminate | reflexivity]].
  - destruct (H (SimNet.commit "day-45") [] "day-45" eq_refl (Hne _ _)) as [_ Hd].
    destruct (Hd (- 45 * 86400000000) eq_refl) as (_ & _ & _ & H90 & _).
    rewrite H90; [reflexivity | vm_compute; split; [discriminate | reflexivity]].
  - destruct (H (SimNet.commit "day-120") [] "day-120" eq_refl (Hne _ _)) as [_ Hd].
    destruct (Hd (- 120 * 86400000000) eq_refl) as (_ & _ & _ & _ & H180 & _).
    rewrite H180; [reflexivity | vm_compute; split; [discriminate | reflexivity]].
  - destruct (H (SimNet.commit "day-400") [] "day-400" eq_refl (Hne _ _)) as [_ Hd].
    destruct (Hd (- 400 * 86400000000) eq_refl) as (_ & _ & _ & _ & _ & Hold).
    rewrite Hold; [reflexivity | vm_compute; discriminate].
  - destruct (H (SimNet.commit "someday") [] "someday" eq_refl (Hne _ _)) as [Hnone _].
    rewrite Hnone; reflexivity.
Defined.

(** The theorem for C4 on a repository of the simulated platform. *)
Lemma analyze_repo_total_and_grade_witness :
  exists r n',
    @analyze_repo SimNet.platform "owner/one" (SimNet.start 60) = (Ret (Scored r), n')
    /\ total r = 83 /\ grade r = "B".
Proof.
  assert (E : exists r n',
             @analyze_repo SimNet.platform "owner/one" (SimNet.start 60)
             = (Ret (Scored r), n') /\ total r = 83).
  { eexists. eexists. split; vm_compute; reflexivity. }
  destruct E as (r & n' & E & Ht). exists r, n'.
  split; [exact E|]. split; [exact Ht|].
  destruct (@analyze_repo_total_and_grade SimNet.platform _ _ _ _ E)
    as (_ & _ & _ & _ & _ & HB & _).
  apply HB. rewrite Ht. lia.
Defined.
End ScoreWitnesses.

(** ** The batch analyzer *)

Section BatchProps.
Import Analyzer AnalyzerSpec BatchSpec.
Context {P : Platform}.

Lemma insert_desc_perm x l : Permutation (insert_desc x l) (x :: l).
Proof.
  induction l as [|y l IH]; simpl; [reflexivity|].
  destruct (total_of x <? total_of y); [|reflexivity].
  rewrite IH. apply perm_swap.
Qed.

Lemma sort_desc_perm l : Permutation (sort_desc l) l.
Proof.
  induction l as [|x l IH]; simpl; [reflexivity|].
  rewrite insert_desc_perm, IH. reflexivity.
Qed.

Lemma analyze_each_cons repo_info rest acc (n : Net) :
  analyze_each (repo_info :: rest) acc n
  = bind (analyze_entry repo_info) (fun rs => analyze_each rest (acc ++ rs)) n.
Proof.
  cbn [analyze_each]. unfold analyze_entry.
  rewrite !bind_assoc. apply bind_ext. intros title n1.
  rewrite !bind_assoc. apply bind_ext. intros skip n2.
  destruct skip; cbv iota.
  - rewrite bind_ret_l, app_nil_r. reflexivity.
  - rewrite !bind_assoc. apply bind_ext. intros result n3.
    rewrite !bind_assoc. apply bind_ext. intros [] n4.
    rewrite bind_ret_l. reflexivity.
Qed.

Lemma analyze_each_app pre post :
  forall acc (n : Net),
    analyze_each (pre ++ post) acc n
    = bind (analyze_each pre acc) (fun rs => analyze_each post rs) n.
Proof.
  induction pre as [|e pre IH]; intros acc n; [reflexivity|].
  rewrite <- app_comm_cons, analyze_each_cons.
  rewrite (bind_ext_l (analyze_each (e :: pre) acc)
             (bind (analyze_entry e) (fun rs => analyze_each pre (acc ++ rs))))
    by (intros; apply analyze_each_cons).
  rewrite bind_assoc. apply bind_ext. intros rs n1. apply IH.
Qed.

(** The results already gathered stay in front, in their order. *)
Lemma analyze_each_keeps repos :
  forall acc (n n' : Net) results,
    analyze_each repos acc n = (Ret results, n') ->
    exists more, results = acc ++ more /\ (length more <= length repos)%nat.
Proof.
  induction repos as [|e repos IH]; intros acc n n' results H.
  - injection H as <- _. exists []. rewrite app_nil_r. split; [reflexivity | simpl; lia].
  - rewrite analyze_each_cons in H. unfold bind at 1 in H.
    destruct (analyze_entry e n) as [[rs|x] n1] eqn:E; [|discriminate].
    assert (Hrs : (length rs <= 1)%nat).
    { unfold analyze_entry in E. unfold_monad.
      destruct (py_get e "title" (VStr "")) as [title|]; [|discriminate].
      destruct (no_repo_path title) as [[]|]; [| |discriminate].
      - injection E as <- _. simpl. lia.
      - destruct (match title with VStr t => analyze_repo t | _ => _ end n)
          as [[result|] n2]; [|discriminate].
        injection E as <- _. simpl. lia. }
    destruct (IH _ _ _ _ H) as (more & -> & Hlen).
    exists (rs ++ more). rewrite app_assoc. split; [reflexivity|].
    rewrite length_app. simpl. lia.
Qed.


Lemma py_lt_int (r k : Z) : py_lt (VInt r) k = Ret (r <? k).
Proof.
  unfold py_lt, py_num, Qltb, Qle_bool. cbn. rewrite !Z.mul_1_r, Z.ltb_antisym.
  reflexivity.
Qed.

Lemma no_repo_path_str (t : string) :
  no_repo_path (VStr t) = Ret (negb (Str.contains "/" t)).
Proof.
  unfold no_repo_path. cbn [truthy]. destruct t; reflexivity.
Qed.

Lemma analyze_repo_about (t : string) (n n' : Net) (x : analysis) :
  analyze_repo t n = (Ret x, n') -> about t x.
Proof.
  unfold analyze_repo.
  destruct (Str.split "/" t) as [|owner [|repo [|y ys]]];
    try (intros H; injection H as <- _; reflexivity).
  unfold_monad.
  destruct (get_repo_info owner repo n) as [[info|] n1]; [|discriminate].
  destruct (py_in "_error" info) as [[]|]; [| |discriminate].
  - destruct (py_getitem info "_error"); [|discriminate].
    intros H. injection H as <- _. reflexivity.
  - repeat match goal with
           | |- context [match ?m ?s with pair _ _ => _ end] =>
               destruct (m s) as [[?|?] ?]; [|discriminate]
           | |- context [match ?r with Ret _ => _ | Raise _ => _ end] =>
               destruct r; [|discriminate]
           end.
    intros H. injection H as <- _. reflexivity.
Qed.

Lemma analyze_entry_about e (n n' : Net) rs :
  analyze_entry e n = (Ret rs, n') -> Forall2 about (slash_titles [e]) rs.
Proof.
  unfold analyze_entry, slash_titles. cbn [flat_map]. rewrite app_nil_r. unfold_monad.
  destruct (py_get e "title" (VStr "")) as [title|]; [|discriminate].
  destruct title as [| | | |t| |];
    try solve [destruct (no_repo_path _) as [[]|]; intros H; try discriminate H;
               injection H as <- _; constructor].
  rewrite no_repo_path_str. destruct (Str.contains "/" t); cbn [negb].
  - destruct (analyze_repo t n) as [[result|] n2] eqn:E; [|discriminate].
    intros H. injection H as <- _. constructor; [|constructor].
    apply (analyze_repo_about _ _ _ _ E).
  - intros H. injection H as <- _. constructor.
Qed.

Lemma slash_titles_cons e todo :
  slash_titles (e :: todo) = slash_titles [e] ++ slash_titles todo.
Proof. unfold slash_titles. cbn [flat_map]. rewrite app_nil_r. reflexivity. Qed.

Lemma analyze_each_about todo :
  forall acc (n n' : Net) results,
    analyze_each todo acc n = (Ret results, n') ->
    exists more, results = acc ++ more /\ Forall2 about (slash_titles todo) more.
Proof.
  induction todo as [|e todo IH]; intros acc n n' results H.
  - injection H as <- _. exists []. rewrite app_nil_r. split; [reflexivity|constructor].
  - rewrite analyze_each_cons in H. unfold bind at 1 in H.
    destruct (analyze_entry e n) as [[rs|x] n1] eqn:E; [|discriminate].
    destruct (IH _ _ _ _ H) as (more & -> & Hmore).
    exists (rs ++ more). rewrite app_assoc. split; [reflexivity|].
    rewrite slash_titles_cons. apply Forall2_app; [|exact Hmore].
    apply (analyze_entry_about _ _ _ _ E).
Qed.

Lemma slash_titles_le todo : (length (slash_titles todo) <= length todo)%nat.
Proof.
  induction todo as [|e todo IH]; [reflexivity|].
  rewrite slash_titles_cons, length_app. cbn [length].
  assert (length (slash_titles [e]) <= 1)%nat; [|lia].
  unfold slash_titles. cbn [flat_map]. rewrite app_nil_r.
  destruct (py_get e "title" (VStr "")) as [[| | | |t| |]|]; try (cbn; lia).
  destruct (Str.contains "/" t); cbn; lia.
Qed.

Lemma slash_titles_firstn todo :
  length (slash_titles todo) = length todo ->
  forall k, length (slash_titles (firstn k todo)) = length (firstn k todo).
Proof.
  induction todo as [|e todo IH]; intros Hall k.
  - rewrite firstn_nil. reflexivity.
  - destruct k as [|k]; [reflexivity|]. cbn [firstn].
    rewrite slash_titles_cons, length_app in Hall |- *. cbn [length] in Hall |- *.
    pose proof (slash_titles_le [e]) as H1. pose proof (slash_titles_le todo) as H2.
    cbn [length] in H1. rewrite IH by lia. lia.
Qed.

(** C8: when the quota reported is below five calls per candidate and no
    credential is set, [analyze_repos] goes through the first
    [max(1, remaining // 5)] candidates and no other: the entries it scores
    are that prefix of its input, whose length is [max(1, remaining // 5)]
    whenever the quota is not negative or the input not empty.  The list
    returned holds, up to the order, one result for each entry of the prefix
    whose title is a string with a [/], about that very entry, and nothing
    else; so when every candidate has such a title there are as many results
    as entries in the prefix.  With 12 calls left and 5 candidates the
    prefix has 2 entries, and exactly 2 results are returned. *)
Theorem analyze_repos_truncates_to_quota :
  forall (n n1 : Net) (repos : list pyval) (rate : rate_info) (r : Z),
    get_rate_limit n = (Ret rate, n1) ->
    remaining rate = VInt r ->
    r < Z.of_nat (length repos) * 5 ->
    GITHUB_TOKEN = EmptyString ->
    let k := Z.max 1 (r / 5) in
    let todo := firstn (Z.to_nat k) repos in
    batch (remaining rate) repos = Ret todo
    /\ analyze_repos repos n
       = bind (analyze_each todo []) (fun results => ret (sort_desc results)) n1
    /\ (exists rest, repos = todo ++ rest)
    /\ (0 <= r \/ repos <> [] -> Z.of_nat (length todo) = k)
    /\ (r = 12 -> length repos = 5%nat -> length todo = 2%nat)
    /\ (forall results n',
          analyze_repos repos n = (Ret results, n') ->
          (length results <= length todo)%nat
          /\ (exists gathered,
                 Forall2 about (slash_titles todo) gathered
                 /\ Permutation results gathered)
          /\ length results = length (slash_titles todo)
          /\ (length (slash_titles repos) = length repos ->
              length results = length todo)
          /\ (r = 12 -> length repos = 5%nat ->
              length (slash_titles repos) = 5%nat -> length results = 2%nat)).
Proof.
  intros n n1 repos rate r Hrate Hrem Hshort Htoken k todo.
  assert (Hbatch : batch (remaining rate) repos = Ret todo).
  { unfold batch. rewrite Hrem, py_lt_int. cbn [rbind].
    destruct (Z.ltb_spec r (Z.of_nat (length repos) * 5)); [|lia].
    rewrite Htoken. reflexivity. }
  assert (Hrun : analyze_repos repos n
                 = bind (analyze_each todo []) (fun results => ret (sort_desc results)) n1).
  { unfold analyze_repos. rewrite (bind_run _ _ _ _ _ Hrate).
    unfold lift at 1. unfold bind at 1. rewrite Hbatch. reflexivity. }
  assert (Hlen : 0 <= r \/ repos <> [] -> Z.of_nat (length todo) = k).
  { intros Hne. subst todo. rewrite length_firstn.
    assert (0 < Z.of_nat (length repos)).
    { destruct Hne as [Hr|Hne]; [lia|].
      destruct repos; [contradiction | simpl; lia]. }
    assert (r / 5 < Z.of_nat (length repos)) by (apply Z.div_lt_upper_bound; lia).
    lia. }
  assert (H2 : r = 12 -> length repos = 5%nat -> length todo = 2%nat).
  { intros -> H5. subst todo k. rewrite length_firstn, H5. reflexivity. }
  split; [exact Hbatch|]. split; [exact Hrun|]. split; [|split; [exact Hlen|split]].
  - exists (skipn (Z.to_nat k) repos). subst todo. symmetry. apply firstn_skipn.
  - exact H2.
  - intros results n' H. rewrite Hrun in H. unfold bind in H.
    destruct (analyze_each todo [] n1) as [[rs|x] n2] eqn:E; [|discriminate].
    unfold ret in H. injection H as <- _.
    destruct (analyze_each_about _ _ _ _ _ E) as (more & -> & Hmore).
    cbn [app].
    assert (Hcount : length (sort_desc more) = length (slash_titles todo)).
    { rewrite (Permutation_length (sort_desc_perm more)).
      symmetry. apply (Forall2_length _ _ _ Hmore). }
    assert (Hfull : length (slash_titles repos) = length repos ->
                    length (sort_desc more) = length todo).
    { intros Hall. rewrite Hcount. subst todo. apply slash_titles_firstn, Hall. }
    split; [|split; [|split; [exact Hcount|split; [exact Hfull|]]]].
    + rewrite Hcount. apply slash_titles_le.
    + exists more. split; [exact Hmore | apply sort_desc_perm].
    + intros H12 H5 Hall. rewrite Hfull by congruence. apply H2; assumption.
Qed.

Lemma analyze_repo_invalid (t : string) (n : Net) :
  length (Str.split "/" t) <> 2%nat ->
  analyze_repo t n = (Ret (invalid_format t), n).
Proof.
  intros H. unfold analyze_repo.
  destruct (Str.split "/" t) as [|a [|b [|c l]]]; try reflexivity.
  exfalso. apply H. reflexivity.
Qed.

(** What the loop does with an entry whose title is no owner/name pair. *)
Lemma analyze_entry_malformed e t (n : Net) :
  py_get e "title" (VStr "") = Ret (VStr t) ->
  length (Str.split "/" t) <> 2%nat ->
  analyze_entry e n
  = if Str.contains "/" t then (Ret [invalid_format t], time_sleep (2 # 10) n)
    else (Ret [], n).
Proof.
  intros Ht Hparts. unfold analyze_entry.
  unfold lift at 1. unfold bind at 1. rewrite Ht.
  unfold lift at 1. unfold bind at 1. rewrite no_repo_path_str.
  destruct (Str.contains "/" t); cbn [negb]; [|reflexivity].
  rewrite (bind_run _ _ _ _ _ (analyze_repo_invalid t n Hparts)). reflexivity.
Qed.

(** C3, as the code has it: in the batch that [analyze_repos] goes through,
    an entry whose title is not one owner/name pair never stops the batch.
    When the title holds a [/] (two or more of them), the error result
    [Invalid repo format] is appended in its place and is in the list
    returned; when it holds none (or is empty), the entry is passed over and
    adds nothing.  The entries before and after it are gone through all the
    same. *)
Theorem analyze_repos_malformed_entry :
  forall (n n1 : Net) (repos todo pre post : list pyval) (rate : rate_info)
         (e : pyval) (t : string),
    get_rate_limit n = (Ret rate, n1) ->
    batch (remaining rate) repos = Ret todo ->
    todo = pre ++ e :: post ->
    py_get e "title" (VStr "") = Ret (VStr t) ->
    length (Str.split "/" t) <> 2%nat ->
    analyze_repos repos n
    = bind (analyze_each pre [])
        (fun before =>
           bind (if Str.contains "/" t
                 then bind (modify (time_sleep (2 # 10)))
                        (fun _ => analyze_each post (before ++ [invalid_format t]))
                 else analyze_each post before)
             (fun results => ret (sort_desc results))) n1
    /\ (forall results n',
          analyze_repos repos n = (Ret results, n') ->
          (Str.contains "/" t = true -> In (invalid_format t) results)
          /\ (Str.contains "/" t = false ->
              (length results <= length pre + length post)%nat)).
Proof.
  intros n n1 repos todo pre post rate e t Hrate Hbatch Htodo Ht Hparts.
  assert (Hrun : analyze_repos repos n
    = bind (analyze_each pre [])
        (fun before =>
           bind (if Str.contains "/" t
                 then bind (modify (time_sleep (2 # 10)))
                        (fun _ => analyze_each post (before ++ [invalid_format t]))
                 else analyze_each post before)
             (fun results => ret (sort_desc results))) n1).
  { unfold analyze_repos. rewrite (bind_run _ _ _ _ _ Hrate).
    unfold lift at 1. unfold bind at 1. rewrite Hbatch, Htodo.
    rewrite (bind_ext_l _ _ _ _ (analyze_each_app pre (e :: post) [])).
    rewrite bind_assoc. apply bind_ext. intros before n2.
    apply bind_ext_l. intros n3. rewrite analyze_each_cons.
    unfold bind at 1. rewrite (analyze_entry_malformed _ _ _ Ht Hparts).
    destruct (Str.contains "/" t).
    - reflexivity.
    - rewrite app_nil_r. reflexivity. }
  split; [exact Hrun|].
  intros results n' H. rewrite Hrun in H. unfold bind at 1 in H.
  destruct (analyze_each pre [] n1) as [[before|x] n2] eqn:Epre; [|discriminate].
  destruct (analyze_each_keeps _ _ _ _ _ Epre) as (got & -> & Hgot).
  cbn [app] in H. unfold bind at 1 in H.
  split; intros Hc; rewrite Hc in H.
  - unfold bind at 1, modify in H.
    destruct (analyze_each post (got ++ [invalid_format t]) _) as [[rs|x] n3] eqn:Epost;
      [|discriminate].
    unfold ret in H. injection H as <- _.
    destruct (analyze_each_keeps _ _ _ _ _ Epost) as (more & -> & _).
    apply (Permutation_in _ (Permutation_sym (sort_desc_perm _))).
    apply in_or_app. left. apply in_or_app. right. left. reflexivity.
  - destruct (analyze_each post got n2) as [[rs|x] n3] eqn:Epost; [|discriminate].
    unfold ret in H. injection H as <- _.
    destruct (analyze_each_keeps _ _ _ _ _ Epost) as (more & -> & Hmore).
    rewrite (Permutation_length (sort_desc_perm _)), length_app. lia.
Qed.

End BatchProps.

Section BatchWitnesses.
Import Analyzer AnalyzerSpec BatchSpec.

(** The theorem for C8 with 12 calls left and five candidates: the two
    results are about the first two candidates. *)
Lemma analyze_repos_truncates_to_quota_witness :
  @batch SimNet.platform (VInt 12) SimNet.five
  = Ret [SimNet.titled "owner/one"; SimNet.titled "owner/two"]
  /\ exists results n',
       @analyze_repos SimNet.platform SimNet.five (SimNet.start 12) = (Ret results, n')
       /\ length results = 2%nat
       /\ exists gathered,
            Forall2 about ["owner/one"; "owner/two"] gathered
            /\ Permutation results gathered.
Proof.
  assert (E : exists rate n1,
             @get_rate_limit SimNet.platform (SimNet.start 12) = (Ret rate, n1)
             /\ remaining rate = VInt 12).
  { eexists. eexists. split; vm_compute; reflexivity. }
  destruct E as (rate & n1 & E & Hrem).
  destruct (@analyze_repos_truncates_to_quota SimNet.platform _ _ SimNet.five _ 12
              E Hrem eq_refl eq_refl) as (Hb & _ & _ & _ & _ & Hres).
  split.
  - rewrite <- Hrem. exact Hb.
  - destruct (@analyze_repos SimNet.platform SimNet.five (SimNet.start 12))
      as [[results|x] n'] eqn:Erun; [|vm_compute in Erun; discriminate Erun].
    exists results, n'. split; [reflexivity|].
    destruct (Hres _ _ eq_refl) as (_ & Hgathered & _ & _ & H2).
    split; [exact (H2 eq_refl eq_refl eq_refl) | exact Hgathered].
Defined.

(** The theorem for C3 on a batch of two: a title with two [/], then a
    repository that exists. *)
Lemma analyze_repos_malformed_entry_witness :
  exists results n',
    @analyze_repos SimNet.platform [SimNet.titled "a/b/c"; SimNet.titled "owner/one"]
      (SimNet.start 5000) = (Ret results, n')
    /\ In (invalid_format "a/b/c") results.
Proof.
  assert (E : exists rate n1,
             @get_rate_limit SimNet.platform (SimNet.start 5000) = (Ret rate, n1)
             /\ remaining rate = VInt 5000).
  { eexists. eexists. split; vm_compute; reflexivity. }
  destruct E as (rate & n1 & E & Hrem).
  destruct (@analyze_repos_malformed_entry SimNet.platform _ _
              [SimNet.titled "a/b/c"; SimNet.titled "owner/one"]
              [SimNet.titled "a/b/c"; SimNet.titled "owner/one"]
              [] [SimNet.titled "owner/one"] rate (SimNet.titled "a/b/c") "a/b/c" E)
    as [_ H].
  - rewrite Hrem. reflexivity.
  - reflexivity.
  - reflexivity.
  - discriminate.
  - destruct (@analyze_repos SimNet.platform _ (SimNet.start 5000))
      as [[results|x] n'] eqn:Erun; [|vm_compute in Erun; discriminate Erun].
    exists results, n'. split; [reflexivity|].
    apply (H _ _ eq_refl). reflexivity.
Defined.

(** C3 as stated fails: an entry whose title has no [/] is not one
    owner/name pair, and the list returned holds no error result for it. *)
Lemma entry_without_slash_unreported :
  length (Str.split "/" "noslash") <> 2%nat
  /\ exists results,
       fst (@analyze_repos SimNet.platform
              [SimNet.titled "noslash"; SimNet.titled "owner/one"] (SimNet.start 5000))
       = Ret results
       /\ length results = 1%nat
       /\ forall err repo, ~ In (Failed err repo) results.
Proof.
  split; [discriminate|].
  eexists. split; [vm_compute; reflexivity|]. split; [reflexivity|].
  intros err repo [H|[]]. discriminate H.
Qed.
End BatchWitnesses.

(** ** The test suite of the repository on the embedding *)

Section TestSuite.
Import Trending Analyzer Tests.

Example test_no_filters :
  filtered_titles 0 None None
  = Ret ["owner/repo-a"; "org/repo-b"; "user/repo-c"; "dev/repo-d"].
Proof. reflexivity. Qed.

Example test_min_stars :
  filtered_titles 1000 None None = Ret ["owner/repo-a"; "user/repo-c"].
Proof. reflexivity. Qed.

Example test_max_stars :
  filtered_titles 0 (Some 1000) None = Ret ["org/repo-b"; "dev/repo-d"].
Proof. reflexivity. Qed.

Example test_min_and_max_stars :
  filtered_titles 500 (Some 15000) None = Ret ["owner/repo-a"; "org/repo-b"].
Proof. reflexivity. Qed.

Example test_search_in_title :
  filtered_titles 0 None (Some "repo-a") = Ret ["owner/repo-a"].
Proof. reflexivity. Qed.

Example test_search_in_description :
  filtered_titles 0 None (Some "Rust") = Ret ["org/repo-b"].
Proof. reflexivity. Qed.

Example test_search_case_insensitive :
  filtered_titles 0 None (Some "PYTHON") = Ret ["owner/repo-a"].
Proof. reflexivity. Qed.

Example test_search_no_match :
  filtered_titles 0 None (Some "nonexistent-xyz") = Ret [].
Proof. reflexivity. Qed.

Example test_empty_input :
  fst (filter_repos [] 0 None None Sample.sample_heap) = Ret [].
Proof. reflexivity. Qed.

Example test_adds_stars_int :
  let h' := snd (filter_repos [0; 1; 2; 3]%nat 0 None None Sample.sample_heap) in
  py_get (h' 0%nat) "_stars_int" VNone = Ret (VInt 12345)
  /\ py_get (h' 2%nat) "_stars_int" VNone = Ret (VInt 45000).
Proof. split; reflexivity. Qed.

Example test_combined_filters :
  filtered_titles 500 None (Some "framework") = Ret ["owner/repo-a"].
Proof. reflexivity. Qed.

Example test_write_and_read_cache :
  let w1 := snd (@write_cache Sim.trending "trending" "test-key"
                   (of_json CacheSample.payload) CacheSample.fresh) in
  fst (@read_cache Sim.trending "trending" "test-key" w1) = Ret CacheSample.payload.
Proof. vm_compute. reflexivity. Qed.

Example test_read_nonexistent_cache :
  fst (@read_cache Sim.trending "trending" "nonexistent-key" CacheSample.fresh) = Ret VNone.
Proof. reflexivity. Qed.

Example test_no_readme : score_readme None = 0 /\ score_readme (Some "") = 0.
Proof. split; reflexivity. Qed.

Example test_detailed_readme_with_install_and_usage :
  score_readme (Some (copies 3000 "x" "
## Installation
pip install foo
## Usage
example code")) = 13.
Proof. vm_compute. reflexivity. Qed.

Example test_badges_add_score :
  score_readme (Some (copies 600 "x" "
![badge](url)
## Install
pip install x")) = 9
  /\ score_readme (Some (copies 600 "x" "
## Install
pip install x")) = 7.
Proof. split; vm_compute; reflexivity. Qed.

Example test_max_score_capped :
  score_readme (Some (copies 5000 "x" "
![badge](x)
## Install
pip install x
## Usage
example")) = 15.
Proof. vm_compute. reflexivity. Qed.

Example test_no_issues : score_issue_response [] = Ret 15.
Proof. reflexivity. Qed.

Example test_all_responded : score_issue_response [issue 2; issue 1; issue 5] = Ret 15.
Proof. reflexivity. Qed.

Example test_none_responded : score_issue_response [issue 0; issue 0] = Ret 0.
Proof. reflexivity. Qed.

Example test_partial_response : score_issue_response [issue 1; issue 0] = Ret 5.
Proof. reflexivity. Qed.

Example test_no_prs : score_pr_merge_rate [] = Ret 10.
Proof. reflexivity. Qed.

Example test_high_merge_rate :
  score_pr_merge_rate [pull (VStr "2025-01-01") "closed"; pull (VStr "2025-01-02") "closed";
                       pull VNone "closed"] = Ret 10.
Proof. reflexivity. Qed.

Example test_all_open : score_pr_merge_rate [pull VNone "open"] = Ret 10.
Proof. reflexivity. Qed.

Example test_zero_merged :
  score_pr_merge_rate [pull VNone "closed"; pull VNone "closed"] = Ret 0.
Proof. reflexivity. Qed.

Example test_no_commits :
  fst (@score_recent_commits SimNet.platform [] (SimNet.start 60)) = Ret 0.
Proof. reflexivity. Qed.

Example test_malformed_commit :
  fst (@score_recent_commits SimNet.platform [VDict [("commit", VDict [])]] (SimNet.start 60))
  = Ret 10.
Proof. reflexivity. Qed.

Example test_with_license :
  score_repo_health (VDict [("license", VDict [("spdx_id", VStr "MIT")]);
                            ("archived", VBool false); ("open_issues_count", VInt 5)])
  = Ret [("has_license", 5); ("not_archived", 10); ("low_open_issues", 10);
         ("stars_velocity", 2)].
Proof. reflexivity. Qed.

Example test_archived_no_license :
  score_repo_health (VDict [("license", VNone); ("archived", VBool true);
                            ("open_issues_count", VInt 0)])
  = Ret [("has_license", 0); ("not_archived", 0); ("low_open_issues", 10);
         ("stars_velocity", 2)].
Proof. reflexivity. Qed.

Example test_many_open_issues :
  score_repo_health (VDict [("license", VNone); ("archived", VBool false);
                            ("open_issues_count", VInt 600)])
  = Ret [("has_license", 0); ("not_archived", 10); ("low_open_issues", 0);
         ("stars_velocity", 2)].
Proof. reflexivity. Qed.

End TestSuite.

Section Scenarios.
Import Analyzer.

(** The batch scenario of the specification: 12 calls left, five
    candidates.  Two reports come back, and the requests made after the
    quota check are the five of [owner/one] and the five of [owner/two]. *)
Example batch_scenario_twelve_calls_five_candidates :
  let out := @analyze_repos SimNet.platform SimNet.five (SimNet.start 12) in
  (exists r1 r2, fst out = Ret [Scored r1; Scored r2]
                 /\ repo r1 = "owner/one" /\ repo r2 = "owner/two")
  /\ length (SimNet.requests (snd out)) = 11%nat
  /\ forallb (fun url => Str.contains "/rate_limit" url
                         || Str.contains "/repos/owner/one" url
                         || Str.contains "/repos/owner/two" url)
       (SimNet.requests (snd out)) = true.
Proof.
  split; [|split].
  - eexists. eexists. split; [vm_compute; reflexivity|]. split; reflexivity.
  - vm_compute. reflexivity.
  - vm_compute. reflexivity.
Qed.

End Scenarios.

(** ** More on the cache store *)

Section CacheFrame.
Import Trending Spec.
Context {P : Platform}.

(** [read_cache] looks and does not touch: whatever it answers, the cache
    directory, the write protections and [_last_api_call] are as before. *)
Theorem read_cache_read_only :
  forall (w : World) (cache_type key : string),
    let w' := snd (read_cache cache_type key w) in
    fs w' = fs w /\ write_denied w' = write_denied w
    /\ last_api_call w' = last_api_call w.
Proof.
  intros w cache_type key.
  destruct (fs w !! get_cache_path cache_type key) as [[| | |j]|] eqn:Hf.
  - rewrite read_cache_miss by auto. auto.
  - unfold read_cache, path_exists, load_json. unfold_monad.
    rewrite Hf. cbn [negb]. rewrite Hf. cbn. auto.
  - rewrite read_cache_miss by auto. auto.
  - rewrite (read_cache_json _ _ _ _ Hf). unfold miss_or_raise.
    destruct (py_get j "_cached_at" (VInt 0)) as [c|x];
      [|destruct (caught _ x); auto].
    destruct (time_time (env w)) as [t e].
    destruct (py_num c) as [q|x]; [|destruct (caught _ x); auto].
    destruct (Qltb _ _); [auto|].
    destruct (py_get j "_data" VNone) as [v|x]; [auto|].
    destruct (caught _ x); auto.
  - rewrite read_cache_miss by auto. auto.
Qed.

Lemma pyobj_nested_ind (Q : pyobj -> Prop) :
  Q ONone -> (forall b, Q (OBool b)) -> (forall z, Q (OInt z)) ->
  (forall q, Q (OFloat q)) -> (forall s, Q (OStr s)) ->
  (forall l, List.Forall Q l -> Q (OList l)) ->
  (forall l, List.Forall Q l -> Q (OTuple l)) ->
  (forall d, List.Forall (fun kx => Q (snd kx)) d -> Q (ODict d)) ->
  Q OSurrogate ->
  (forall l, Q (OSet l)) ->
  forall o, Q o.
Proof.
  intros HN HB HI HF HS HL HT HD HU HX. fix IH 1. intros [|b|z|q|s|l|l|d| |l].
  - exact HN.
  - apply HB.
  - apply HI.
  - apply HF.
  - apply HS.
  - apply HL. induction l as [|x l IHl]; constructor; [apply IH | exact IHl].
  - apply HT. induction l as [|x l IHl]; constructor; [apply IH | exact IHl].
  - apply HD. induction d as [|[k x] d IHd]; constructor; [apply IH | exact IHd].
  - exact HU.
  - apply HX.
Qed.

(** Writing an object raises a [ValueError], a [UnicodeEncodeError] or a
    [TypeError], and nothing else. *)
Lemma to_json_raises (o : pyobj) :
  forall x : exn,
    to_json o = Raise x -> x = ValueError \/ x = UnicodeEncodeError \/ x = TypeError.
Proof.
  induction o as [|b|z|q|s|l IHl|l IHl|d IHd| |l] using pyobj_nested_ind;
    intros x; cbn [to_json]; try discriminate.
  - destruct (int_fits z); [discriminate|]. intros [= <-]. auto.
  - match goal with
    | |- rbind (?f l) _ = _ -> _ =>
        assert (Hel : forall y, f l = Raise y ->
                                y = ValueError \/ y = UnicodeEncodeError \/ y = TypeError)
    end.
    { induction IHl as [|o l Ho _ IH]; [discriminate|].
      intros y. destruct (to_json o) as [v|e] eqn:E; cbn [rbind].
      - match goal with |- rbind ?r _ = _ -> _ => destruct r eqn:E' end;
          cbn [rbind]; [discriminate|]. intros [= <-]. apply IH. reflexivity.
      - intros [= <-]. apply Ho. reflexivity. }
    match goal with |- rbind ?r _ = _ -> _ => destruct r eqn:E end;
      cbn [rbind]; [discriminate|]. intros [= <-]. apply Hel. reflexivity.
  - match goal with
    | |- rbind (?f l) _ = _ -> _ =>
        assert (Hel : forall y, f l = Raise y ->
                                y = ValueError \/ y = UnicodeEncodeError \/ y = TypeError)
    end.
    { induction IHl as [|o l Ho _ IH]; [discriminate|].
      intros y. destruct (to_json o) as [v|e] eqn:E; cbn [rbind].
      - match goal with |- rbind ?r _ = _ -> _ => destruct r eqn:E' end;
          cbn [rbind]; [discriminate|]. intros [= <-]. apply IH. reflexivity.
      - intros [= <-]. apply Ho. reflexivity. }
    match goal with |- rbind ?r _ = _ -> _ => destruct r eqn:E end;
      cbn [rbind]; [discriminate|]. intros [= <-]. apply Hel. reflexivity.
  - match goal with
    | |- rbind (?f d) _ = _ -> _ =>
        assert (Hel : forall y, f d = Raise y ->
                                y = ValueError \/ y = UnicodeEncodeError \/ y = TypeError)
    end.
    { induction IHd as [|[k o] d Ho _ IH]; [discriminate|].
      intros y. cbn [snd] in Ho.
      destruct (key_text k) as [k'|e] eqn:Ek; cbn [rbind].
      - destruct (to_json o) as [v|e] eqn:E; cbn [rbind].
        + match goal with |- rbind ?r _ = _ -> _ => destruct r eqn:E' end;
            cbn [rbind]; [discriminate|]. intros [= <-]. apply IH. reflexivity.
        + intros [= <-]. apply Ho. reflexivity.
      - intros [= <-]. destruct k as [s|z|b| |]; cbn in Ek; try discriminate.
        + destruct (int_fits z); [discriminate|]. injection Ek as <-. auto.
        + injection Ek as <-. auto. }
    match goal with |- rbind ?r _ = _ -> _ => destruct r eqn:E end;
      cbn [rbind]; [discriminate|]. intros [= <-]. apply Hel. reflexivity.
  - intros [= <-]. auto.
  - intros [= <-]. auto.
Qed.

(** An object made from a value of JSON has an encoding, unless one of its
    integers is too long. *)
Lemma to_json_of_json_raises (v : pyval) :
  forall x : exn, to_json (of_json v) = Raise x -> x = ValueError.
Proof.
  induction v as [|b|z|q|s|l IHl|d IHd] using pyval_nested_ind;
    intros x; cbn [of_json to_json]; try discriminate.
  - destruct (int_fits z); [discriminate|]. intros [= <-]. reflexivity.
  - match goal with
    | |- rbind (?f _) _ = _ -> _ =>
        assert (Hel : forall y, f (map of_json l) = Raise y -> y = ValueError)
    end.
    { induction IHl as [|v l Hv _ IH]; [discriminate|].
      intros y. cbn [map]. destruct (to_json (of_json v)) as [v'|e] eqn:E; cbn [rbind].
      - match goal with |- rbind ?r _ = _ -> _ => destruct r eqn:E' end;
          cbn [rbind]; [discriminate|]. intros [= <-]. apply IH. reflexivity.
      - intros [= <-]. apply Hv. reflexivity. }
    match goal with |- rbind ?r _ = _ -> _ => destruct r eqn:E end;
      cbn [rbind]; [discriminate|]. intros [= <-]. apply Hel. reflexivity.
  - match goal with
    | |- rbind (?f _) _ = _ -> _ =>
        assert (Hel : forall y,
                   f (map (fun kv => (KStr (fst kv), of_json (snd kv))) d) = Raise y ->
                   y = ValueError)
    end.
    { induction IHd as [|[k v] d Hv _ IH]; [discriminate|].
      intros y. cbn [map fst snd key_text rbind]. cbn [snd] in Hv.
      destruct (to_json (of_json v)) as [v'|e] eqn:E; cbn [rbind].
      - match goal with |- rbind ?r _ = _ -> _ => destruct r eqn:E' end;
          cbn [rbind]; [discriminate|]. intros [= <-]. apply IH. reflexivity.
      - intros [= <-]. apply Hv. reflexivity. }
    match goal with |- rbind ?r _ = _ -> _ => destruct r eqn:E end;
      cbn [rbind]; [discriminate|]. intros [= <-]. apply Hel. reflexivity.
Qed.

Lemma write_cache_outcome (w : World) cache_type key (data : pyobj) :
  fst (write_cache cache_type key data w) = Ret tt
  \/ exists x, fst (write_cache cache_type key data w) = Raise x
               /\ to_json data = Raise x
               /\ (x = ValueError \/ x = UnicodeEncodeError).
Proof.
  unfold write_cache, mkdir, now, dump_json. unfold_monad.
  destruct (write_denied w (parent (get_cache_path cache_type key))); cbn [fst snd].
  { left. reflexivity. }
  destruct (time_time (env w)) as [t e]. cbn [fst snd set_env write_denied fs env].
  destruct (write_denied w (get_cache_path cache_type key)).
  { left. reflexivity. }
  cbn [to_json key_text rbind].
  destruct (to_json data) as [v|x] eqn:E; cbn [rbind fst snd]; [left; reflexivity|].
  destruct (to_json_raises _ _ E) as [-> | [-> | ->]]; cbn; eauto 6.
Qed.

(** A value of JSON whose integers are not too long is stored without an
    exception. *)
Lemma write_cache_storable (w : World) cache_type key (v : pyval) :
  storable v = true -> fst (write_cache cache_type key (of_json v) w) = Ret tt.
Proof.
  intros Hs.
  destruct (write_cache_outcome w cache_type key (of_json v)) as [H|(x & _ & H & _)];
    [exact H|]. rewrite (to_json_of_json _ Hs) in H. discriminate H.
Qed.

(** [write_cache] fails in silence: it returns whenever the file cannot be
    written or [json.dump] has no encoding for the payload.  The exceptions
    it lets through are the [ValueError] of [json.dump] for an integer of
    more than 4300 digits and the [UnicodeEncodeError] of the file for a
    string that UTF-8 cannot encode.  The one file it can change is the file
    of its key: every other path of the cache directory is as before, and
    where writing is denied nothing changes at all. *)
Theorem write_cache_failures_and_frame :
  forall (w : World) (cache_type key : string) (data : pyobj),
    let p := get_cache_path cache_type key in
    let w' := snd (write_cache cache_type key data w) in
    (fst (write_cache cache_type key data w) = Ret tt
     \/ exists x, fst (write_cache cache_type key data w) = Raise x
                  /\ to_json data = Raise x
                  /\ (x = ValueError \/ x = UnicodeEncodeError))
    /\ (to_json data = Raise TypeError ->
        fst (write_cache cache_type key data w) = Ret tt)
    /\ (forall q, q <> p -> fs w' !! q = fs w !! q)
    /\ (write_denied w (parent p) = true \/ write_denied w p = true ->
        fs w' = fs w /\ fst (write_cache cache_type key data w) = Ret tt).
Proof.
  intros w cache_type key data p w'. subst w'.
  split; [apply write_cache_outcome|].
  unfold write_cache, mkdir, now, dump_json. unfold_monad. fold p.
  destruct (write_denied w (parent p)) eqn:Hd; cbn [fst snd].
  { cbn. repeat split; auto. }
  destruct (time_time (env w)) as [t e]. cbn [fst snd set_env write_denied fs env].
  destruct (write_denied w p) eqn:Hp.
  { cbn. repeat split; auto. }
  cbn [to_json key_text rbind].
  destruct (to_json data) as [v|x] eqn:E; cbn [rbind fst snd].
  - split; [reflexivity|]. split.
    + intros q Hq. apply lookup_insert_ne. congruence.
    + intros [H|H]; discriminate H.
  - split; [intros [= ->]; reflexivity|]. split.
    + intros q Hq.
      match goal with
      | |- context [if ?b then _ else _] => destruct b
      end; cbn; apply lookup_insert_ne; congruence.
    + intros [H|H]; discriminate H.
Qed.

End CacheFrame.

Section CacheIsolation.
Import Trending Spec.
Context {P : Platform}.

(** The answer of [read_cache] depends on the file of its key and on the
    outside world only. *)
Lemma read_cache_same_file cache_type key (w1 w2 : World) :
  fs w1 !! get_cache_path cache_type key = fs w2 !! get_cache_path cache_type key ->
  env w1 = env w2 ->
  fst (read_cache cache_type key w1) = fst (read_cache cache_type key w2).
Proof.
  intros Hf He.
  destruct (fs w2 !! get_cache_path cache_type key) as [[| | |j]|] eqn:H2.
  - rewrite !read_cache_miss by auto. reflexivity.
  - unfold read_cache, path_exists, load_json. unfold_monad.
    rewrite Hf, H2. cbn [negb]. rewrite Hf, H2. reflexivity.
  - rewrite !read_cache_miss by auto. reflexivity.
  - rewrite (read_cache_json _ _ _ _ Hf), (read_cache_json _ _ _ _ H2), He.
    unfold miss_or_raise.
    destruct (py_get j "_cached_at" (VInt 0)) as [c|x];
      [|destruct (caught _ x); reflexivity].
    destruct (time_time (env w2)) as [t e].
    destruct (py_num c) as [q|x]; [|destruct (caught _ x); reflexivity].
    destruct (Qltb _ _); [reflexivity|].
    destruct (py_get j "_data" VNone) as [v|x]; [reflexivity|].
    destruct (caught _ x); reflexivity.
  - rewrite !read_cache_miss by auto. reflexivity.
Qed.

Lemma get_cache_path_category c k c' k' :
  get_cache_path c k = get_cache_path c' k' -> c = c'.
Proof.
  unfold get_cache_path. intros H. apply app_inv_head in H. congruence.
Qed.

Lemma write_cache_fs_other (w : World) c k data q :
  q <> get_cache_path c k ->
  fs (snd (write_cache c k data w)) !! q = fs w !! q.
Proof.
  intros Hq. unfold write_cache, mkdir, now, dump_json. unfold_monad.
  destruct (write_denied w (parent (get_cache_path c k))); cbn; [reflexivity|].
  destruct (time_time (env w)) as [t e]. cbn [set_env write_denied fs env].
  destruct (write_denied w (get_cache_path c k)); cbn; [reflexivity|].
  destruct (to_json data) as [v|x]; cbn [rbind].
  - cbn. apply lookup_insert_ne. congruence.
  - match goal with
    | |- context [if ?b then _ else _] => destruct b
    end; cbn; apply lookup_insert_ne; congruence.
Qed.

(** The categories of the cache are apart: a record written in one category
    changes no answer in another, whatever the keys and whatever digest is
    used for the file names. *)
Theorem write_cache_other_category :
  forall (w : World) (c c' k k' : string) (data : pyobj) (e : Env),
    c <> c' ->
    fst (read_cache c' k' (set_env e (snd (write_cache c k data w))))
    = fst (read_cache c' k' (set_env e w)).
Proof.
  intros w c c' k k' data e Hc. apply read_cache_same_file; [|reflexivity].
  cbn [fs set_env]. apply write_cache_fs_other.
  intros Heq. apply Hc. symmetry. eapply get_cache_path_category, Heq.
Qed.

End CacheIsolation.

Section CacheIsolationWitness.
Import Trending Spec CacheSample.

(** The theorem on categories, for a record of [issues] and a write in
    [trending] under the same key. *)
Lemma write_cache_other_category_witness :
  let w := Sim.world (<[@get_cache_path Sim.trending "issues" "daily_zig" :=
                        Json (VDict [("_cached_at", VFloat 90); ("_key", VStr "daily_zig");
                                     ("_data", VList [VInt 1])])]> ∅) (quiet 100) in
  fst (@read_cache Sim.trending "issues" "daily_zig"
         (@set_env Sim.trending (quiet 100)
            (snd (@write_cache Sim.trending "trending" "daily_zig" (of_json payload) w))))
  = Ret (VList [VInt 1]).
Proof.
  intros w.
  rewrite (@write_cache_other_category Sim.trending w "trending" "issues"
             "daily_zig" "daily_zig" (of_json payload) (quiet 100)).
  - reflexivity.
  - discriminate.
Defined.
End CacheIsolationWitness.

(** ** The rate limiter *)

Section RateLimitProps.
Import Trending Spec.
Context {P : Platform}.

(** Under the laws of the clock, [rate_limit] keeps the calls apart: the
    time it records is at least [RATE_LIMIT_DELAY] after the time recorded
    by the call before.  It changes nothing of the cache directory. *)
Theorem rate_limit_keeps_calls_apart :
  clock_laws ->
  forall (w : World),
    let w' := snd (rate_limit w) in
    (last_api_call w + RATE_LIMIT_DELAY <= last_api_call w')%Q
    /\ fs w' = fs w.
Proof.
  intros [Hmono Hsleep] w. unfold rate_limit, now, sleep. unfold_monad.
  destruct (time_time (env w)) as [t e] eqn:Ht. cbn.
  destruct (Qltb (t - last_api_call w) RATE_LIMIT_DELAY) eqn:Hd; cbn.
  - destruct (time_time (time_sleep _ e)) as [t' e'] eqn:Ht'. cbn.
    split; [|reflexivity].
    pose proof (Hsleep _ _ _ _ _ _ Ht Ht'). lra.
  - destruct (time_time e) as [t' e'] eqn:Ht'. cbn.
    split; [|reflexivity].
    apply Qltb_false in Hd. pose proof (Hmono _ _ _ _ _ Ht Ht'). lra.
Qed.

End RateLimitProps.

Section RateLimitWitness.
Import Trending Spec.

Lemma sim_clock_laws : @clock_laws Sim.trending.
Proof.
  split.
  - intros e t e' t' e'' H1 H2. cbn in *. injection H1 as <- <-. injection H2 as <- _.
    apply Qle_refl.
  - intros e t e' d t' e'' H1 H2. cbn in *. injection H1 as <- <-. injection H2 as <- _.
    apply Qle_refl.
Qed.

(** The theorem on the simulated platform, for a call 0.2 s after the one
    before: the time recorded is 0.5 s after the time recorded before. *)
Lemma rate_limit_keeps_calls_apart_witness :
  let w := @mkWorld Sim.trending ∅ (fun _ => false) (998 # 10) (CacheSample.quiet 100) in
  (last_api_call w + RATE_LIMIT_DELAY <= last_api_call (snd (@rate_limit Sim.trending w)))%Q.
Proof.
  intros w.
  destruct (@rate_limit_keeps_calls_apart Sim.trending sim_clock_laws w) as [H _].
  exact H.
Defined.
End RateLimitWitness.

(** ** More on the trending fetcher *)

Section FetchMore.
Import Trending Spec.
Context {P : Platform}.

(** What [read_cache] answers on a record with a numeric time stamp. *)
Lemma read_cache_record (w : World) c k (tw t : Q) (e : Env) key_field data :
  fs w !! get_cache_path c k
  = Some (Json (VDict [("_cached_at", VFloat tw); ("_key", key_field); ("_data", data)])) ->
  time_time (env w) = (t, e) ->
  read_cache c k w
  = (Ret (if Qltb (inject_Z (ttl_of c)) (t - tw) then VNone else data), set_env e w).
Proof.
  intros Hf Ht. rewrite (read_cache_json _ _ _ _ Hf). cbn. rewrite Ht.
  destruct (Qltb _ _); reflexivity.
Qed.

(** A listing cached less than an hour ago is served as it is: the one
    thing [fetch_trending] does is to read the clock.  No request is made,
    no pause taken, no file written. *)
Theorem fetch_trending_served_from_cache :
  forall (w : World) (since language : string) (tw t : Q) (e : Env)
         (key_field data : pyval),
    fs w !! get_cache_path "trending" (since +:+ "_" +:+ language)
    = Some (Json (VDict [("_cached_at", VFloat tw); ("_key", key_field); ("_data", data)])) ->
    time_time (env w) = (t, e) ->
    (t - tw <= 3600)%Q ->
    truthy data = true ->
    fetch_trending since language true w = (Ret data, set_env e w).
Proof.
  intros w since language tw t e key_field data Hf Ht Hage Hdata.
  unfold fetch_trending. rewrite bind_assoc.
  rewrite (bind_run _ _ _ _ _ (read_cache_record _ _ _ _ _ _ _ _ Hf Ht)).
  change (inject_Z (ttl_of "trending")) with (inject_Z 3600).
  assert (Hq : Qltb (inject_Z 3600) (t - tw) = false) by (apply Qltb_false; exact Hage).
  rewrite Hq, bind_ret_l, Hdata. reflexivity.
Qed.

End FetchMore.

Section FetchFrames.
Import Trending Spec.
Context {P : Platform}.

Lemma same_disk_refl (w : World) : same_disk w w.
Proof. split; reflexivity. Qed.

Lemma same_disk_trans (w1 w2 w3 : World) :
  same_disk w1 w2 -> same_disk w2 w3 -> same_disk w1 w3.
Proof. intros [A B] [C D]. split; congruence. Qed.

Lemma same_disk_set_env (w : World) (e : Env) : same_disk w (set_env e w).
Proof. split; reflexivity. Qed.

(** What a call of [read_cache] that returns comes to. *)
Lemma read_cache_returns (w w' : World) c k v :
  read_cache c k w = (Ret v, w') ->
  same_disk w w'
  /\ (v = VNone
      \/ exists j, fs w !! get_cache_path c k = Some (Json j) /\ holds_record j v).
Proof.
  intros H.
  destruct (fs w !! get_cache_path c k) as [[| | |j]|] eqn:Hf.
  - rewrite read_cache_miss in H by auto. injection H as <- <-.
    split; [apply same_disk_refl | auto].
  - unfold read_cache, path_exists, load_json in H. unfold_monad.
    rewrite Hf in H. cbn [negb] in H. rewrite Hf in H. discriminate H.
  - rewrite read_cache_miss in H by auto. injection H as <- <-.
    split; [apply same_disk_refl | auto].
  - rewrite (read_cache_json _ _ _ _ Hf) in H. unfold miss_or_raise in H.
    destruct (py_get j "_cached_at" (VInt 0)) as [stamp|x] eqn:Hs.
    + destruct (time_time (env w)) as [t e].
      destruct (py_num stamp) as [tw|x] eqn:Hn.
      * destruct (Qltb _ _).
        -- injection H as <- <-. split; [apply same_disk_set_env | auto].
        -- destruct (py_get j "_data" VNone) as [d|x] eqn:Hd.
           ++ injection H as <- <-. split; [apply same_disk_set_env|].
              right. exists j. split; [reflexivity|]. split; [exact Hd|]. eauto.
           ++ destruct (caught _ x); [|discriminate H]. injection H as <- <-.
              split; [apply same_disk_set_env | auto].
      * destruct (caught _ x); [|discriminate H]. injection H as <- <-.
        split; [apply same_disk_set_env | auto].
    + destruct (caught _ x); [|discriminate H]. injection H as <- <-.
      split; [apply same_disk_refl | auto].
  - rewrite read_cache_miss in H by auto. injection H as <- <-.
    split; [apply same_disk_refl | auto].
Qed.

Lemma rate_limit_run (w : World) :
  exists w', rate_limit w = (Ret tt, w') /\ same_disk w w'.
Proof.
  unfold rate_limit, now, sleep. unfold_monad.
  destruct (time_time (env w)) as [t e]. cbn.
  destruct (Qltb _ _); cbn; destruct (time_time _); eexists; split;
    try reflexivity; split; reflexivity.
Qed.

Lemma scrape_trending_frame (w w' : World) language since r :
  scrape_trending language since w = (r, w') -> same_disk w w'.
Proof.
  unfold scrape_trending, http_text. unfold_monad.
  destruct (urlopen_text _ (env w)) as [[html|x] e]; cbv beta iota.
  - intros H. injection H as _ <-. apply same_disk_set_env.
  - destruct (caught _ x); cbv beta iota; intros H; injection H as _ <-;
      apply same_disk_set_env.
Qed.

(** A call of [write_cache] where writing is allowed: the file of the key
    holds the payload as written, or [json.dump] has raised. *)
Lemma write_cache_run (w w' : World) c k (o : pyobj) (r : result unit) :
  write_cache c k o w = (r, w') ->
  write_denied w (parent (get_cache_path c k)) = false ->
  write_denied w (get_cache_path c k) = false ->
  match to_json o with
  | Ret v => r = Ret tt
             /\ exists j, fs w' !! get_cache_path c k = Some (Json j) /\ holds_record j v
  | Raise x => r = if caught [COSError; CTypeError] x then Ret tt else Raise x
  end.
Proof.
  intros H Hd Hp. destruct (time_time (env w)) as [t e] eqn:Ht.
  rewrite (write_cache_writable _ _ _ _ _ _ Hd Hp Ht) in H.
  destruct (to_json o) as [v|x]; injection H as <- <-; [|reflexivity].
  split; [reflexivity|]. eexists. split; [cbn; apply lookup_insert_eq|].
  split; [reflexivity|]. exists (VFloat t), t. split; reflexivity.
Qed.

Lemma write_cache_returned (w w' : World) c k (v : pyval) :
  write_cache c k (of_json v) w = (Ret tt, w') ->
  write_denied w (parent (get_cache_path c k)) = false ->
  write_denied w (get_cache_path c k) = false ->
  exists j stored,
    fs w' !! get_cache_path c k = Some (Json j) /\ holds_record j stored
    /\ to_json (of_json v) = Ret stored.
Proof.
  intros H Hd Hp. pose proof (write_cache_run _ _ _ _ _ _ H Hd Hp) as Hrun.
  destruct (to_json (of_json v)) as [stored|x] eqn:E.
  - destruct Hrun as [_ (j & Hj & Hrec)]. exists j, stored. auto.
  - rewrite (to_json_of_json_raises _ _ E) in Hrun. discriminate Hrun.
Qed.

Lemma write_cache_raised (w w' : World) c k (v : pyval) (x : exn) :
  write_cache c k (of_json v) w = (Raise x, w') -> x = ValueError.
Proof.
  intros H. destruct (write_cache_outcome w c k (of_json v)) as [Ho|(y & Ho & Hy & _)];
    rewrite H in Ho; cbn in Ho; [discriminate Ho|].
  injection Ho as ->. apply (to_json_of_json_raises _ _ Hy).
Qed.

End FetchFrames.

Section FetchInvariant.
Import Trending Spec.
Context {P : Platform}.

Lemma fetch_trending_unfold since language use_cache (w : World) :
  fetch_trending since language use_cache w
  = bind (if use_cache
          then bind (read_cache "trending" (since +:+ "_" +:+ language))
                 (fun cached => ret (if truthy cached then Some cached else None))
          else ret None)
      (fun hit => match hit with
                  | Some cached => ret cached
                  | None => fetch_remote since language
                  end) w.
Proof. reflexivity. Qed.

Lemma primary_attempt since language (w w' : World) r :
  let cache_key := since +:+ "_" +:+ language in
  let url := BASE_URL +:+ "/" +:+ since +:+ "/" +:+ Str.lower language +:+ ".json" in
  let p := get_cache_path "trending" cache_key in
  try_except
    (bind rate_limit (fun _ =>
     bind (http_json url) (fun data =>
     bind (lift (normalize data)) (fun data' =>
     bind (write_cache "trending" cache_key (of_json data')) (fun _ =>
     ret (Some data'))))))
    [CHTTPError; CURLError] (fun _ => ret None) w = (Ret r, w') ->
  match r with
  | Some data =>
      write_denied w (parent p) = false -> write_denied w p = false ->
      exists j stored,
        fs w' !! p = Some (Json j) /\ holds_record j stored
        /\ to_json (of_json data) = Ret stored
  | None => same_disk w w'
  end.
Proof.
  intros cache_key url p. unfold try_except.
  destruct (rate_limit_run w) as (w2 & Hrl & Hw2).
  rewrite (bind_run _ _ _ _ _ Hrl).
  unfold bind at 1. unfold http_json at 1.
  destruct (urlopen_json url (env w2)) as [[body|x] e3].
  - unfold bind at 1, lift at 1.
    destruct (normalize body) as [data'|x].
    + unfold bind at 1.
      destruct (write_cache "trending" cache_key (of_json data') (set_env e3 w2))
        as [[[]|x] w4] eqn:Hw.
      * unfold ret. intros H. injection H as <- <-.
        intros Hd Hp. destruct Hw2 as [_ Hw2].
        apply (write_cache_returned _ _ _ _ _ Hw);
          cbn [write_denied set_env]; rewrite Hw2; assumption.
      * rewrite (write_cache_raised _ _ _ _ _ _ Hw). cbn. discriminate.
    + destruct (caught _ x); [|discriminate]. unfold ret. intros H. injection H as <- <-.
      eapply same_disk_trans; [exact Hw2 | apply same_disk_set_env].
  - destruct (caught _ x); [|discriminate]. unfold ret. intros H. injection H as <- <-.
    eapply same_disk_trans; [exact Hw2 | apply same_disk_set_env].
Qed.

Lemma fetch_remote_caches since language (w w' : World) data :
  let p := get_cache_path "trending" (since +:+ "_" +:+ language) in
  fetch_remote since language w = (Ret data, w') ->
  write_denied w (parent p) = false ->
  write_denied w p = false ->
  exists j stored,
    fs w' !! p = Some (Json j) /\ holds_record j stored
    /\ to_json (of_json data) = Ret stored.
Proof.
  intros p H Hd Hp. unfold fetch_remote in H. unfold bind at 1 in H.
  match type of H with
  | context [try_except ?m ?cs ?h w] =>
      destruct (try_except m cs h w) as [[r|x] w1] eqn:Et; [|discriminate H]
  end.
  pose proof (primary_attempt _ _ _ _ _ Et) as Hprim.
  destruct r as [d|].
  - unfold ret in H. injection H as <- <-. apply Hprim; assumption.
  - destruct Hprim as [_ Hw1]. unfold bind at 1 in H.
    destruct (scrape_trending _ since w1) as [[repos|y] w5] eqn:Es; [|discriminate H].
    apply scrape_trending_frame in Es as [_ Hw5].
    destruct repos as [|r0 repos]; [discriminate H|].
    unfold bind at 1, get at 1 in H. unfold bind at 1 in H.
    match type of H with
    | context [write_cache ?c ?k ?o w5] =>
        destruct (write_cache c k o w5) as [[[]|x] w6] eqn:Hw; [|discriminate H]
    end.
    unfold ret in H. injection H as <- <-.
    apply (write_cache_returned _ _ _ _ _ Hw); rewrite Hw5, Hw1; assumption.
Qed.

(** Write-through: whenever [fetch_trending] returns a listing and the cache
    file of the partition can be written, that file holds a record under a
    numeric time stamp afterwards: the listing itself when it was served
    from the cache, and what [json.dump] writes for the listing when it was
    fetched from the feed or scraped, which is the listing itself when its
    dicts have distinct keys. *)
Theorem fetch_trending_result_is_cached :
  forall (w w' : World) (since language : string) (use_cache : bool) (data : pyval),
    let p := get_cache_path "trending" (since +:+ "_" +:+ language) in
    fetch_trending since language use_cache w = (Ret data, w') ->
    write_denied w (parent p) = false ->
    write_denied w p = false ->
    exists j stored,
      fs w' !! p = Some (Json j) /\ Spec.holds_record j stored
      /\ (stored = data \/ to_json (of_json data) = Ret stored)
      /\ (Spec.storable data = true -> stored = data).
Proof.
  intros w w' since language use_cache data p H Hd Hp.
  assert (Hremote : forall w1,
             fetch_remote since language w1 = (Ret data, w') ->
             write_denied w1 (parent p) = false -> write_denied w1 p = false ->
             exists j stored,
               fs w' !! p = Some (Json j) /\ holds_record j stored
               /\ (stored = data \/ to_json (of_json data) = Ret stored)
               /\ (storable data = true -> stored = data)).
  { intros w1 H1 Hd1 Hp1.
    destruct (fetch_remote_caches _ _ _ _ _ H1 Hd1 Hp1) as (j & stored & Hj & Hrec & Hs).
    exists j, stored. split; [exact Hj|]. split; [exact Hrec|].
    split; [right; exact Hs|].
    intros Hst. rewrite (to_json_of_json _ Hst) in Hs. congruence. }
  rewrite fetch_trending_unfold in H. destruct use_cache.
  - rewrite bind_assoc in H. unfold bind at 1 in H.
    destruct (read_cache "trending" (since +:+ "_" +:+ language) w)
      as [[cached|x] w1] eqn:Er; [|discriminate H].
    rewrite bind_ret_l in H.
    apply read_cache_returns in Er as [[Hfs Hden] Hc].
    destruct (truthy cached) eqn:Ht.
    + unfold ret in H. injection H as <- <-.
      destruct Hc as [->|(j & Hj & Hrec)]; [discriminate Ht|].
      exists j, cached. rewrite Hfs. auto.
    + apply (Hremote _ H); rewrite Hden; assumption.
  - rewrite bind_ret_l in H. apply (Hremote _ H); assumption.
Qed.

End FetchInvariant.

Section FetchSuccess.
Import Trending Spec.
Context {P : Platform}.

Lemma rate_limit_snd (w : World) : rate_limit w = (Ret tt, snd (rate_limit w)).
Proof. destruct (rate_limit_run w) as (w' & H & _). rewrite H. reflexivity. Qed.

(** What becomes of a listing handed to [write_cache] inside the [try] of
    the primary feed: an exception of [write_cache] goes through the
    [except] clause. *)
Lemma write_then_return (w : World) key (data : pyval) :
  let wr := write_cache "trending" key (of_json data) w in
  match bind (write_cache "trending" key (of_json data))
          (fun _ => ret (Some data)) w with
  | (Ret r, w') => (Ret r, w')
  | (Raise x, w') => if caught [CHTTPError; CURLError] x
                     then ret None w' else (Raise x, w')
  end
  = (rbind (fst wr) (fun _ => Ret (Some data)), snd wr).
Proof.
  intros wr. subst wr. unfold bind.
  destruct (write_cache "trending" key (of_json data) w) as [[[]|x] w'] eqn:Hw;
    [reflexivity|].
  rewrite (write_cache_raised _ _ _ _ _ _ Hw). reflexivity.
Qed.

(** When the cache gives nothing and the feed answers, [fetch_trending]
    hands the answer of the feed, with its field names normalised, to
    [write_cache], and returns it unless [write_cache] raises; the scraper is
    not called.  [write_cache] does not raise when the integers of the
    answer have 4300 digits at most. *)
Theorem fetch_trending_primary_success :
  forall (w w1 : World) (since language : string) (use_cache : bool)
         (body data : pyval) (e3 : Env),
    let cache_key := since +:+ "_" +:+ language in
    let url := BASE_URL +:+ "/" +:+ since +:+ "/" +:+ Str.lower language +:+ ".json" in
    let w2 := snd (rate_limit w1) in
    let written := write_cache "trending" cache_key (of_json data) (set_env e3 w2) in
    (if use_cache
     then exists c, read_cache "trending" cache_key w = (Ret c, w1) /\ truthy c = false
     else w1 = w) ->
    urlopen_json url (env w2) = (Ret body, e3) ->
    normalize body = Ret data ->
    fetch_trending since language use_cache w
    = (rbind (fst written) (fun _ => Ret data), snd written)
    /\ (fst written = Ret tt \/ fst written = Raise ValueError)
    /\ (storable data = true ->
        fetch_trending since language use_cache w = (Ret data, snd written)).
Proof.
  intros w w1 since language use_cache body data e3 cache_key url w2 written
    Hmiss Hfeed Hnorm.
  assert (Hrest : fetch_remote since language w1
                  = (rbind (fst written) (fun _ => Ret data), snd written)).
  { unfold fetch_remote. fold cache_key. fold url.
    unfold bind at 1. unfold try_except.
    rewrite (bind_run _ _ _ _ _ (rate_limit_snd w1)). fold w2.
    assert (Hj : http_json url w2 = (Ret body, set_env e3 w2)).
    { unfold http_json. rewrite Hfeed. reflexivity. }
    rewrite (bind_run _ _ _ _ _ Hj).
    unfold bind at 1, lift at 1. rewrite Hnorm.
    rewrite (write_then_return (set_env e3 w2) cache_key data). fold written.
    destruct (fst written) as [[]|x]; reflexivity. }
  assert (Hrun : fetch_trending since language use_cache w
                 = (rbind (fst written) (fun _ => Ret data), snd written)).
  { rewrite fetch_trending_unfold. destruct use_cache.
    - destruct Hmiss as (c & Hread & Hc).
      rewrite bind_assoc, (bind_run _ _ _ _ _ Hread), bind_ret_l, Hc. exact Hrest.
    - subst w1. rewrite bind_ret_l. exact Hrest. }
  split; [exact Hrun|]. split.
  - destruct (fst written) as [[]|x] eqn:Hw; [left; reflexivity|right].
    destruct written as [r w5] eqn:Ew. cbn in Hw. subst r.
    rewrite (write_cache_raised _ _ _ _ _ _ Ew). reflexivity.
  - intros Hs. rewrite Hrun. subst written.
    rewrite (write_cache_storable _ _ _ _ Hs). reflexivity.
Qed.

(** When the cache gives nothing, the feed fails with an [HTTPError] or a
    [URLError] and the scraper finds entries, [fetch_trending] hands these
    entries, with a publication date of its own, to [write_cache] under the
    key the feed would have used, and returns them unless [write_cache]
    raises, which it does not when their integers have 4300 digits at
    most. *)
Theorem fetch_trending_fallback_success :
  forall (w w1 w4 : World) (since language : string) (use_cache : bool)
         (x : exn) (e3 : Env) (first : pyval) (others : list pyval),
    let cache_key := since +:+ "_" +:+ language in
    let url := BASE_URL +:+ "/" +:+ since +:+ "/" +:+ Str.lower language +:+ ".json" in
    let w2 := snd (rate_limit w1) in
    let data := VDict [("items", VList (first :: others));
                       ("pubDate", VStr (utcnow_strftime (env w4)))] in
    let written := write_cache "trending" cache_key (of_json data) w4 in
    (if use_cache
     then exists c, read_cache "trending" cache_key w = (Ret c, w1) /\ truthy c = false
     else w1 = w) ->
    urlopen_json url (env w2) = (Raise x, e3) ->
    caught [CHTTPError; CURLError] x = true ->
    scrape_trending (if String.eqb language "all" then "" else language) since
      (set_env e3 w2) = (Ret (first :: others), w4) ->
    fetch_trending since language use_cache w
    = (rbind (fst written) (fun _ => Ret data), snd written)
    /\ (storable data = true ->
        fetch_trending since language use_cache w = (Ret data, snd written)).
Proof.
  intros w w1 w4 since language use_cache x e3 first others cache_key url w2 data written
    Hmiss Hfeed Hx Hscrape.
  assert (Hrest : fetch_remote since language w1
                  = (rbind (fst written) (fun _ => Ret data), snd written)).
  { unfold fetch_remote. fold cache_key. fold url.
    unfold bind at 1. unfold try_except.
    rewrite (bind_run _ _ _ _ _ (rate_limit_snd w1)). fold w2.
    assert (Hj : http_json url w2 = (Raise x, set_env e3 w2)).
    { unfold http_json. rewrite Hfeed. reflexivity. }
    rewrite (bind_raise _ _ _ _ _ Hj), Hx. unfold ret at 1.
    rewrite (bind_run _ _ _ _ _ Hscrape).
    unfold bind at 1, get at 1. fold data. unfold bind. fold written.
    destruct written as [[[]|y] w6]; reflexivity. }
  assert (Hrun : fetch_trending since language use_cache w
                 = (rbind (fst written) (fun _ => Ret data), snd written)).
  { rewrite fetch_trending_unfold. destruct use_cache.
    - destruct Hmiss as (c & Hread & Hc).
      rewrite bind_assoc, (bind_run _ _ _ _ _ Hread), bind_ret_l, Hc. exact Hrest.
    - subst w1. rewrite bind_ret_l. exact Hrest. }
  split; [exact Hrun|].
  intros Hs. rewrite Hrun. subst written.
  rewrite (write_cache_storable _ _ _ _ Hs). reflexivity.
Qed.

End FetchSuccess.

Section FetchMoreWitnesses.
Import Trending Spec FeedSample.

(** The cached listing is served while the network is down. *)
Lemma fetch_trending_served_from_cache_witness :
  @fetch_trending Sim.trending "daily" "zig" true cached_zig
  = (Ret feed_data, cached_zig).
Proof.
  rewrite (@fetch_trending_served_from_cache Sim.trending cached_zig "daily" "zig"
             90 100 (Sim.mkEnv 100 (Raise URLError) (Raise URLError))
             (VStr "daily_zig") feed_data).
  - reflexivity.
  - reflexivity.
  - reflexivity.
  - vm_compute. discriminate.
  - reflexivity.
Defined.

(** After a fetch from the feed the cache file holds the listing. *)
Lemma fetch_trending_result_is_cached_witness :
  let r := @fetch_trending Sim.trending "daily" "zig" true feed_up in
  exists data j,
    fst r = Ret data /\ fs (snd r) !! Sim.zig_path = Some (Json j)
    /\ holds_record j data.
Proof.
  intros r. subst r.
  destruct (@fetch_trending Sim.trending "daily" "zig" true feed_up)
    as [[data|x] w'] eqn:E; [|vm_compute in E; discriminate E].
  destruct (@fetch_trending_result_is_cached Sim.trending _ _ _ _ _ _ E eq_refl eq_refl)
    as (j & stored & Hj & Hr & _ & Hsame).
  exists data, j. split; [reflexivity|]. split; [exact Hj|].
  rewrite <- Hsame; [exact Hr|].
  pose proof E as E2. vm_compute in E2. injection E2 as <- _.
  vm_compute. reflexivity.
Defined.

(** The answer of the feed is returned with [link] and [todayStars] filled
    in where they were missing. *)
Lemma fetch_trending_primary_success_witness :
  fst (@fetch_trending Sim.trending "daily" "zig" true feed_up) = Ret feed_data.
Proof.
  assert (Hmiss : exists c, @read_cache Sim.trending "trending" "daily_zig" feed_up
                            = (Ret c, feed_up) /\ truthy c = false).
  { exists VNone. split; reflexivity. }
  destruct (@fetch_trending_primary_success Sim.trending feed_up feed_up "daily" "zig" true
              feed_body feed_data _ Hmiss eq_refl eq_refl) as (_ & _ & H).
  rewrite H; [reflexivity | vm_compute; reflexivity].
Defined.

(** The feed answers 404 and the page has an entry. *)
Lemma fetch_trending_fallback_success_witness :
  fst (@fetch_trending Sim.trending "daily" "zig" true FetchSample.page_only)
  = Ret (VDict [("items", VList [VDict [("title", VStr "owner/name");
                                        ("stars", VStr "1,234")]]);
                ("pubDate", VStr "Thu, 01 Jan 1970 00:00:00 GMT")]).
Proof.
  assert (Hmiss : exists c, @read_cache Sim.trending "trending" "daily_zig"
                              FetchSample.page_only
                            = (Ret c, FetchSample.page_only) /\ truthy c = false).
  { exists VNone. split; reflexivity. }
  destruct (@fetch_trending_fallback_success Sim.trending FetchSample.page_only
              FetchSample.page_only _ "daily" "zig" true _ _ _ _ Hmiss eq_refl eq_refl
              eq_refl) as (_ & H).
  rewrite H; [reflexivity | vm_compute; reflexivity].
Defined.
End FetchMoreWitnesses.

(** ** The normalisation of the feed *)

Section NormalizeProps.
Import Trending Spec FeedSpec.

Lemma dict_get_set_eq {A} (d : list (string * A)) k v :
  dict_get (dict_set d k v) k = Some v.
Proof.
  induction d as [|[k0 v0] d IH]; simpl.
  - rewrite String.eqb_refl. reflexivity.
  - destruct (String.eqb_spec k0 k) as [->|Hk]; simpl.
    + rewrite String.eqb_refl. reflexivity.
    + destruct (String.eqb_spec k0 k); [contradiction|]. exact IH.
Qed.

Lemma copy_key_dict from_key to_key d :
  copy_key from_key to_key (VDict d) = Ret (VDict (copied from_key to_key d)).
Proof.
  unfold copy_key, copied. cbn. unfold dict_has.
  destruct (dict_get d from_key) as [v|]; cbn; [|reflexivity].
  destruct (dict_get d to_key); reflexivity.
Qed.

Lemma copied_get_to from_key to_key d :
  dict_get (copied from_key to_key d) to_key
  = match dict_get d to_key with
    | Some v => Some v
    | None => dict_get d from_key
    end.
Proof.
  unfold copied. destruct (dict_get d from_key) as [v|] eqn:Hf;
    destruct (dict_get d to_key) as [u|] eqn:Ht;
    first [assumption | reflexivity | apply dict_get_set_eq].
Qed.

Lemma copied_get_other from_key to_key d k :
  k <> to_key -> dict_get (copied from_key to_key d) k = dict_get d k.
Proof.
  intros Hk. unfold copied. destruct (dict_get d from_key); [|reflexivity].
  destruct (dict_get d to_key); [reflexivity|].
  apply dict_get_set_ne. congruence.
Qed.

Lemma copied_idem from_key to_key d :
  from_key <> to_key ->
  copied from_key to_key (copied from_key to_key d) = copied from_key to_key d.
Proof.
  intros Hne. unfold copied at 1.
  rewrite copied_get_to, (copied_get_other _ _ _ from_key) by exact Hne.
  destruct (dict_get d from_key) as [v|]; [|reflexivity].
  destruct (dict_get d to_key); reflexivity.
Qed.

Lemma copied_fixed from_key to_key d :
  (forall v, dict_get d from_key = Some v -> dict_get d to_key <> None) ->
  copied from_key to_key d = d.
Proof.
  intros H. unfold copied. destruct (dict_get d from_key) as [v|]; [|reflexivity].
  destruct (dict_get d to_key) eqn:Ht; [reflexivity|].
  exfalso. apply (H v); reflexivity || exact Ht.
Qed.

Lemma normalize_item_dict x :
  normalize_item (VDict x)
  = Ret (VDict (copied "addStars" "todayStars" (copied "url" "link" x))).
Proof.
  unfold normalize_item. rewrite copy_key_dict. cbn [rbind]. apply copy_key_dict.
Qed.

(** On a dict [normalize_item] never raises.  A [link] that is there is
    kept, a missing one is taken from [url]; the same for [todayStars] and
    [addStars]; the other keys keep their values; doing it twice is doing it
    once. *)
Theorem normalize_item_fills_missing_keys :
  forall d : list (string * pyval),
    exists d',
      normalize_item (VDict d) = Ret (VDict d')
      /\ dict_get d' "link"
         = match dict_get d "link" with Some v => Some v | None => dict_get d "url" end
      /\ dict_get d' "todayStars"
         = match dict_get d "todayStars" with
           | Some v => Some v
           | None => dict_get d "addStars"
           end
      /\ (forall k, k <> "link" -> k <> "todayStars" -> dict_get d' k = dict_get d k)
      /\ normalize_item (VDict d') = Ret (VDict d').
Proof.
  intros d.
  exists (copied "addStars" "todayStars" (copied "url" "link" d)).
  pose proof normalize_item_dict as Hrun.
  split; [apply Hrun|]. split; [|split; [|split]].
  - rewrite copied_get_other by discriminate. apply copied_get_to.
  - rewrite copied_get_to, !(copied_get_other "url" "link") by discriminate.
    reflexivity.
  - intros k H1 H2. rewrite !copied_get_other by assumption. reflexivity.
  - rewrite Hrun. do 2 f_equal.
    set (d1 := copied "url" "link" d).
    rewrite (copied_fixed "url" "link" (copied "addStars" "todayStars" d1)).
    + apply copied_idem. discriminate.
    + intros v. rewrite !(copied_get_other "addStars" "todayStars") by discriminate.
      subst d1. rewrite copied_get_to, copied_get_other by discriminate.
      intros ->. destruct (dict_get d "link"); discriminate.
Qed.


Lemma normalize_each_dicts items :
  Forall is_dict items ->
  exists items',
    normalize_each items = Ret items'
    /\ Forall2 (fun a b => normalize_item a = Ret b) items items'.
Proof.
  induction 1 as [|item items [d ->] _ (items' & Hrun & Hall)].
  - exists []. split; [reflexivity | constructor].
  - eexists. cbn [normalize_each]. rewrite normalize_item_dict. cbn [rbind].
    rewrite Hrun. cbn [rbind]. split; [reflexivity|].
    constructor; [apply normalize_item_dict | exact Hall].
Qed.

(** [normalize] on the answer of the feed: a dict without [items] is
    returned as it is; with a list of dicts under [items], the answer keeps
    its keys and the list its length and order, each item being normalised
    in its place. *)
Theorem normalize_keeps_the_listing :
  forall d : list (string * pyval),
    (dict_get d "items" = None -> normalize (VDict d) = Ret (VDict d))
    /\ (forall items,
          dict_get d "items" = Some (VList items) ->
          Forall is_dict items ->
          exists items',
            normalize (VDict d) = Ret (VDict (dict_set d "items" (VList items')))
            /\ Forall2 (fun a b => normalize_item a = Ret b) items items'
            /\ length items' = length items
            /\ (forall k, k <> "items" ->
                  dict_get (dict_set d "items" (VList items')) k = dict_get d k)).
Proof.
  intros d. split.
  - intros H. unfold normalize. cbn. unfold dict_has. rewrite H. reflexivity.
  - intros items H Hd. destruct (normalize_each_dicts _ Hd) as (items' & Hrun & Hall).
    exists items'. split; [|split; [exact Hall|split]].
    + unfold normalize. cbn. unfold dict_has. rewrite H. cbn. rewrite Hrun. reflexivity.
    + symmetry. eapply Forall2_length, Hall.
    + intros k Hk. apply dict_get_set_ne. congruence.
Qed.

End NormalizeProps.

Section NormalizeWitness.
Import Trending Spec FeedSpec FeedSample.

(** The theorem on the sample answer of the feed. *)
Lemma normalize_keeps_the_listing_witness :
  normalize feed_body = Ret feed_data.
Proof.
  destruct feed_body as [| | | | | |d] eqn:E; try discriminate E.
  destruct (normalize_keeps_the_listing d) as [_ H].
  injection E as <-.
  destruct (H _ eq_refl) as (items' & Hrun & Hall & _).
  - repeat constructor; eexists; reflexivity.
  - rewrite Hrun.
    inversion Hall as [|a b l l' Ha Hl]; subst.
    inversion Hl as [|a' b' l0 l0' Ha' Hl0]; subst.
    inversion Hl0; subst.
    vm_compute in Ha, Ha'.
    injection Ha as <-. injection Ha' as <-. reflexivity.
Defined.
End NormalizeWitness.

(** ** Requests that fail *)

Section RequestProps.
Import Analyzer AnalyzerSpec.
Context {P : Platform}.

Lemma api_request_run (endpoint : string) (n : Net) :
  api_request endpoint n
  = match request_json (request_url endpoint) request_headers n with
    | (Body j, n') => (Ret j, n')
    | (HTTPFailure code msg, n') =>
        (Ret (VDict [("_error", VStr (if code =? 403 then "rate_limited"
                                      else if code =? 404 then "not_found"
                                      else msg))]), n')
    | (Failure msg, n') => (Ret (VDict [("_error", VStr msg)]), n')
    end.
Proof. reflexivity. Qed.

Lemma api_request_listing (endpoint : string) (n : Net) :
  bind (api_request endpoint) (fun result => ret (as_list result)) n
  = let (r, n') := request_json (request_url endpoint) request_headers n in
    (Ret (listing r), n').
Proof.
  unfold bind. rewrite api_request_run.
  destruct (request_json _ _ n) as [[j|code msg|msg] n']; reflexivity.
Qed.

(** The three list fetchers never raise.  Each makes one request and
    returns the list the API answers; for any other answer, and for a
    request that fails, it returns the empty list (and the count 0).  After
    a request that fails [get_readme] returns [None]. *)
Theorem fetchers_survive_failed_requests :
  forall (owner repo : string) (n : Net),
    let asked := fun suffix =>
      request_json (request_url (repo_endpoint owner repo +:+ suffix)) request_headers n in
    get_commits owner repo n
    = (Ret (listing (fst (asked "/commits?per_page=10"))),
       snd (asked "/commits?per_page=10"))
    /\ get_pull_requests owner repo n
       = (Ret (listing (fst (asked "/pulls?state=all&per_page=20"))),
          snd (asked "/pulls?state=all&per_page=20"))
    /\ get_open_issues owner repo n
       = (let l := listing (fst (asked "/issues?state=open&per_page=10")) in
          Ret (mkIssues l (Z.of_nat (length l))),
          snd (asked "/issues?state=open&per_page=10"))
    /\ match fst (asked "/readme") with
       | Body _ => True
       | _ => get_readme owner repo n = (Ret None, snd (asked "/readme"))
       end.
Proof.
  intros owner repo n asked. subst asked. cbv beta.
  split; [|split; [|split]].
  - unfold get_commits. rewrite api_request_listing.
    destruct (request_json _ _ n); reflexivity.
  - unfold get_pull_requests. rewrite api_request_listing.
    destruct (request_json _ _ n); reflexivity.
  - unfold get_open_issues, bind. rewrite api_request_run.
    destruct (request_json _ _ n) as [[j|code msg|msg] n']; reflexivity.
  - unfold get_readme, bind. rewrite api_request_run.
    destruct (request_json _ _ n) as [[j|code msg|msg] n']; cbn [fst snd];
      [exact I|reflexivity|reflexivity].
Qed.

Lemma get_repo_info_failure (owner repo : string) (n n' : Net) (err : string) :
  api_request (repo_endpoint owner repo) n = (Ret (VDict [("_error", VStr err)]), n') ->
  get_repo_info owner repo n = (Ret (VDict [("_error", VStr err)]), n').
Proof. intros H. unfold get_repo_info. rewrite (bind_run _ _ _ _ _ H). reflexivity. Qed.

Lemma analyze_repo_failure (owner_repo owner repo : string) (n n' : Net) (err : string) :
  Str.split "/" owner_repo = [owner; repo] ->
  api_request (repo_endpoint owner repo) n = (Ret (VDict [("_error", VStr err)]), n') ->
  analyze_repo owner_repo n = (Ret (Failed (VStr err) (Some owner_repo)), n').
Proof.
  intros Hs H. unfold analyze_repo. rewrite Hs.
  rewrite (bind_run _ _ _ _ _ (get_repo_info_failure _ _ _ _ _ H)).
  reflexivity.
Qed.

(** When the request for the repository itself fails, [analyze_repo]
    reports the failure under [error], with the identifier under [repo],
    and makes no other request: [not_found] for the status 404,
    [rate_limited] for 403, the text of the exception otherwise. *)
Theorem analyze_repo_reports_failed_request :
  forall (owner_repo owner repo : string) (n n' : Net) (r : response),
    Str.split "/" owner_repo = [owner; repo] ->
    request_json (request_url (repo_endpoint owner repo)) request_headers n = (r, n') ->
    let reported := fun err =>
      analyze_repo owner_repo n = (Ret (Failed (VStr err) (Some owner_repo)), n') in
    (forall msg, r = HTTPFailure 404 msg -> reported "not_found")
    /\ (forall msg, r = HTTPFailure 403 msg -> reported "rate_limited")
    /\ (forall code msg, r = HTTPFailure code msg -> code <> 403 -> code <> 404 ->
        reported msg)
    /\ (forall msg, r = Failure msg -> reported msg).
Proof.
  intros owner_repo owner repo n n' r Hs Hr reported. subst reported. cbv beta.
  split; [|split; [|split]].
  - intros msg ->. apply (analyze_repo_failure _ _ _ _ _ _ Hs).
    rewrite api_request_run, Hr. reflexivity.
  - intros msg ->. apply (analyze_repo_failure _ _ _ _ _ _ Hs).
    rewrite api_request_run, Hr. reflexivity.
  - intros code msg -> H403 H404. apply (analyze_repo_failure _ _ _ _ _ _ Hs).
    rewrite api_request_run, Hr.
    destruct (Z.eqb_spec code 403); [contradiction|].
    destruct (Z.eqb_spec code 404); [contradiction|]. reflexivity.
  - intros msg ->. apply (analyze_repo_failure _ _ _ _ _ _ Hs).
    rewrite api_request_run, Hr. reflexivity.
Qed.

End RequestProps.

Section RequestWitness.
Import Analyzer AnalyzerSpec.

(** The theorem on the simulated network, where the repositories of the
    owner [ghost] do not exist. *)
Lemma analyze_repo_reports_failed_request_witness :
  @analyze_repo SimNet.platform "ghost/town" (SimNet.start 60)
  = (Ret (Failed (VStr "not_found") (Some "ghost/town")),
     SimNet.mkNet (VInt 60) ["https://api.github.com/repos/ghost/town"] 0).
Proof.
  destruct (@analyze_repo_reports_failed_request SimNet.platform
              "ghost/town" "ghost" "town" (SimNet.start 60)
              (SimNet.mkNet (VInt 60) ["https://api.github.com/repos/ghost/town"] 0)
              (HTTPFailure 404 "HTTP Error 404: Not Found") eq_refl eq_refl)
    as [H _].
  exact (H _ eq_refl).
Defined.

End RequestWitness.

(** ** The order of the batch results *)

Section BatchOrder.
Import Analyzer AnalyzerSpec BatchSpec.
Context {P : Platform}.

Lemma insert_desc_in x y l : In y (insert_desc x l) -> y = x \/ In y l.
Proof.
  intros H. apply (Permutation_in _ (insert_desc_perm x l)) in H.
  destruct H as [<-|H]; auto.
Qed.

Lemma insert_desc_sorted x l : descending l -> descending (insert_desc x l).
Proof.
  unfold descending. induction 1 as [|y l Hl IH Hy]; cbn [insert_desc].
  - repeat constructor.
  - destruct (Z.ltb_spec (total_of x) (total_of y)) as [Hlt|Hge].
    + constructor; [exact IH|].
      apply List.Forall_forall. intros z Hz.
      destruct (insert_desc_in _ _ _ Hz) as [->|Hin]; [lia|].
      rewrite List.Forall_forall in Hy. apply Hy, Hin.
    + constructor; [constructor; assumption|].
      constructor; [exact Hge|].
      rewrite List.Forall_forall in Hy |- *. intros z Hz. specialize (Hy z Hz). lia.
Qed.

Lemma sort_desc_sorted l : descending (sort_desc l).
Proof.
  induction l as [|x l IH]; cbn [sort_desc fold_right].
  - constructor.
  - apply insert_desc_sorted, IH.
Qed.

Lemma descending_tail pre l : descending (pre ++ l) -> descending l.
Proof.
  unfold descending. induction pre as [|x pre IH]; [auto|].
  intros H. apply StronglySorted_inv in H. apply IH, H.
Qed.

(** A report is worth 2 points at least: a failed analysis, which counts
    for 0 in the order, is behind every report. *)
Lemma analyze_repo_total_range (n n' : Net) owner_repo r :
  analyze_repo owner_repo n = (Ret (Scored r), n') -> 2 <= total r <= 100.
Proof.
  intros H.
  destruct (analyze_repo_scored _ _ _ _ H)
    as (s1 & s2 & s3 & s4 & hs & info & R1 & R2 & R3 & R4 & Hh & Hs & Ht & Hg).
  destruct (score_repo_health_shape _ _ Hh) as (a & b & c & d & -> & Ra & Rb & Rc & Rd).
  cbn in Hs. rewrite Ht, Hs. cbn. lia.
Qed.

Lemma analyze_entry_sound e (n n' : Net) rs :
  analyze_entry e n = (Ret rs, n') -> Forall sound rs.
Proof.
  unfold analyze_entry. unfold_monad.
  destruct (py_get e "title" (VStr "")) as [title|]; [|discriminate].
  destruct (no_repo_path title) as [[]|]; [| |discriminate].
  - intros H. injection H as <- _. constructor.
  - destruct title; try discriminate.
    destruct (analyze_repo s n) as [[result|] n2] eqn:E; [|discriminate].
    intros H. injection H as <- _. constructor; [|constructor].
    destruct result as [err name|r]; [exact I|].
    apply (analyze_repo_total_range _ _ _ _ E).
Qed.

Lemma analyze_each_sound repos :
  forall acc (n n' : Net) results,
    analyze_each repos acc n = (Ret results, n') ->
    Forall sound acc -> Forall sound results.
Proof.
  induction repos as [|e repos IH]; intros acc n n' results H Hacc.
  - injection H as <- _. exact Hacc.
  - rewrite analyze_each_cons in H. unfold bind at 1 in H.
    destruct (analyze_entry e n) as [[rs|x] n1] eqn:E; [|discriminate].
    apply (IH _ _ _ _ H). apply Forall_app. split; [exact Hacc|].
    apply (analyze_entry_sound _ _ _ _ E).
Qed.

Lemma analyze_repos_sorts repos (n n' : Net) results :
  analyze_repos repos n = (Ret results, n') ->
  exists todo n1 rs,
    analyze_each todo [] n1 = (Ret rs, n') /\ results = sort_desc rs.
Proof.
  unfold analyze_repos. unfold_monad.
  destruct (get_rate_limit n) as [[rate|] n1]; [|discriminate].
  destruct (batch (remaining rate) repos) as [todo|]; [|discriminate].
  destruct (analyze_each todo [] n1) as [[rs|] n2] eqn:E; [|discriminate].
  intros H. injection H as <- <-. eauto.
Qed.

(** The list [analyze_repos] returns is in descending order of total, and
    the analyses that failed come last, behind every report: a report has a
    total of 2 or more, and a failed analysis counts for 0. *)
Theorem analyze_repos_sorted_failures_last :
  forall (repos : list pyval) (n n' : Net) (results : list analysis),
    analyze_repos repos n = (Ret results, n') ->
    descending results
    /\ (forall r, In (Scored r) results -> 2 <= total r <= 100)
    /\ (forall pre x post, results = pre ++ x :: post -> is_failed x ->
        Forall is_failed post).
Proof.
  intros repos n n' results H.
  destruct (analyze_repos_sorts _ _ _ _ H) as (todo & n1 & rs & Hrun & ->).
  assert (Hsound : Forall sound (sort_desc rs)).
  { apply (Permutation_Forall (Permutation_sym (sort_desc_perm rs))).
    apply (analyze_each_sound _ _ _ _ _ Hrun). constructor. }
  pose proof (sort_desc_sorted rs) as Hsorted.
  split; [exact Hsorted|]. split.
  - intros r Hr. rewrite List.Forall_forall in Hsound. apply (Hsound _ Hr).
  - intros pre x post Heq Hx. rewrite Heq in Hsorted, Hsound.
    apply descending_tail in Hsorted. unfold descending in Hsorted.
    apply StronglySorted_inv in Hsorted. destruct Hsorted as [_ Hle].
    apply Forall_app in Hsound. destruct Hsound as [_ Hs].
    apply Forall_cons_iff in Hs. destruct Hs as [_ Hs].
    rewrite List.Forall_forall in Hle, Hs |- *. intros y Hy.
    specialize (Hle y Hy). specialize (Hs y Hy).
    destruct x as [e name|r]; [|contradiction].
    destruct y as [e' name'|r']; [exact I|].
    cbn in Hle, Hs. lia.
Qed.

End BatchOrder.

Section BatchOrderWitness.
Import Analyzer AnalyzerSpec.

(** The theorem on a batch of two: a repository that does not exist, then
    one that does. *)
Lemma analyze_repos_sorted_failures_last_witness :
  exists results n',
    @analyze_repos SimNet.platform [SimNet.titled "ghost/town"; SimNet.titled "owner/one"]
      (SimNet.start 5000) = (Ret results, n')
    /\ descending results
    /\ (forall pre x post, results = pre ++ x :: post -> is_failed x ->
        Forall is_failed post).
Proof.
  destruct (@analyze_repos SimNet.platform
              [SimNet.titled "ghost/town"; SimNet.titled "owner/one"] (SimNet.start 5000))
    as [[results|x] n'] eqn:Erun; [|vm_compute in Erun; discriminate Erun].
  exists results, n'. split; [reflexivity|].
  destruct (@analyze_repos_sorted_failures_last SimNet.platform _ _ _ _ Erun)
    as (Hd & _ & Hlast).
  split; assumption.
Defined.

End BatchOrderWitness.

(** ** The candidates of a batch and their results *)

Section BatchCoverage.
Import Analyzer AnalyzerSpec BatchSpec.
Context {P : Platform}.

(** No candidate of the batch is lost or counted twice.  When
    [analyze_repos] returns, its list holds, up to the order, one result for
    each entry of the batch whose title is a string with a [/], and nothing
    else: the report of that repository, the failure of its request, or the
    complaint about its identifier. *)
Theorem analyze_repos_one_result_per_candidate :
  forall (n n1 n' : Net) (repos todo : list pyval) (rate : rate_info)
         (results : list analysis),
    get_rate_limit n = (Ret rate, n1) ->
    batch (remaining rate) repos = Ret todo ->
    analyze_repos repos n = (Ret results, n') ->
    exists gathered,
      Forall2 about (slash_titles todo) gathered
      /\ Permutation results gathered
      /\ length results = length (slash_titles todo).
Proof.
  intros n n1 n' repos todo rate results Hrate Hbatch H.
  unfold analyze_repos in H. rewrite (bind_run _ _ _ _ _ Hrate) in H.
  unfold lift at 1 in H. unfold bind at 1 in H. rewrite Hbatch in H.
  unfold bind in H.
  destruct (analyze_each todo [] n1) as [[rs|x] n2] eqn:E; [|discriminate].
  unfold ret in H. injection H as <- _.
  destruct (analyze_each_about _ _ _ _ _ E) as (more & -> & Hmore).
  cbn [app]. exists more. split; [exact Hmore|]. split; [apply sort_desc_perm|].
  rewrite (Permutation_length (sort_desc_perm more)).
  symmetry. apply (Forall2_length _ _ _ Hmore).
Qed.

End BatchCoverage.

Section BatchCoverageWitness.
Import Analyzer AnalyzerSpec.

(** The theorem on a batch of four: a repository that does not exist, a
    title without [/], a title with two, and a repository that exists. *)
Lemma analyze_repos_one_result_per_candidate_witness :
  exists results n',
    @analyze_repos SimNet.platform
      [SimNet.titled "ghost/town"; SimNet.titled "noslash"; SimNet.titled "a/b/c";
       SimNet.titled "owner/one"] (SimNet.start 5000) = (Ret results, n')
    /\ length results = 3%nat.
Proof.
  assert (E : exists rate n1,
             @get_rate_limit SimNet.platform (SimNet.start 5000) = (Ret rate, n1)
             /\ remaining rate = VInt 5000).
  { eexists. eexists. split; vm_compute; reflexivity. }
  destruct E as (rate & n1 & E & Hrem).
  destruct (@analyze_repos SimNet.platform
              [SimNet.titled "ghost/town"; SimNet.titled "noslash"; SimNet.titled "a/b/c";
               SimNet.titled "owner/one"] (SimNet.start 5000))
    as [[results|x] n'] eqn:Erun; [|vm_compute in Erun; discriminate Erun].
  exists results, n'. split; [reflexivity|].
  assert (Hb : @batch SimNet.platform (remaining rate)
                 [SimNet.titled "ghost/town"; SimNet.titled "noslash";
                  SimNet.titled "a/b/c"; SimNet.titled "owner/one"]
               = Ret [SimNet.titled "ghost/town"; SimNet.titled "noslash";
                      SimNet.titled "a/b/c"; SimNet.titled "owner/one"]).
  { rewrite Hrem. reflexivity. }
  destruct (@analyze_repos_one_result_per_candidate SimNet.platform _ _ _ _ _ rate _
              E Hb Erun) as (gathered & _ & _ & Hlen).
  exact Hlen.
Defined.

End BatchCoverageWitness.

(** ** The quota check of the batch *)

Section QuotaProps.
Import Analyzer AnalyzerSpec.
Context {P : Platform}.

Lemma get_rate_limit_failure (n : Net) (err : string) (n1 : Net) :
  api_request "/rate_limit" n = (Ret (VDict [("_error", VStr err)]), n1) ->
  get_rate_limit n = (Ret (mkRate (VInt 0) (VInt 60) (VInt 0)), n1).
Proof. intros H. unfold get_rate_limit. rewrite (bind_run _ _ _ _ _ H). reflexivity. Qed.

Lemma analyze_repos_run (repos todo : list pyval) (n n1 : Net) (rate : rate_info) :
  get_rate_limit n = (Ret rate, n1) ->
  batch (remaining rate) repos = Ret todo ->
  analyze_repos repos n
  = bind (analyze_each todo []) (fun results => ret (sort_desc results)) n1.
Proof.
  intros Hrate Hbatch. unfold analyze_repos. rewrite (bind_run _ _ _ _ _ Hrate).
  unfold lift at 1. unfold bind at 1. rewrite Hbatch. reflexivity.
Qed.

(** When the request for the quota fails, [get_rate_limit] reports no call
    left, and without a credential [analyze_repos] goes through the first
    entry of its list only. *)
Theorem analyze_repos_quota_unknown :
  forall (repos : list pyval) (n n1 : Net) (r : response),
    request_json (request_url "/rate_limit") request_headers n = (r, n1) ->
    (forall j, r <> Body j) ->
    GITHUB_TOKEN = EmptyString ->
    get_rate_limit n = (Ret (mkRate (VInt 0) (VInt 60) (VInt 0)), n1)
    /\ analyze_repos repos n
       = bind (analyze_each (firstn 1 repos) []) (fun results => ret (sort_desc results)) n1.
Proof.
  intros repos n n1 r Hr Hfail Htoken.
  assert (Hrate : get_rate_limit n = (Ret (mkRate (VInt 0) (VInt 60) (VInt 0)), n1)).
  { destruct r as [j|code msg|msg]; [destruct (Hfail j eq_refl)| |];
      eapply get_rate_limit_failure; rewrite api_request_run, Hr; reflexivity. }
  split; [exact Hrate|].
  apply (analyze_repos_run _ _ _ _ _ Hrate). cbn [remaining].
  unfold batch. rewrite py_lt_int, Htoken. cbn [rbind].
  destruct repos as [|e rest]; reflexivity.
Qed.

(** With a credential the list is never cut short: whatever number of calls
    the quota reports, [analyze_repos] goes through all the entries. *)
Theorem analyze_repos_with_token_whole_batch :
  forall (repos : list pyval) (n n1 : Net) (rate : rate_info) (q : Q),
    GITHUB_TOKEN <> EmptyString ->
    get_rate_limit n = (Ret rate, n1) ->
    py_num (remaining rate) = Ret q ->
    batch (remaining rate) repos = Ret repos
    /\ analyze_repos repos n
       = bind (analyze_each repos []) (fun results => ret (sort_desc results)) n1.
Proof.
  intros repos n n1 rate q Htoken Hrate Hq.
  assert (Hbatch : batch (remaining rate) repos = Ret repos).
  { unfold batch, py_lt. rewrite Hq. cbn [rbind].
    destruct (String.eqb_spec GITHUB_TOKEN ""); [contradiction|].
    rewrite andb_false_r. reflexivity. }
  split; [exact Hbatch|]. apply (analyze_repos_run _ _ _ _ _ Hrate Hbatch).
Qed.

End QuotaProps.

Section QuotaWitnesses.
Import Analyzer AnalyzerSpec.

(** The first theorem where the quota cannot be asked for: of five
    candidates one is analysed. *)
Lemma analyze_repos_quota_unknown_witness :
  exists results n',
    @analyze_repos SimNet.unmetered SimNet.five (SimNet.start 60) = (Ret results, n')
    /\ length results = 1%nat.
Proof.
  destruct (@analyze_repos_quota_unknown SimNet.unmetered SimNet.five (SimNet.start 60)
              (SimNet.mkNet (VInt 60) ["https://api.github.com/rate_limit"] 0)
              (Failure "<urlopen error timed out>") eq_refl ltac:(discriminate) eq_refl)
    as [_ Hrun].
  rewrite Hrun. eexists. eexists. split; [vm_compute; reflexivity | reflexivity].
Defined.

(** The second theorem with a credential, 12 calls left and five
    candidates: all five are analysed. *)
Lemma analyze_repos_with_token_whole_batch_witness :
  exists results n',
    @analyze_repos SimNet.with_token SimNet.five (SimNet.start 12) = (Ret results, n')
    /\ length results = 5%nat.
Proof.
  assert (E : exists rate n1,
             @get_rate_limit SimNet.with_token (SimNet.start 12) = (Ret rate, n1)
             /\ remaining rate = VInt 12).
  { eexists. eexists. split; vm_compute; reflexivity. }
  destruct E as (rate & n1 & E & Hrem).
  destruct (@analyze_repos_with_token_whole_batch SimNet.with_token SimNet.five _ _ rate 12
              ltac:(discriminate) E ltac:(rewrite Hrem; reflexivity)) as [_ Hrun].
  rewrite Hrun. clear Hrun.
  assert (Hn1 : n1 = SimNet.mkNet (VInt 12) ["https://api.github.com/rate_limit"] 0).
  { vm_compute in E. injection E as _ <-. reflexivity. }
  rewrite Hn1. eexists. eexists. split; [vm_compute; reflexivity | reflexivity].
Defined.

End QuotaWitnesses.

(** ** The rates of the scorer, in whole numbers *)

Section RateProps.
Import Analyzer AnalyzerSpec.
Context {P : Platform}.

Lemma Qltb_ratio (p : Z) (q : positive) (k n : Z) :
  0 < n -> Qltb (p # q) (ratio k n) = (p * n <? Z.pos q * k).
Proof.
  intros Hn. destruct n as [|n|n]; try lia.
  unfold Qltb, ratio, Qle_bool, Qdiv, Qmult, Qinv, inject_Z. cbn.
  rewrite Z.ltb_antisym. f_equal.
  rewrite !Z.mul_1_r, Pos.mul_1_l.
  destruct (Z.leb_spec (k * Z.pos q) (p * Z.pos n)), (Z.leb_spec (Z.pos q * k) (p * Z.pos n));
    try reflexivity; lia.
Qed.

Lemma py_gt_int (c k : Z) : py_gt (VInt c) k = Ret (k <? c).
Proof.
  unfold py_gt, py_num, Qltb, Qle_bool. cbn. rewrite !Z.mul_1_r, Z.ltb_antisym.
  reflexivity.
Qed.

Lemma count_if_how_many (test : pyval -> result bool) (f : pyval -> bool) xs :
  Forall (fun x => test x = Ret (f x)) xs ->
  count_if test xs = Ret (how_many f xs).
Proof.
  unfold how_many. induction 1 as [|x xs Hx _ IH]; [reflexivity|].
  cbn [count_if List.filter]. rewrite Hx, IH. cbn [rbind].
  destruct (f x); [|reflexivity]. cbn [length]. f_equal. lia.
Qed.

Lemma how_many_range f xs : 0 <= how_many f xs <= Z.of_nat (length xs).
Proof.
  unfold how_many. pose proof (filter_length_le f xs). lia.
Qed.

(** On open issues as the API lists them [score_issue_response] never
    raises, and its points depend on the number [k] of answered issues among
    the [n] listed: 15 when [k/n] is above 0.8, 10 above 0.5, 5 above 0.2,
    and 0 otherwise, every bound being strict.  So 15 when all are
    answered, 10 when exactly four in five are, and 0 when none is. *)
Theorem score_issue_response_thresholds :
  forall issues : list pyval,
    issues <> [] ->
    Forall plain_issue issues ->
    let n := Z.of_nat (length issues) in
    let k := how_many answered issues in
    score_issue_response issues
    = Ret (if 4 * n <? 5 * k then 15
           else if n <? 2 * k then 10
           else if n <? 5 * k then 5
           else 0)
    /\ (k = n -> score_issue_response issues = Ret 15)
    /\ (5 * k = 4 * n -> score_issue_response issues = Ret 10)
    /\ (k = 0 -> score_issue_response issues = Ret 0).
Proof.
  intros issues Hne Hplain n k.
  assert (Hn : 0 < n).
  { subst n. destruct issues; [contradiction | cbn [length]; lia]. }
  assert (Hrun : score_issue_response issues
                 = Ret (if 4 * n <? 5 * k then 15
                        else if n <? 2 * k then 10
                        else if n <? 5 * k then 5
                        else 0)).
  { unfold score_issue_response. destruct issues as [|i rest]; [contradiction|].
    rewrite (count_if_how_many _ answered).
    - cbn [rbind]. fold n k.
      rewrite !Qltb_ratio by exact Hn.
      replace (8 * n <? 10 * k) with (4 * n <? 5 * k)
        by (destruct (Z.ltb_spec (4 * n) (5 * k)), (Z.ltb_spec (8 * n) (10 * k)); lia).
      replace (5 * n <? 10 * k) with (n <? 2 * k)
        by (destruct (Z.ltb_spec n (2 * k)), (Z.ltb_spec (5 * n) (10 * k)); lia).
      replace (2 * n <? 10 * k) with (n <? 5 * k)
        by (destruct (Z.ltb_spec n (5 * k)), (Z.ltb_spec (2 * n) (10 * k)); lia).
      repeat match goal with
             | |- context [if ?b then _ else _] => destruct b
             end; reflexivity.
    - eapply Forall_impl; [exact Hplain|].
      intros x (d & -> & [Hc|[c Hc]]); cbn; rewrite Hc; [reflexivity|].
      rewrite py_gt_int. reflexivity. }
  split; [exact Hrun|]. rewrite Hrun.
  split; [|split]; intros Hk; f_equal;
    repeat match goal with
           | |- context [?a <? ?b] => destruct (Z.ltb_spec a b)
           end; try reflexivity; lia.
Qed.

(** On pull requests that are dicts [score_pr_merge_rate] never raises, and
    its points depend on the number [m] of merged and the number [c] of
    closed pull requests in the list: 10 when none is closed, as for an
    empty list; otherwise 15 when [m/c] is above 0.7, 10 above 0.5, 5 above
    0.3, and 0 otherwise, every bound being strict. *)
Theorem score_pr_merge_rate_thresholds :
  forall prs : list pyval,
    prs <> [] ->
    Forall FeedSpec.is_dict prs ->
    let m := how_many is_merged prs in
    let c := how_many is_closed prs in
    score_pr_merge_rate prs
    = Ret (if c =? 0 then 10
           else if 7 * c <? 10 * m then 15
           else if c <? 2 * m then 10
           else if 3 * c <? 10 * m then 5
           else 0)
    /\ (c = 0 -> score_pr_merge_rate prs = Ret 10)
    /\ (0 < c -> m = c -> score_pr_merge_rate prs = Ret 15)
    /\ (0 < c -> m = 0 -> score_pr_merge_rate prs = Ret 0).
Proof.
  intros prs Hne Hdict m c.
  assert (Hc : 0 <= c) by apply how_many_range.
  assert (Hrun : score_pr_merge_rate prs
                 = Ret (if c =? 0 then 10
                        else if 7 * c <? 10 * m then 15
                        else if c <? 2 * m then 10
                        else if 3 * c <? 10 * m then 5
                        else 0)).
  { unfold score_pr_merge_rate. destruct prs as [|pr rest]; [contradiction|].
    rewrite (count_if_how_many _ is_merged); cycle 1.
    { eapply Forall_impl; [exact Hdict|].
      intros x [d ->]. cbn. destruct (dict_get d "merged_at"); reflexivity. }
    cbn [rbind].
    rewrite (count_if_how_many _ is_closed); cycle 1.
    { eapply Forall_impl; [exact Hdict|].
      intros x [d ->]. cbn. destruct (dict_get d "state") as [[]|]; reflexivity. }
    cbn [rbind]. fold m c.
    destruct (Z.eqb_spec c 0) as [|Hc0]; [reflexivity|].
    rewrite !Qltb_ratio by lia.
    replace (5 * c <? 10 * m) with (c <? 2 * m)
      by (destruct (Z.ltb_spec c (2 * m)), (Z.ltb_spec (5 * c) (10 * m)); lia).
    repeat match goal with
           | |- context [if ?b then _ else _] => destruct b
           end; reflexivity. }
  split; [exact Hrun|]. rewrite Hrun.
  split; [|split].
  - intros ->. reflexivity.
  - intros Hpos Hm. destruct (Z.eqb_spec c 0); [lia|].
    destruct (Z.ltb_spec (7 * c) (10 * m)); [reflexivity | lia].
  - intros Hpos Hm. destruct (Z.eqb_spec c 0); [lia|]. f_equal.
    repeat match goal with
           | |- context [?a <? ?b] => destruct (Z.ltb_spec a b)
           end; try reflexivity; lia.
Qed.

End RateProps.

Section RateWitnesses.
Import Analyzer AnalyzerSpec.

(** The first theorem on the two open issues of the simulated network, one
    of them answered. *)
Lemma score_issue_response_thresholds_witness :
  score_issue_response [VDict [("comments", VInt 2)]; VDict [("comments", VInt 0)]] = Ret 5.
Proof.
  destruct (score_issue_response_thresholds
              [VDict [("comments", VInt 2)]; VDict [("comments", VInt 0)]])
    as [H _].
  - discriminate.
  - repeat constructor; eexists; (split; [reflexivity|]); right; eexists; reflexivity.
  - rewrite H. reflexivity.
Defined.

(** The second theorem on three pull requests: two closed, one of them
    merged. *)
Lemma score_pr_merge_rate_thresholds_witness :
  score_pr_merge_rate
    [VDict [("state", VStr "closed"); ("merged_at", VStr "2024-01-01T00:00:00Z")];
     VDict [("state", VStr "closed"); ("merged_at", VNone)];
     VDict [("state", VStr "open")]] = Ret 5.
Proof.
  destruct (score_pr_merge_rate_thresholds
              [VDict [("state", VStr "closed"); ("merged_at", VStr "2024-01-01T00:00:00Z")];
               VDict [("state", VStr "closed"); ("merged_at", VNone)];
               VDict [("state", VStr "open")]])
    as [H _].
  - discriminate.
  - repeat constructor; eexists; reflexivity.
  - rewrite H. reflexivity.
Defined.

End RateWitnesses.

(** ** The sub-scores and their weights *)

Section WeightProps.
Import Analyzer AnalyzerSpec.
Context {P : Platform}.

(** Every sub-score of a report stands under a key of [WEIGHTS] and lies
    between 0 and the weight of that key; the report has one sub-score for
    each key of [WEIGHTS], and the weights add up to 100. *)
Theorem analyze_repo_scores_within_weights :
  forall (n n' : Net) (owner_repo : string) (r : report),
    analyze_repo owner_repo n = (Ret (Scored r), n') ->
    (forall key s, dict_get (scores r) key = Some s ->
                   exists w, dict_get WEIGHTS key = Some w /\ 0 <= s <= w)
    /\ Permutation (dict_keys (scores r)) (dict_keys WEIGHTS)
    /\ py_sum (dict_values WEIGHTS) = 100.
Proof.
  intros n n' owner_repo r H.
  destruct (analyze_repo_scored _ _ _ _ H)
    as (s1 & s2 & s3 & s4 & hs & info & R1 & R2 & R3 & R4 & Hh & Hs & Ht & Hg).
  destruct (score_repo_health_shape _ _ Hh) as (a & b & c & d & -> & Ra & Rb & Rc & Rd).
  cbn in Hs. rewrite Hs. split; [|split].
  - intros key s. cbn [dict_get WEIGHTS].
    repeat match goal with
           | |- context [String.eqb ?k key] =>
               destruct (String.eqb_spec k key) as [<-|?];
               [intros [= <-]; eexists; split; [reflexivity | lia]|]
           end.
    discriminate.
  - cbn. do 5 apply perm_skip.
    apply perm_trans with ["low_open_issues"; "not_archived"; "stars_velocity"].
    + apply perm_swap.
    + apply perm_skip. apply perm_swap.
  - reflexivity.
Qed.

End WeightProps.

Section WeightWitness.
Import Analyzer AnalyzerSpec.

(** The theorem on the report of a repository of the simulated network. *)
Lemma analyze_repo_scores_within_weights_witness :
  exists r n',
    @analyze_repo SimNet.platform "owner/one" (SimNet.start 60) = (Ret (Scored r), n')
    /\ forall key s, dict_get (scores r) key = Some s ->
                     exists w, dict_get WEIGHTS key = Some w /\ 0 <= s <= w.
Proof.
  destruct (@analyze_repo SimNet.platform "owner/one" (SimNet.start 60))
    as [[[err name|r]|x] n'] eqn:E; try (vm_compute in E; discriminate E).
  exists r, n'. split; [reflexivity|].
  destruct (@analyze_repo_scores_within_weights SimNet.platform _ _ _ _ E) as [H _].
  exact H.
Defined.

End WeightWitness.
